(** * generate2.py: the repository metadata generator, embedded in Rocq

    The script scans [apps/packages], validates every version directory
    (signatures, badging, compressed companions, digests) and writes the
    signed manifest.  The embedding follows the script block by block:
    Python values are a small inductive type, dictionaries are
    insertion-ordered association lists, the file system is a finite map
    from path strings to nodes, and the script's effects (tool
    invocations, file reads and writes, exceptions) are threaded through
    a state-and-error monad that also keeps the trace of those actions.

    Conventions of the model.
    - A Python [str] is held as its UTF-8 bytes; [bytes.decode()] is the
      strict UTF-8 validity check, and files opened in text mode are read
      as UTF-8 with universal newlines.  All patterns the script looks for
      are ASCII, so matching on bytes and on code points agree.
    - Paths are compared as strings; a directory holds its listing, which
      the script always reads before it writes into that directory.
    - The external tools (apksigner, aapt2, signify, compress-apks), the
      TOML parser, the JSON serializer, SHA-256 and the clock are fields of
      a [World] record.  apksigner and aapt2 are functions of the artifact
      path: artifacts are not modified while the script runs.
    - TOML floats and date-times are left out of the value type.
    - Standard output is not modelled; the code that builds the printed
      messages is kept for the exceptions it can raise.
    - The model covers the exceptions the script's own logic raises on a
      readable and writable tree (no permission or disk-full errors). *)

From Stdlib Require Import ZArith Lia List Bool Ascii String DecimalString.
From Stdlib Require OrderedTypeEx.
From stdpp Require Import base option list gmap strings sorting.

Local Open Scope Z_scope.
Local Open Scope string_scope.

(** ** Python string primitives *)

Module Py.

(** [s.startswith(p)] *)
Definition startswith (s p : string) : bool := String.prefix p s.

(** [s.endswith(suf)] *)
Fixpoint endswith (s suf : string) : bool :=
  String.eqb s suf ||
  match s with
  | EmptyString => false
  | String _ s' => endswith s' suf
  end.

(** [sub in s] on strings. *)
Fixpoint contains (s sub : string) : bool :=
  String.prefix sub s ||
  match s with
  | EmptyString => false
  | String _ s' => contains s' sub
  end.

(** [s.split(sep)] for a one-character separator (also [bytes.split]):
    the pieces between separators, at least one piece. *)
Fixpoint split_go (sep : ascii) (cur : string) (s : string) : list string :=
  match s with
  | EmptyString => [String.rev cur]
  | String c s' =>
      if Ascii.eqb c sep then String.rev cur :: split_go sep EmptyString s'
      else split_go sep (String c cur) s'
  end.

Definition split (sep : ascii) (s : string) : list string :=
  split_go sep EmptyString s.

(** [sep.join(parts)] *)
Fixpoint join (sep : string) (parts : list string) : string :=
  match parts with
  | [] => EmptyString
  | [p] => p
  | p :: ps => p +:+ sep +:+ join sep ps
  end.

(** The white space that [int] drops around an ASCII literal: tab, line
    feed, vertical tab, form feed, carriage return and space.  The
    separators U+001C to U+001F, which [str.isspace] accepts, are not
    among them: [int] raises [ValueError] on them. *)
Definition isspace (c : ascii) : bool :=
  let n := N_of_ascii c in
  ((9 <=? n) && (n <=? 13) || (n =? 32))%N.

Definition isdigit (c : ascii) : bool :=
  let n := N_of_ascii c in ((48 <=? n) && (n <=? 57))%N.

Definition digit_val (c : ascii) : Z := Z.of_N (N_of_ascii c) - 48.

Fixpoint lstrip (s : string) : string :=
  match s with
  | String c s' => if isspace c then lstrip s' else s
  | EmptyString => EmptyString
  end.

Definition strip (s : string) : string :=
  String.rev (lstrip (String.rev (lstrip s))).

(** The digits of an integer literal: single underscores are allowed
    between digits only.  [prev] tells whether the previous character was
    a digit. *)
Fixpoint int_digits (prev : bool) (acc : Z) (s : string) : option Z :=
  match s with
  | EmptyString => if prev then Some acc else None
  | String c s' =>
      if isdigit c then int_digits true (10 * acc + digit_val c) s'
      else if Ascii.eqb c "_" then
        if prev then
          match s' with
          | String d _ => if isdigit d then int_digits false acc s' else None
          | EmptyString => None
          end
        else None
      else None
  end.

(** [int(s)] in base 10 for ASCII input: surrounding white space is
    dropped, one sign is allowed.  [None] is [ValueError].  Decimal digits
    and white space outside ASCII, which [int] accepts, are not modelled
    and give [None]; neither is the limit on the number of digits. *)
Definition int (s : string) : option Z :=
  match strip s with
  | String "-" d => Z.opp <$> int_digits false 0 d
  | String "+" d => int_digits false 0 d
  | d => int_digits false 0 d
  end.

(** [bytes.decode()]: strict UTF-8 (no overlong forms, no surrogates,
    nothing above U+10FFFF). *)
Definition in_range (lo hi : N) (c : ascii) : bool :=
  let n := N_of_ascii c in ((lo <=? n) && (n <=? hi))%N.

Fixpoint utf8_valid (s : string) : bool :=
  match s with
  | EmptyString => true
  | String c s1 =>
      if in_range 0 127 c then utf8_valid s1
      else
        match s1 with
        | EmptyString => false
        | String c1 s2 =>
            if in_range 194 223 c then in_range 128 191 c1 && utf8_valid s2
            else
              match s2 with
              | EmptyString => false
              | String c2 s3 =>
                  if in_range 224 239 c then
                    (if in_range 224 224 c then in_range 160 191 c1
                     else if in_range 237 237 c then in_range 128 159 c1
                     else in_range 128 191 c1)
                    && in_range 128 191 c2 && utf8_valid s3
                  else
                    match s3 with
                    | EmptyString => false
                    | String c3 s4 =>
                        in_range 240 244 c
                        && (if in_range 240 240 c then in_range 144 191 c1
                            else if in_range 244 244 c then in_range 128 143 c1
                            else in_range 128 191 c1)
                        && in_range 128 191 c2 && in_range 128 191 c3
                        && utf8_valid s4
                    end
              end
        end
  end.

Definition decode (b : string) : option string :=
  if utf8_valid b then Some b else None.

(** Text-mode reading maps the line ends "\r\n" and "\r" to "\n". *)
Definition CR : ascii := ascii_of_N 13.
Definition LF : ascii := ascii_of_N 10.

Fixpoint universal_newlines (s : string) : string :=
  match s with
  | EmptyString => EmptyString
  | String c s' =>
      if Ascii.eqb c CR then
        match s' with
        | String d s'' =>
            if Ascii.eqb d LF then String LF (universal_newlines s'')
            else String LF (universal_newlines s')
        | EmptyString => String LF EmptyString
        end
      else String c (universal_newlines s')
  end.

(** [open(path).read()] on the bytes of a file. *)
Definition read_text (b : string) : option string :=
  universal_newlines <$> decode b.

(** Line boundaries of [str.splitlines]: the number of bytes of the
    boundary that starts [s], if one does.  U+0085, U+2028 and U+2029 are
    met in their UTF-8 form. *)
Definition line_boundary (s : string) : option nat :=
  match s with
  | String c s' =>
      let n := N_of_ascii c in
      if (n =? 13)%N then
        match s' with
        | String d _ => if Ascii.eqb d LF then Some 2%nat else Some 1%nat
        | EmptyString => Some 1%nat
        end
      else if ((n =? 10) || (n =? 11) || (n =? 12)
               || (n =? 28) || (n =? 29) || (n =? 30))%N then Some 1%nat
      else if (n =? 194)%N then
        match s' with
        | String d _ => if (N_of_ascii d =? 133)%N then Some 2%nat else None
        | EmptyString => None
        end
      else if (n =? 226)%N then
        match s' with
        | String d (String e _) =>
            if ((N_of_ascii d =? 128)
                && ((N_of_ascii e =? 168) || (N_of_ascii e =? 169)))%N
            then Some 3%nat else None
        | _ => None
        end
      else None
  | EmptyString => None
  end.

(** [skip] counts the bytes of a boundary still to be dropped. *)
Fixpoint splitlines_go (skip : nat) (cur : string) (s : string) : list string :=
  match s with
  | EmptyString =>
      match cur with
      | EmptyString => []
      | _ => [String.rev cur]
      end
  | String c s' =>
      match skip with
      | S k => splitlines_go k cur s'
      | O =>
          match line_boundary s with
          | Some (S k) => String.rev cur :: splitlines_go k EmptyString s'
          | _ => splitlines_go O (String c cur) s'
          end
      end
  end.

Definition splitlines (s : string) : list string :=
  splitlines_go O EmptyString s.

(** [shlex.split(s)]: POSIX mode, [whitespace_split], no comment
    characters.  The lexer states are those of [shlex.read_token]. *)
Inductive shstate :=
| ShSpace
| ShWord
| ShQuote (q : ascii)
| ShEscape (back : option ascii).

Definition sh_whitespace (c : ascii) : bool :=
  let n := N_of_ascii c in ((n =? 32) || (n =? 9) || (n =? 13) || (n =? 10))%N.
Definition DQ : ascii := ascii_of_N 34.
Definition sh_quote (c : ascii) : bool :=
  Ascii.eqb c "'" || Ascii.eqb c DQ.
Definition sh_escape (c : ascii) : bool := Ascii.eqb c "\".

(** [tok] is the current token, reversed; [quoted] is the flag of the
    same name.  [None] is [ValueError] (no closing quotation, no escaped
    character). *)
Fixpoint shlex_go (st : shstate) (tok : string) (quoted : bool) (s : string)
  : option (list string) :=
  match s with
  | EmptyString =>
      match st with
      | ShSpace => Some []
      | ShWord =>
          if negb quoted && String.eqb tok EmptyString then Some []
          else Some [String.rev tok]
      | ShQuote _ | ShEscape _ => None
      end
  | String c s' =>
      match st with
      | ShSpace =>
          if sh_whitespace c then shlex_go ShSpace EmptyString false s'
          else if sh_escape c then shlex_go (ShEscape None) EmptyString false s'
          else if sh_quote c then shlex_go (ShQuote c) EmptyString true s'
          else shlex_go ShWord (String c EmptyString) false s'
      | ShWord =>
          if sh_whitespace c then
            if negb quoted && String.eqb tok EmptyString then shlex_go ShSpace EmptyString false s'
            else cons (String.rev tok) <$> shlex_go ShSpace EmptyString false s'
          else if sh_quote c then shlex_go (ShQuote c) tok true s'
          else if sh_escape c then shlex_go (ShEscape None) tok quoted s'
          else shlex_go ShWord (String c tok) quoted s'
      | ShQuote q =>
          if Ascii.eqb c q then shlex_go ShWord tok true s'
          else if sh_escape c && Ascii.eqb q DQ then
            shlex_go (ShEscape (Some q)) tok true s'
          else shlex_go (ShQuote q) (String c tok) true s'
      | ShEscape back =>
          match back with
          | Some q =>
              let tok' :=
                if negb (sh_escape c) && negb (Ascii.eqb c q)
                then String c (String "\" tok) else String c tok in
              shlex_go (ShQuote q) tok' quoted s'
          | None => shlex_go ShWord (String c tok) quoted s'
          end
      end
  end.

Definition shlex_split (s : string) : option (list string) :=
  shlex_go ShSpace EmptyString false s.

(** [os.path.join(a, b)] of posixpath. *)
Definition path_join (a b : string) : string :=
  if startswith b "/" then b
  else if String.eqb a EmptyString || endswith a "/" then a +:+ b
  else a +:+ "/" +:+ b.

(** [os.path.basename(p)]: what follows the last slash. *)
Definition basename (p : string) : string := List.last (split "/" p) EmptyString.

End Py.

(** ** Python values and dictionaries *)

(** The values that TOML files and the script itself put into the
    property dictionaries.  Floats, dates and times, which a TOML file
    can hold as well, are left out. *)
Unset Elimination Schemes.
Inductive pyval :=
| PInt (z : Z)
| PStr (s : string)
| PBool (b : bool)
| PList (l : list pyval)
| PDict (d : list (string * pyval)).
Set Elimination Schemes.

(** A [dict] with string keys, in insertion order. *)
Abbreviation dict := (list (string * pyval)).

(** [d.get(k)] *)
Fixpoint dict_get (d : dict) (k : string) : option pyval :=
  match d with
  | [] => None
  | (k', v) :: d' => if String.eqb k' k then Some v else dict_get d' k
  end.

(** [d[k] = v]: an existing key keeps its place, a new one goes last. *)
Fixpoint dict_set (d : dict) (k : string) (v : pyval) : dict :=
  match d with
  | [] => [(k, v)]
  | (k', v') :: d' =>
      if String.eqb k' k then (k, v) :: d' else (k', v') :: dict_set d' k v
  end.

(** The dictionary built from a sequence of items (also
    [for key, value in items: d[key] = value]). *)
Definition dict_update (d : dict) (items : list (string * pyval)) : dict :=
  fold_left (fun acc kv => dict_set acc kv.1 kv.2) items d.

(** [v == z] for an integer [z]: [True == 1] holds in Python. *)
Definition py_eq_int (v : pyval) (z : Z) : bool :=
  match v with
  | PInt z' => Z.eqb z' z
  | PBool b => Z.eqb (if b then 1 else 0) z
  | _ => false
  end.

(** [v == s] for a string [s]. *)
Definition py_eq_str (v : pyval) (s : string) : bool :=
  match v with
  | PStr s' => String.eqb s' s
  | _ => false
  end.

(** The exceptions the script can end with. *)
Inductive error :=
| AssertionError
| KeyError (key : string)
| IndexError
| ValueError
| TypeError
| AttributeError
| UnicodeDecodeError
| TOMLDecodeError
| FileNotFoundError (path : string)
| IsADirectoryError (path : string)
| NotADirectoryError (path : string)
| CalledProcessError (tool : string)
| OSError (tool : string)
| Exception (msg : string).

(** Results of code that may raise. *)
Abbreviation res A := (error + A)%type.

Definition res_bind {A B} (r : res A) (k : A -> res B) : res B :=
  match r with
  | inl e => inl e
  | inr a => k a
  end.

Notation "'let?' x := r 'in' k" := (res_bind r (fun x => k))
  (at level 10, x name, r at level 100, k at level 200).

Definition res_map {A B} (f : A -> B) (r : res A) : res B :=
  match r with
  | inl e => inl e
  | inr a => inr (f a)
  end.

Definition ok {A} (a : A) : res A := inr a.
Definition raise {A} (e : error) : res A := inl e.
Definition assert (b : bool) : res unit :=
  if b then ok tt else raise AssertionError.
Definition or_raise {A} (e : error) (o : option A) : res A :=
  match o with
  | Some a => ok a
  | None => raise e
  end.

(** [d.get(k) != None] *)
Definition has_key (d : dict) (k : string) : bool :=
  match dict_get d k with
  | Some _ => true
  | None => false
  end.

(** [d[k]] *)
Definition dict_item (d : dict) (k : string) : res pyval :=
  or_raise (KeyError k) (dict_get d k).

(** [l[i]] on a list of strings. *)
Definition str_item (l : list string) (i : nat) : res string :=
  or_raise IndexError (l !! i).

(** [s in container]: element of a list, substring of a string, key of a
    dictionary; numbers are not iterable. *)
Definition py_contains (container : pyval) (s : string) : res bool :=
  match container with
  | PList l => ok (existsb (fun v => py_eq_str v s) l)
  | PStr t => ok (Py.contains t s)
  | PDict d => ok (existsb (fun kv => String.eqb kv.1 s) d)
  | PInt _ | PBool _ => raise TypeError
  end.

(** [d[k].append(v)]: only lists have [append]. *)
Definition dict_append (d : dict) (k : string) (v : pyval) : res dict :=
  let? cur := dict_item d k in
  match cur with
  | PList l => ok (dict_set d k (PList (l ++ [v])))
  | _ => raise AttributeError
  end.

(** [", ".join(v)]: the iteration yields the items of a list, the
    characters of a string or the keys of a dictionary; every item must
    be a string. *)
Definition py_join (sep : string) (v : pyval) : res string :=
  match v with
  | PList l =>
      let? parts :=
        foldr (fun x acc =>
                 let? ps := acc in
                 match x with
                 | PStr t => ok (t :: ps)
                 | _ => raise TypeError
                 end) (ok []) l in
      ok (Py.join sep parts)
  | PStr t => ok (Py.join sep ((fun c => String c EmptyString) <$> list_ascii_of_string t))
  | PDict d => ok (Py.join sep (fst <$> d))
  | PInt _ | PBool _ => raise TypeError
  end.

(** ** The file system, the tools and the state of a run *)

(** Modification times are the values [os.path.getmtime] returns, kept
    as opaque numbers. *)
Inductive node :=
| File (content : string) (mtime : Z)
| Dir (entries : list string) (mtime : Z) (size : Z).

Abbreviation FS := (gmap string node).

Definition isfile (fs : FS) (p : string) : bool :=
  match fs !! p with
  | Some (File _ _) => true
  | _ => false
  end.

Definition isdir (fs : FS) (p : string) : bool :=
  match fs !! p with
  | Some (Dir _ _ _) => true
  | _ => false
  end.

Definition listdir (fs : FS) (p : string) : res (list string) :=
  match fs !! p with
  | Some (Dir entries _ _) => ok entries
  | Some (File _ _) => raise (NotADirectoryError p)
  | None => raise (FileNotFoundError p)
  end.

Definition getmtime (fs : FS) (p : string) : res Z :=
  match fs !! p with
  | Some (File _ t) | Some (Dir _ t _) => ok t
  | None => raise (FileNotFoundError p)
  end.

Definition getsize (fs : FS) (p : string) : res Z :=
  match fs !! p with
  | Some (File c _) => ok (Z.of_nat (String.length c))
  | Some (Dir _ _ sz) => ok sz
  | None => raise (FileNotFoundError p)
  end.

(** The bytes of a file, for [open(p, "rb")] and [open(p, "r")]. *)
Definition read_bytes (fs : FS) (p : string) : res string :=
  match fs !! p with
  | Some (File c _) => ok c
  | Some (Dir _ _ _) => raise (IsADirectoryError p)
  | None => raise (FileNotFoundError p)
  end.

(** [sorted(names)]: strings are ordered by code point, which on UTF-8
    bytes is the byte order. *)
Definition str_le (a b : string) : Prop := String.leb a b = true.
#[global] Instance str_le_dec a b : Decision (str_le a b).
Proof. unfold str_le. apply _. Defined.

Definition sorted (names : list string) : list string :=
  merge_sort str_le names.

(** What lies outside the script. *)
Record World := {
  (** [./compress-apks]: exit status and the tree it leaves; [None] when it
      cannot be started. *)
  compress_apks : FS -> option (Z * FS);
  (** [apksigner verify --print-certs --verbose path]: standard output, or
      [None] on a non-zero exit. *)
  apksigner : string -> option string;
  (** [aapt2 dump badging path] *)
  aapt2 : string -> option string;
  (** [signify -S] on the bytes of the message: the bytes of the signature
      file, or [None] on a non-zero exit. *)
  signify : string -> option string;
  (** [tomli.load] on the bytes of a file; [None] is [TOMLDecodeError]. *)
  toml_load : string -> option (list (string * pyval));
  (** [json.dump(..., separators=(',', ':'))] *)
  json_dump : pyval -> string;
  (** [hashlib.new("sha256")], [update], [hexdigest] *)
  sha256_hexdigest : string -> string;
  (** [int(datetime.datetime.utcnow().timestamp())] when the manifest is
      assembled *)
  utc_timestamp : Z;
  (** the modification time given to files written during the run *)
  write_mtime : Z
}.

(** The observable actions of the script. *)
Inductive event :=
| EvExec (argv : list string)
| EvReadText (path : string)
| EvReadBytes (path : string)
| EvWrite (path : string) (content : string)
| EvCopy (src dst : string)
| EvAppend (path : string) (content : string).

Record State := mkState { st_fs : FS; st_trace : list event }.

(** Code with effects: a result and the state reached, also when an
    exception ends the code. *)
Definition M (A : Type) : Type := State -> res A * State.

Definition ret {A} (a : A) : M A := fun s => (inr a, s).
Definition bind {A B} (m : M A) (k : A -> M B) : M B :=
  fun s => match m s with
           | (inl e, s') => (inl e, s')
           | (inr a, s') => k a s'
           end.
Definition lift {A} (r : res A) : M A := fun s => (r, s).
Definition with_fs {A} (f : FS -> res A) : M A := fun s => (f (st_fs s), s).
Definition emit (e : event) : M unit :=
  fun s => (inr tt, mkState (st_fs s) (st_trace s ++ [e])).
Definition set_fs (fs : FS) : M unit :=
  fun s => (inr tt, mkState fs (st_trace s)).

Notation "x <- m ;; k" := (bind m (fun x => k))
  (at level 100, m at next level, right associativity).
Notation "m ;;; k" := (bind m (fun _ => k))
  (at level 100, right associativity).

Fixpoint foldM {A B} (f : B -> A -> M B) (l : list A) (b : B) : M B :=
  match l with
  | [] => ret b
  | x :: l' => b' <- f b x ;; foldM f l' b'
  end.

Definition get_fs : M FS := fun s => (inr (st_fs s), s).
Definition throw {A} (e : error) : M A := lift (raise e).

Fixpoint fold_res {A B} (f : B -> A -> res B) (l : list A) (b : B) : res B :=
  match l with
  | [] => ok b
  | x :: l' => let? b' := f b x in fold_res f l' b'
  end.

(** [open(p, "w")] followed by [write(c)]: the file is created or
    replaced; a directory cannot be opened for writing.  The tree maps
    paths to nodes: the listing and the modification time that a
    directory node carries are those found when the run starts and are
    not updated when a file is created in the directory.  The script
    takes each listing before it writes into the directory and never asks
    for the modification time of a directory it writes into. *)
Definition write_file (mt : Z) (p c : string) : M unit :=
  fs <- get_fs ;;
  if isdir fs p then throw (IsADirectoryError p)
  else set_fs (<[p := File c mt]> fs) ;;; emit (EvWrite p c).

(** ** The script *)

Definition packages_dir : string := "apps/packages".
Definition metadata_prefix : string := "apps/metadata.1".
Definition metadata_json : string := metadata_prefix +:+ ".json".
Definition metadata_json_sig : string := metadata_json +:+ ".0.sig".
Definition metadata_sjson : string := metadata_prefix +:+ ".sjson".

Definition channels : list string := ["alpha"; "beta"; "stable"; "old"].
Definition known_abis : list string :=
  ["arm64-v8a"; "x86_64"; "armeabi-v7a"; "x86"].

Fixpoint strip_prefix (p s : string) : option string :=
  match p, s with
  | EmptyString, _ => Some s
  | String a p', String b s' =>
      if Ascii.eqb a b then strip_prefix p' s' else None
  | String _ _, EmptyString => None
  end.

Fixpoint drop_digits (s : string) : string :=
  match s with
  | String c s' => if Py.isdigit c then drop_digits s' else s
  | EmptyString => EmptyString
  end.

(** [re.split("^Signer #[0-9]+ certificate SHA-256 digest: ", line)]: the
    pattern can only match at the start of the line, so the result has two
    items exactly when the line starts with a match; [Some d] gives the
    second item then, [None] stands for a result of one item. *)
Definition signer_line (line : string) : option string :=
  match strip_prefix "Signer #" line with
  | Some (String d _ as r) =>
      if Py.isdigit d
      then strip_prefix " certificate SHA-256 digest: " (drop_digits r)
      else None
  | _ => None
  end.

Section Script.
Context (w : World).

(** Lines 13-19. *)
Definition load_props (fs : FS) (dir name : string) : res dict :=
  let path := Py.path_join dir (name +:+ ".toml") in
  if isfile fs path then
    let? b := read_bytes fs path in
    let? items := or_raise TOMLDecodeError (toml_load w b) in
    ok (dict_update [] items)
  else ok [].

(** Lines 24-30: one turn of the loop over the lines of the output. *)
Definition signature_step (apk_path : string) (sig_hash : option string)
    (line : string) : res (option string) :=
  let? text := or_raise UnicodeDecodeError (Py.decode line) in
  match signer_line text with
  | Some d =>
      match sig_hash with
      | Some _ => raise (Exception (apk_path +:+ " has more than one signer"))
      | None => ok (Some d)
      end
  | None => ok sig_hash
  end.

(** Lines 23-35, on the output of the tool. *)
Definition parse_signature (apk_path out : string) : res string :=
  let? sig_hash := fold_res (signature_step apk_path) (Py.split Py.LF out) None in
  match sig_hash with
  | None => raise (Exception ("didn't find signature of " +:+ apk_path))
  | Some h => ok h
  end.

(** What [load_signature] returns or raises for a path. *)
Definition signature_of (apk_path : string) : res string :=
  let? out := or_raise (CalledProcessError "apksigner") (apksigner w apk_path) in
  parse_signature apk_path out.

(** Lines 21-35. *)
Definition load_signature (apk_path : string) : M string :=
  emit (EvExec ["apksigner"; "verify"; "--print-certs"; "--verbose"; apk_path]) ;;;
  lift (signature_of apk_path).

(** [subprocess.check_output(["aapt2", "dump", "badging", path])] *)
Definition badging_of (apk_path : string) : res string :=
  or_raise (CalledProcessError "aapt2") (aapt2 w apk_path).

Definition dump_badging (apk_path : string) : M string :=
  emit (EvExec ["aapt2"; "dump"; "badging"; apk_path]) ;;;
  lift (badging_of apk_path).

(** [kv.split("=")[1]] and the like. *)
Definition field (sep : ascii) (kv : string) : res string :=
  str_item (Py.split sep kv) 1.

Definition to_int (s : string) : res Z := or_raise ValueError (Py.int s).

(** The tokens of a line of badging output: [shlex.split(line.decode())]. *)
Definition tokens (line : string) : res (list string) :=
  let? text := or_raise UnicodeDecodeError (Py.decode line) in
  or_raise ValueError (Py.shlex_split text).

(** Lines 72-78: one token of the first line of the primary badging. *)
Definition head_step (pkg_name : string) (pkg_props : dict) (kv : string)
  : res dict :=
  if Py.startswith kv "versionName" then
    let? v := field "=" kv in
    ok (dict_set pkg_props "versionName" (PStr v))
  else if Py.startswith kv "versionCode" then
    let? vc := dict_item pkg_props "versionCode" in
    let? v := field "=" kv in
    let? n := to_int v in
    let? _ := assert (py_eq_int vc n) in
    ok pkg_props
  else if Py.startswith kv "name" then
    let? v := field "=" kv in
    let? _ := assert (String.eqb pkg_name v) in
    ok pkg_props
  else ok pkg_props.

(** Lines 80-90: one of the other lines. *)
Definition line_step (pkg_props : dict) (line : string) : res dict :=
  let? kv := tokens line in
  let? k0 := str_item kv 0 in
  if Py.startswith k0 "application-label:" then
    let? v := field ":" k0 in
    ok (dict_set pkg_props "label" (PStr v))
  else if Py.startswith k0 "sdkVersion" then
    let? v := field ":" k0 in
    let? n := to_int v in
    ok (dict_set pkg_props "minSdk" (PInt n))
  else if Py.startswith k0 "native-code" then
    let? abi := str_item kv 1 in
    let? _ := assert (existsb (String.eqb abi) known_abis) in
    let? _ := assert (negb (has_key pkg_props "abis")) in
    ok (dict_set pkg_props "abis" (PList [PStr abi]))
  else ok pkg_props.

(** Lines 58-59. *)
Definition initial_props (n : Z) : dict :=
  [("versionCode", PInt n); ("apks", PList []); ("apkHashes", PList []);
   ("apkSizes", PList []); ("apkGzSizes", PList []); ("apkBrSizes", PList [])].

(** Lines 70-92, on the badging of the primary artifact. *)
Definition primary_badging (pkg_name : string) (pkg_props : dict)
    (badging : string) : res dict :=
  let lines := Py.split Py.LF badging in
  let? kvs := tokens (hd EmptyString lines) in
  let? p1 := fold_res (head_step pkg_name) kvs pkg_props in
  let? p2 := fold_res line_step (removelast (tl lines)) p1 in
  let? _ := assert (has_key p2 "minSdk") in
  ok p2.

(** Line 97. *)
Definition check_channel (pkg_props : dict) : res unit :=
  let? ch := dict_item pkg_props "channel" in
  assert (existsb (py_eq_str ch) channels).

(** Lines 99-113: the message is printed, not kept; building it raises
    [TypeError] when [maxSdk] is not a string or when a list to join holds
    something else than strings. *)
Definition joined (pkg_props : dict) (k : string) : res unit :=
  match dict_get pkg_props k with
  | Some v => let? _ := py_join ", " v in ok tt
  | None => ok tt
  end.

Definition check_message (pkg_props : dict) : res unit :=
  let? _ := match dict_get pkg_props "maxSdk" with
            | Some (PStr _) | None => ok tt
            | Some _ => raise TypeError
            end in
  let? _ := joined pkg_props "abis" in
  let? _ := joined pkg_props "staticDeps" in
  joined pkg_props "deps".

(** Lines 121-122. *)
Definition check_companions (fs : FS) (apk_path : string) : res unit :=
  let? t := getmtime fs apk_path in
  let? tgz := getmtime fs (apk_path +:+ ".gz") in
  let? _ := assert (Z.eqb t tgz) in
  let? t' := getmtime fs apk_path in
  let? tbr := getmtime fs (apk_path +:+ ".br") in
  assert (Z.eqb t' tbr).

(** Lines 139-144: one token of the first line of a badging read in the
    artifact loop. *)
Definition split_head_step (pkg_name : string) (apk_version_code : option Z)
    (kv : string) : res (option Z) :=
  if Py.startswith kv "versionCode" then
    let? _ := assert (negb (bool_decide (is_Some apk_version_code))) in
    let? v := field "=" kv in
    let? n := to_int v in
    ok (Some n)
  else if Py.startswith kv "name" then
    let? v := field "=" kv in
    let? _ := assert (String.eqb pkg_name v) in
    ok apk_version_code
  else ok apk_version_code.

(** Lines 137-144: the version code the badging declares. *)
Definition declared_version_code (pkg_name badging : string) : res (option Z) :=
  let lines := Py.split Py.LF badging in
  let? kvs := tokens (hd EmptyString lines) in
  fold_res (split_head_step pkg_name) kvs None.

(** Line 146: [pkg_props["versionCode"] == apk_version_code]. *)
Definition same_version_code (vc : pyval) (apk_version_code : option Z) : bool :=
  match apk_version_code with
  | Some n => py_eq_int vc n
  | None => false
  end.

(** Lines 137-146. *)
Definition split_badging (pkg_name : string) (pkg_props : dict)
    (badging : string) : res unit :=
  let? avc := declared_version_code pkg_name badging in
  let? vc := dict_item pkg_props "versionCode" in
  assert (same_version_code vc avc).

(** Lines 132-146: the checks made before an artifact is hashed, as
    results that do not depend on the state. *)
Definition validated (pkg_name base_apk_signature : string) (pkg_props : dict)
    (apk_path : string) : res unit :=
  let? sig := signature_of apk_path in
  if negb (String.eqb sig base_apk_signature)
  then raise (Exception ("signature mismatch, apk: " +:+ apk_path))
  else
    let? badging := badging_of apk_path in
    split_badging pkg_name pkg_props badging.

(** Lines 124-153: the digest of an artifact, from the sidecar when there
    is one, else computed after the checks and written to the sidecar. *)
Definition apk_digest (pkg_name base_apk_signature : string) (pkg_props : dict)
    (apk_path : string) : M string :=
  let apk_hash_path := apk_path +:+ ".sha256" in
  fs <- get_fs ;;
  if isfile fs apk_hash_path then
    b <- with_fs (fun fs => read_bytes fs apk_hash_path) ;;
    emit (EvReadText apk_hash_path) ;;;
    lift (or_raise UnicodeDecodeError (Py.read_text b))
  else
    sig <- load_signature apk_path ;;
    if negb (String.eqb sig base_apk_signature)
    then throw (Exception ("signature mismatch, apk: " +:+ apk_path))
    else
      badging <- dump_badging apk_path ;;
      lift (split_badging pkg_name pkg_props badging) ;;;
      content <- with_fs (fun fs => read_bytes fs apk_path) ;;
      emit (EvReadBytes apk_path) ;;;
      let apk_hash := sha256_hexdigest w content in
      write_file (write_mtime w) apk_hash_path apk_hash ;;;
      ret apk_hash.

(** [pkg_props[k].append(v)] where computing [v] may raise: the method is
    looked up before its argument is evaluated. *)
Definition append_to (pkg_props : dict) (k : string) (v : res pyval) : res dict :=
  let? cur := dict_item pkg_props k in
  match cur with
  | PList l => let? x := v in ok (dict_set pkg_props k (PList (l ++ [x])))
  | _ => raise AttributeError
  end.

(** Lines 155-159. *)
Definition record_apk (fs : FS) (pkg_props : dict)
    (apk_path apk_name apk_hash : string) : res dict :=
  let? p1 := append_to pkg_props "apkHashes" (ok (PStr apk_hash)) in
  let? p2 := append_to p1 "apkSizes" (res_map PInt (getsize fs apk_path)) in
  let? p3 := append_to p2 "apkGzSizes" (res_map PInt (getsize fs (apk_path +:+ ".gz"))) in
  let? p4 := append_to p3 "apkBrSizes" (res_map PInt (getsize fs (apk_path +:+ ".br"))) in
  append_to p4 "apks" (ok (PStr apk_name)).

(** Lines 116-159: the body of the loop over the artifacts. *)
Definition process_apk (pkg_name base_apk_signature pkg_path : string)
    (pkg_props : dict) (apk_name : string) : M dict :=
  let apk_path := Py.path_join pkg_path apk_name in
  with_fs (fun fs => check_companions fs apk_path) ;;;
  apk_hash <- apk_digest pkg_name base_apk_signature pkg_props apk_path ;;
  with_fs (fun fs => record_apk fs pkg_props apk_path apk_name apk_hash).

(** The artifacts of a version directory, in the order of line 115. *)
Definition apk_names (names : list string) : list string :=
  sorted (List.filter (fun n => Py.endswith n ".apk") names).

(** Lines 53-166: the body of the loop over the entries of a package
    directory. *)
Definition process_version (pkg_name : string) (pkg_signatures : pyval)
    (pkg_container_path : string) (package_variants : dict)
    (pkg_version : string) : M dict :=
  let pkg_path := Py.path_join pkg_container_path pkg_version in
  fs <- get_fs ;;
  if negb (isdir fs pkg_path) then ret package_variants
  else
    n <- lift (to_int pkg_version) ;;
    let base_apk_path := Py.path_join pkg_path "base.apk" in
    with_fs (fun fs => assert (isfile fs base_apk_path)) ;;;
    base_apk_signature <- load_signature base_apk_path ;;
    known <- lift (py_contains pkg_signatures base_apk_signature) ;;
    if negb known
    then throw (Exception ("unknown signature of " +:+ base_apk_path
                           +:+ ", SHA-256: " +:+ base_apk_signature))
    else
      badging <- dump_badging base_apk_path ;;
      extracted <- lift (primary_badging pkg_name (initial_props n) badging) ;;
      overrides <- with_fs (fun fs => load_props fs pkg_path "props") ;;
      let pkg_props := dict_update extracted overrides in
      lift (check_channel pkg_props) ;;;
      lift (check_message pkg_props) ;;;
      names <- with_fs (fun fs => listdir fs pkg_path) ;;
      pkg_props <- foldM (process_apk pkg_name base_apk_signature pkg_path)
                     (apk_names names) pkg_props ;;
      channel <- lift (dict_item pkg_props "channel") ;;
      if py_eq_str channel "old" then ret package_variants
      else ret (dict_set package_variants pkg_version (PDict pkg_props)).

(** Lines 43-47: the common properties of a package. *)
Definition common_props_of (fs : FS) (pkg_name : string) : res dict :=
  let pkg_container_path := Py.path_join packages_dir pkg_name in
  let? loaded := load_props fs pkg_container_path "common-props" in
  ok (if isfile fs (Py.path_join pkg_container_path "icon.webp")
      then dict_set loaded "iconType" (PStr "webp") else loaded).

(** Lines 43-169: the body of the loop over the packages. *)
Definition process_package (packages : dict) (pkg_name : string) : M dict :=
  let pkg_container_path := Py.path_join packages_dir pkg_name in
  common_props <- with_fs (fun fs => common_props_of fs pkg_name) ;;
  pkg_signatures <- lift (dict_item common_props "signatures") ;;
  entries <- with_fs (fun fs => listdir fs pkg_container_path) ;;
  package_variants <- foldM (process_version pkg_name pkg_signatures
                               pkg_container_path) (sorted entries) [] ;;
  ret (dict_set packages pkg_name
         (PDict (dict_set common_props "variants" (PDict package_variants)))).

(** Line 37. *)
Definition run_compress : M unit :=
  emit (EvExec ["./compress-apks"]) ;;;
  fs <- get_fs ;;
  match compress_apks w fs with
  | None => throw (OSError "./compress-apks")
  | Some (status, fs') => set_fs fs' ;;; lift (assert (Z.eqb status 0))
  end.

(** Lines 39-169: the scan of the tree. *)
Definition scan : M dict :=
  names <- with_fs (fun fs => listdir fs packages_dir) ;;
  foldM process_package (sorted names) [].

(** Lines 171-174. *)
Definition metadata (packages : dict) : pyval :=
  PDict [("time", PInt (utc_timestamp w)); ("packages", PDict packages)].

(** Line 184: the tool reads the message and leaves the signature file. *)
Definition run_signify : M unit :=
  emit (EvExec ["signify"; "-S"; "-s"; "apps.0.sec"; "-m"; metadata_json;
                "-x"; metadata_json_sig]) ;;;
  fs <- get_fs ;;
  match read_bytes fs metadata_json with
  | inl _ => throw (CalledProcessError "signify")
  | inr msg =>
      match signify w msg with
      | Some sig =>
          if isdir fs metadata_json_sig then throw (CalledProcessError "signify")
          else set_fs (<[metadata_json_sig := File sig (write_mtime w)]> fs)
      | None => throw (CalledProcessError "signify")
      end
  end.

(** Lines 186-187. *)
Definition read_sig : M string :=
  b <- with_fs (fun fs => read_bytes fs metadata_json_sig) ;;
  emit (EvReadText metadata_json_sig) ;;;
  text <- lift (or_raise UnicodeDecodeError (Py.read_text b)) ;;
  lift (str_item (Py.splitlines text) 1).

(** Line 189: [shutil.copy] copies into [dst] when it is a directory. *)
Definition copy (src dst : string) : M unit :=
  fs <- get_fs ;;
  let target := if isdir fs dst then Py.path_join dst (Py.basename src) else dst in
  content <- with_fs (fun fs => read_bytes fs src) ;;
  if isdir fs target then throw (IsADirectoryError target)
  else set_fs (<[target := File content (write_mtime w)]> fs) ;;;
       emit (EvCopy src target).

(** Lines 191-192: [open(p, "a")] creates the file when there is none. *)
Definition append_file (p c : string) : M unit :=
  fs <- get_fs ;;
  match fs !! p with
  | Some (Dir _ _ _) => throw (IsADirectoryError p)
  | Some (File old _) =>
      set_fs (<[p := File (old +:+ c) (write_mtime w)]> fs) ;;; emit (EvAppend p c)
  | None =>
      set_fs (<[p := File c (write_mtime w)]> fs) ;;; emit (EvAppend p c)
  end.

(** Lines 171-192. *)
Definition publish (packages : dict) : M unit :=
  write_file (write_mtime w) metadata_json (json_dump w (metadata packages)) ;;;
  run_signify ;;;
  sig <- read_sig ;;
  copy metadata_json metadata_sjson ;;;
  append_file metadata_sjson (String Py.LF sig +:+ String Py.LF EmptyString).

(** The whole script. *)
Definition main : M unit :=
  run_compress ;;;
  packages <- scan ;;
  publish packages.

End Script.

(** The exit status of the interpreter: 1 after an uncaught exception. *)
Definition exit_status {A} (r : res A) : Z :=
  match r with
  | inl _ => 1
  | inr _ => 0
  end.

(** A run starts with an empty trace. *)
Definition run (w : World) (fs : FS) : res unit * State :=
  main w (mkState fs []).

(** ** Concrete trees and tools

    A small repository used to run the script: one package [app.one]
    trusted for the signature [ab12], with version [6] on the old channel
    and version [7] on the stable channel. *)

Module Scenario.

Definition unlines (ls : list string) : string :=
  fold_right (fun l acc => l +:+ String Py.LF acc) EmptyString ls.

Definition signer_output (digest : string) : string :=
  unlines ["Verifies";
           "Verified using v2 scheme (APK Signature Scheme v2): true";
           "Number of signers: 1";
           "Signer #1 certificate DN: CN=app";
           "Signer #1 certificate SHA-256 digest: " +:+ digest;
           "Signer #1 certificate SHA-1 digest: 99"].

Definition badging_output (code : string) : string :=
  unlines ["package: name='app.one' versionCode='" +:+ code
             +:+ "' versionName='1.0' platformBuildVersionName='13'";
           "sdkVersion:'21'";
           "application-label:'One'";
           "native-code: 'arm64-v8a'"].

(** A TOML reader for the three documents of the scenario. *)
Definition toml (b : string) : option (list (string * pyval)) :=
  if String.eqb b "signatures = ['ab12']"
  then Some [("signatures", PList [PStr "ab12"])]
  else if String.eqb b "channel = 'stable'" then Some [("channel", PStr "stable")]
  else if String.eqb b "channel = 'old'" then Some [("channel", PStr "old")]
  else None.

(** A JSON writer for values whose strings need no escaping. *)
Definition quote (s : string) : string :=
  String Py.DQ s +:+ String Py.DQ EmptyString.

Definition decimal (z : Z) : string :=
  DecimalString.NilZero.string_of_int (Z.to_int z).

Fixpoint json (v : pyval) : string :=
  match v with
  | PInt z => decimal z
  | PStr s => quote s
  | PBool b => if b then "true" else "false"
  | PList l => "[" +:+ Py.join "," (List.map json l) +:+ "]"
  | PDict d =>
      "{" +:+ Py.join "," (List.map (fun kv => quote kv.1 +:+ ":" +:+ json kv.2) d)
      +:+ "}"
  end.

Definition pkg : string := "apps/packages/app.one".

(** A version directory with a primary artifact and one split; [extra]
    holds the sidecars already there. *)
Definition version_dir (v channel : string) (extra : list (string * node))
  : list (string * node) :=
  let d := pkg +:+ "/" +:+ v in
  [(d, Dir (["base.apk"; "base.apk.br"; "base.apk.gz"; "props.toml";
             "split.apk"; "split.apk.br"; "split.apk.gz"] ++ (fst <$> extra)) 50 4096);
   (d +:+ "/base.apk", File "PRIMARY" 10);
   (d +:+ "/base.apk.gz", File "gz" 10);
   (d +:+ "/base.apk.br", File "br" 10);
   (d +:+ "/split.apk", File "SPLIT" 11);
   (d +:+ "/split.apk.gz", File "gz" 11);
   (d +:+ "/split.apk.br", File "br" 11);
   (d +:+ "/props.toml", File ("channel = '" +:+ channel +:+ "'") 12)]
  ++ ((fun e => (d +:+ "/" +:+ e.1, e.2)) <$> extra).

Definition tree (extra : list (string * node)) : FS :=
  list_to_map
    ([("apps", Dir ["packages"] 1 4096);
      ("apps/packages", Dir ["app.one"] 1 4096);
      (pkg, Dir ["7"; "6"; "common-props.toml"; "icon.webp"] 1 4096);
      (pkg +:+ "/common-props.toml", File "signatures = ['ab12']" 2);
      (pkg +:+ "/icon.webp", File "RIFF" 2)]
     ++ version_dir "6" "old" extra ++ version_dir "7" "stable" extra).

(** No sidecar yet: every artifact is validated and hashed. *)
Definition fresh_tree : FS := tree [].

(** The split artifacts already have a sidecar. *)
Definition cached_tree : FS := tree [("split.apk.sha256", File "feed" 20)].

(** A package directory without a common property file. *)
Definition bare_tree : FS :=
  list_to_map
    ([("apps", Dir ["packages"] 1 4096);
      ("apps/packages", Dir ["app.one"] 1 4096);
      (pkg, Dir ["7"] 1 4096)]
     ++ version_dir "7" "stable" []).

Definition version_of (path : string) : string :=
  if Py.contains path "/6/" then "6" else "7".

(** Tools for which every artifact is signed by [ab12] and declares the
    version code of its directory. *)
Definition good : World := {|
  compress_apks fs := Some (0, fs);
  apksigner path := Some (signer_output "ab12");
  aapt2 path := Some (badging_output (version_of path));
  signify msg := Some (unlines ["untrusted comment: signature"; "SIGDATA"]);
  toml_load := toml;
  json_dump := json;
  sha256_hexdigest content := "h-" +:+ content;
  utc_timestamp := 1700000000;
  write_mtime := 99
|}.

(** The same tools, except that every split artifact is signed by [cd34]
    and declares version code 9. *)
Definition bad_split : World := {|
  compress_apks := compress_apks good;
  apksigner path :=
    if Py.endswith path "split.apk" then Some (signer_output "cd34")
    else apksigner good path;
  aapt2 path :=
    if Py.endswith path "split.apk" then Some (badging_output "9")
    else aapt2 good path;
  signify := signify good;
  toml_load := toml;
  json_dump := json;
  sha256_hexdigest := sha256_hexdigest good;
  utc_timestamp := utc_timestamp good;
  write_mtime := write_mtime good
|}.

(** The good tools, except that the signing tool exits with an error. *)
Definition signing_fails : World := {|
  compress_apks := compress_apks good;
  apksigner := apksigner good;
  aapt2 := aapt2 good;
  signify msg := None;
  toml_load := toml;
  json_dump := json;
  sha256_hexdigest := sha256_hexdigest good;
  utc_timestamp := utc_timestamp good;
  write_mtime := write_mtime good
|}.

End Scenario.

(** * Vocabulary of the properties *)

Local Open Scope list_scope.

(** ** Paths, effects and what the scan may change *)

Fixpoint last_char (s : string) : option ascii :=
  match s with
  | EmptyString => None
  | String c EmptyString => Some c
  | String _ s' => last_char s'
  end.

(** [wp m Q E s]: run from [s], [m] ends either with a value and a state
    in [Q] or with an exception and a state in [E]. *)
Definition wp {A} (m : M A) (Q : A -> State -> Prop)
    (E : error -> State -> Prop) (s : State) : Prop :=
  match m s with
  | (inr a, s') => Q a s'
  | (inl e, s') => E e s'
  end.

(** The actions taken while the tree is scanned: the two inspection
    tools, reads, and writes of sidecar files. *)
Definition scan_event (e : event) : bool :=
  match e with
  | EvExec (tool :: _) => String.eqb tool "apksigner" || String.eqb tool "aapt2"
  | EvExec [] => false
  | EvReadText p => Py.endswith p ".sha256"
  | EvReadBytes _ => true
  | EvWrite p _ => Py.endswith p ".sha256"
  | EvCopy _ _ => false
  | EvAppend _ _ => false
  end.

(** [ext s s']: from [s] to [s'] only sidecar paths changed, each to a
    file and none of them a directory before, and the trace grew by scan
    actions. *)
Record ext (s s' : State) : Prop := mk_ext {
  ext_fs : forall p,
    st_fs s' !! p = st_fs s !! p \/
    (Py.endswith p ".sha256" = true /\ isfile (st_fs s') p = true
     /\ isdir (st_fs s) p = false);
  ext_trace : exists evs,
    st_trace s' = st_trace s ++ evs /\ forallb scan_event evs = true
}.

(** ** What the loop bodies establish *)

Section ScanInvariants.
Context (w : World).

(** What holds of an artifact once the loop body has passed it:
    its companions are fresh, and it was validated against the primary
    signature and the version code of the variant unless its sidecar was
    read. *)
Definition artifact_ok (fs0 : FS) (tr : list event) (pkg_name base_sig : string)
    (pkg_props : dict) (dir a : string) : Prop :=
  check_companions fs0 (Py.path_join dir a) = inr tt /\
  (In (EvReadText (Py.path_join dir a +:+ ".sha256")) tr \/
   validated w pkg_name base_sig pkg_props (Py.path_join dir a) = inr tt).

(** What holds of a version directory once the loop body has passed it;
    [n] is its version code, [base_sig] the signature of its primary
    artifact, [pkg_props] the variant built for it. *)
Record version_ok (fs0 : FS) (tr : list event) (pkg_name : string)
    (pkg_signatures : pyval) (dir pkg_version : string) (n : Z)
    (base_sig : string) (pkg_props : dict) : Prop := mk_version_ok {
  vo_int : to_int pkg_version = inr n;
  vo_base :
    isfile fs0 (Py.path_join (Py.path_join dir pkg_version) "base.apk") = true;
  vo_sig :
    signature_of w (Py.path_join (Py.path_join dir pkg_version) "base.apk")
    = inr base_sig;
  vo_trusted : py_contains pkg_signatures base_sig = inr true;
  vo_badging : exists badging extracted overrides,
    badging_of w (Py.path_join (Py.path_join dir pkg_version) "base.apk")
    = inr badging /\
    primary_badging pkg_name (initial_props n) badging = inr extracted /\
    load_props w fs0 (Py.path_join dir pkg_version) "props" = inr overrides /\
    dict_get pkg_props "versionCode"
    = dict_get (dict_update extracted overrides) "versionCode" /\
    dict_get pkg_props "channel"
    = dict_get (dict_update extracted overrides) "channel";
  vo_channel : check_channel pkg_props = inr tt;
  vo_artifacts : exists names,
    listdir fs0 (Py.path_join dir pkg_version) = inr names /\
    forall a, In a (apk_names names) ->
      artifact_ok fs0 tr pkg_name base_sig pkg_props
        (Py.path_join dir pkg_version) a
}.

(** Line 163-166: whether the variant is kept. *)
Definition retained (pkg_props package_variants : dict) (pkg_version : string)
    (variants' : dict) : Prop :=
  exists channel, dict_get pkg_props "channel" = Some channel /\
    if py_eq_str channel "old" then variants' = package_variants
    else variants' = dict_set package_variants pkg_version (PDict pkg_props).

(** An entry of the variant mapping of a package: a variant that was
    built from a version directory and is not on the old channel. *)
Definition variant_entry_ok (fs0 : FS) (tr : list event) (pkg_name : string)
    (sigs : pyval) (kv : string * pyval) : Prop :=
  exists n base_sig pkg_props channel,
    kv.2 = PDict pkg_props /\
    isdir fs0 (Py.path_join (Py.path_join packages_dir pkg_name) kv.1) = true /\
    version_ok fs0 tr pkg_name sigs (Py.path_join packages_dir pkg_name) kv.1
      n base_sig pkg_props /\
    dict_get pkg_props "channel" = Some channel /\
    py_eq_str channel "old" = false.

(** Every version directory of the package has passed the loop body. *)
Definition versions_ok (fs0 : FS) (tr : list event) (pkg_name : string)
    (sigs : pyval) : Prop :=
  exists entries,
    listdir fs0 (Py.path_join packages_dir pkg_name) = inr entries /\
    forall v, In v entries ->
      isdir fs0 (Py.path_join (Py.path_join packages_dir pkg_name) v) = true ->
      exists n base_sig pkg_props,
        version_ok fs0 tr pkg_name sigs (Py.path_join packages_dir pkg_name) v
          n base_sig pkg_props.

(** An entry of the package mapping. *)
Definition package_ok (fs0 : FS) (tr : list event) (pkg_name : string)
    (entry : pyval) : Prop :=
  exists common sigs variants,
    common_props_of w fs0 pkg_name = inr common /\
    dict_get common "signatures" = Some sigs /\
    entry = PDict (dict_set common "variants" (PDict variants)) /\
    Forall (variant_entry_ok fs0 tr pkg_name sigs) variants /\
    versions_ok fs0 tr pkg_name sigs.

End ScanInvariants.

(** ** Runs and the emitted mapping *)

Definition compress_event : event := EvExec ["./compress-apks"].

(** The state in which the scan starts. *)
Definition scan_start (fs0 : FS) : State := mkState fs0 [compress_event].

Definition version_path (pkg_name pkg_version : string) : string :=
  Py.path_join (Py.path_join packages_dir pkg_name) pkg_version.
Definition artifact_path (pkg_name pkg_version apk_name : string) : string :=
  Py.path_join (version_path pkg_name pkg_version) apk_name.
Definition primary_path (pkg_name pkg_version : string) : string :=
  artifact_path pkg_name pkg_version "base.apk".

(** The run goes through: the compression step leaves the tree [fs0] and
    exits with 0, the scan returns [packages] in state [s1], and the
    manifest is written and signed, which ends in state [s2]. *)
Record completes (w : World) (fs fs0 : FS) (packages : dict) (s1 s2 : State)
  : Prop := mk_completes {
  c_compress : compress_apks w fs = Some (0, fs0);
  c_scan : scan w (scan_start fs0) = (inr packages, s1);
  c_publish : publish w packages s1 = (inr tt, s2)
}.

(** The sidecar of an artifact was read during the run. *)
Definition sidecar_read (tr : list event) (apk_path : string) : Prop :=
  In (EvReadText (apk_path +:+ ".sha256")) tr.

(** [pkg_props] is the variant that the mapping [packages] holds for
    version [pkg_version] of [pkg_name], whose trusted signatures are
    [sigs]. *)
Definition emitted_variant (packages : dict) (pkg_name : string) (sigs : pyval)
    (pkg_version : string) (pkg_props : dict) : Prop :=
  exists common variants,
    In (pkg_name, PDict common) packages /\
    dict_get common "signatures" = Some sigs /\
    dict_get common "variants" = Some (PDict variants) /\
    In (pkg_version, PDict pkg_props) variants.

(** The artifacts of a version directory. *)
Definition artifacts (fs0 : FS) (pkg_name pkg_version : string) : list string :=
  match listdir fs0 (version_path pkg_name pkg_version) with
  | inr names => apk_names names
  | inl _ => []
  end.

(** [packages[pkg_name]["variants"][pkg_version]] with the trusted
    signatures of the package. *)
Definition lookup_variant (packages : dict) (pkg_name pkg_version : string)
  : option (pyval * dict) :=
  match dict_get packages pkg_name with
  | Some (PDict common) =>
      match dict_get common "signatures", dict_get common "variants" with
      | Some sigs, Some (PDict variants) =>
          match dict_get variants pkg_version with
          | Some (PDict pkg_props) => Some (sigs, pkg_props)
          | _ => None
          end
      | _, _ => None
      end
  | _ => None
  end.

(** ** The runs of the scenario *)

Module Runs.
Import Scenario.

(** The mapping scanned from the tree with sidecars, with the tools that
    report a foreign signature and version code 9 for the splits. *)
Definition cached_packages : dict :=
  Eval vm_compute in
    match fst (scan bad_split (scan_start cached_tree)) with
    | inr packages => packages
    | inl _ => []
    end.

(** The mapping scanned from the tree without sidecars, with the good
    tools. *)
Definition fresh_packages : dict :=
  Eval vm_compute in
    match fst (scan good (scan_start fresh_tree)) with
    | inr packages => packages
    | inl _ => []
    end.

End Runs.

(** ** The claims as the specification states them *)

(** C1 as the specification states it. *)
Definition signatures_consistent (w : World) (fs : FS) : Prop :=
  forall fs0 packages s1 s2 pkg_name sigs v pkg_props,
    completes w fs fs0 packages s1 s2 ->
    emitted_variant packages pkg_name sigs v pkg_props ->
    exists base_sig,
      signature_of w (primary_path pkg_name v) = inr base_sig /\
      py_contains sigs base_sig = inr true /\
      forall a, In a (artifacts fs0 pkg_name v) ->
        signature_of w (artifact_path pkg_name v a) = inr base_sig.

(** The tokens of the first line that the primary branch compares with
    the version code: those that start with [versionCode] (a token that
    starts with [versionName] is handled before). *)
Definition code_token (kv : string) : bool :=
  negb (Py.startswith kv "versionName") && Py.startswith kv "versionCode".

(** C5 as the specification states it. *)
Definition version_codes_consistent (w : World) (fs : FS) : Prop :=
  forall fs0 packages s1 s2 pkg_name sigs v pkg_props,
    completes w fs fs0 packages s1 s2 ->
    emitted_variant packages pkg_name sigs v pkg_props ->
    exists n,
      to_int v = inr n /\
      dict_get pkg_props "versionCode" = Some (PInt n) /\
      forall a, In a (artifacts fs0 pkg_name v) ->
        exists badging,
          badging_of w (artifact_path pkg_name v a) = inr badging /\
          declared_version_code pkg_name badging = inr (Some n).

(** [pkg_version] is a version directory of the package directory
    [pkg_name] in the tree. *)
Definition in_tree (fs0 : FS) (pkg_name pkg_version : string) : Prop :=
  exists names entries,
    listdir fs0 packages_dir = inr names /\ In pkg_name names /\
    listdir fs0 (Py.path_join packages_dir pkg_name) = inr entries /\
    In pkg_version entries /\
    isdir fs0 (version_path pkg_name pkg_version) = true.

(** The property file of the version puts it on the old channel. *)
Definition on_old_channel (w : World) (fs0 : FS) (pkg_name pkg_version : string)
  : Prop :=
  exists overrides,
    load_props w fs0 (version_path pkg_name pkg_version) "props" = inr overrides /\
    dict_get overrides "channel" = Some (PStr "old").

(** The channel of a variant is not the old one. *)
Definition not_old (pkg_props : dict) : Prop :=
  exists channel, dict_get pkg_props "channel" = Some channel /\
    py_eq_str channel "old" = false.

(** C3 as the specification states it: a run that completes has
    emitted no old variant and has found every old version well formed
    (primary artifact, signatures, companions, version codes). *)
Definition old_versions_validated (w : World) (fs : FS) : Prop :=
  forall fs0 packages s1 s2,
    completes w fs fs0 packages s1 s2 ->
    (forall pkg_name sigs v pkg_props,
       emitted_variant packages pkg_name sigs v pkg_props -> not_old pkg_props) /\
    (forall pkg_name v,
       in_tree fs0 pkg_name v -> on_old_channel w fs0 pkg_name v ->
       isfile fs0 (primary_path pkg_name v) = true /\
       exists base_sig n,
         signature_of w (primary_path pkg_name v) = inr base_sig /\
         to_int v = inr n /\
         forall a, In a (artifacts fs0 pkg_name v) ->
           check_companions fs0 (artifact_path pkg_name v a) = inr tt /\
           signature_of w (artifact_path pkg_name v a) = inr base_sig /\
           exists badging,
             badging_of w (artifact_path pkg_name v a) = inr badging /\
             declared_version_code pkg_name badging = inr (Some n)).

(** ** The publishing stage and the stages of a run *)

Section PublishVocabulary.
Context (w : World).

Definition document (packages : dict) : string :=
  json_dump w (metadata w packages).

Definition signify_event : event :=
  EvExec ["signify"; "-S"; "-s"; "apps.0.sec"; "-m"; metadata_json;
          "-x"; metadata_json_sig].

(** What is appended to the secondary file for a payload. *)
Definition trailer (payload : string) : string :=
  String Py.LF payload +:+ String Py.LF EmptyString.

(** The events of the publishing stage; with [final] unset, those that
    a failing stage can leave: no append, no copy onto the secondary
    file. *)
Definition publish_event (final : bool) (e : event) : bool :=
  match e with
  | EvWrite p _ => String.eqb p metadata_json
  | EvExec (tool :: _) => String.eqb tool "signify"
  | EvExec [] => false
  | EvReadText p => String.eqb p metadata_json_sig
  | EvCopy src dst =>
      String.eqb src metadata_json
      && (final || negb (String.eqb dst metadata_sjson))
  | EvAppend p _ => final && String.eqb p metadata_sjson
  | EvReadBytes _ => false
  end.

(** The trace grew by events that satisfy [P]. *)
Definition grows (P : event -> bool) (s s' : State) : Prop :=
  exists evs, st_trace s' = st_trace s ++ evs /\ forallb P evs = true.

Definition copy_target (fs : FS) (src dst : string) : string :=
  if isdir fs dst then Py.path_join dst (Py.basename src) else dst.

(** What the publishing stage leaves when it succeeds. *)
Definition published (packages : dict) (s1 s2 : State) : Prop :=
  exists sigbytes sigtext payload,
    signify w (document packages) = Some sigbytes /\
    Py.read_text sigbytes = Some sigtext /\
    Py.splitlines sigtext !! 1%nat = Some payload /\
    st_fs s2 =
      <[metadata_sjson := File (document packages +:+ trailer payload) (write_mtime w)]>
        (<[metadata_sjson := File (document packages) (write_mtime w)]>
           (<[metadata_json_sig := File sigbytes (write_mtime w)]>
              (<[metadata_json := File (document packages) (write_mtime w)]>
                 (st_fs s1)))) /\
    st_trace s2 = st_trace s1 ++
      [EvWrite metadata_json (document packages); signify_event;
       EvReadText metadata_json_sig; EvCopy metadata_json metadata_sjson;
       EvAppend metadata_sjson (trailer payload)].

End PublishVocabulary.

(** How a run ends: the compression step cannot be started, or exits
    with another status than 0, or the scan raises, or the publishing
    stage is reached. *)
Inductive run_stage (w : World) (fs : FS) (r : res unit) (s : State) : Prop :=
| stage_no_compress :
    compress_apks w fs = None ->
    r = inl (OSError "./compress-apks") -> s = scan_start fs ->
    run_stage w fs r s
| stage_compress_failed status fs0 :
    compress_apks w fs = Some (status, fs0) -> status <> 0 ->
    r = inl AssertionError -> s = scan_start fs0 ->
    run_stage w fs r s
| stage_scan_failed fs0 e :
    compress_apks w fs = Some (0, fs0) ->
    scan w (scan_start fs0) = (inl e, s) -> r = inl e ->
    run_stage w fs r s
| stage_publish fs0 packages s1 :
    compress_apks w fs = Some (0, fs0) ->
    scan w (scan_start fs0) = (inr packages, s1) ->
    publish w packages s1 = (r, s) ->
    run_stage w fs r s.

(** The events of a run after the first: scan actions, then the actions
    of the publishing stage. *)
Definition later_event (final : bool) (e : event) : bool :=
  scan_event e || publish_event final e.

Definition succeeded {A} (r : res A) : bool :=
  match r with
  | inr _ => true
  | inl _ => false
  end.

(** C2 as the specification states it. *)
Definition never_compresses (w : World) (fs : FS) : Prop :=
  ~ In compress_event (st_trace (snd (run w fs))).

(** The run wrote the canonical manifest or the secondary file. *)
Definition manifest_event (e : event) : bool :=
  match e with
  | EvWrite p _ => String.eqb p metadata_json || String.eqb p metadata_sjson
  | EvCopy _ dst => String.eqb dst metadata_sjson
  | EvAppend p _ => String.eqb p metadata_sjson
  | _ => false
  end.

(** C6 as the specification states it. *)
Definition atomic_failure (w : World) (fs : FS) : Prop :=
  forall e s, run w fs = (inl e, s) ->
    exit_status (fst (run w fs)) <> 0 /\
    forallb (fun ev => negb (manifest_event ev)) (st_trace s) = true.

Definition common_props_path (pkg_name : string) : string :=
  Py.path_join (Py.path_join packages_dir pkg_name) "common-props.toml".

(** C8 as the specification states it: a package directory
    without the file is still processed and gets its entry. *)
Definition tolerates_missing_common_props (w : World) (fs : FS) : Prop :=
  forall fs0 names pkg_name,
    compress_apks w fs = Some (0, fs0) ->
    listdir fs0 packages_dir = inr names -> In pkg_name names ->
    isfile fs0 (common_props_path pkg_name) = false ->
    exists packages s1,
      scan w (scan_start fs0) = (inr packages, s1) /\
      exists entry, In (pkg_name, entry) packages.

Definition apksigner_event (apk_path : string) : event :=
  EvExec ["apksigner"; "verify"; "--print-certs"; "--verbose"; apk_path].
Definition aapt2_event (apk_path : string) : event :=
  EvExec ["aapt2"; "dump"; "badging"; apk_path].

(** The bytes hold a carriage return. *)
Fixpoint has_cr (s : string) : bool :=
  match s with
  | EmptyString => false
  | String c s' => Ascii.eqb c Py.CR || has_cr s'
  end.

Definition no_write (e : event) : bool :=
  match e with
  | EvWrite _ _ | EvCopy _ _ | EvAppend _ _ => false
  | _ => true
  end.

(** The digests of the signer lines of an output, in order. *)
Definition signer_digests (out : string) : list string :=
  omap signer_line (Py.split Py.LF out).

(** Every line of the output is text. *)
Definition decodable (out : string) : Prop :=
  Forall (fun l => Py.utf8_valid l = true) (Py.split Py.LF out).

Definition found (sig_hash : option string) : list string :=
  match sig_hash with
  | Some d => [d]
  | None => []
  end.

(** C7 as the specification states it, for the output [out] of the
    tool. *)
Definition one_signer_rule (apk_path out : string) : Prop :=
  (forall d, parse_signature apk_path out = inr d <-> signer_digests out = [d]) /\
  (signer_digests out = [] -> exists e, parse_signature apk_path out = inl e) /\
  (2 <= length (signer_digests out) ->
   exists e, parse_signature apk_path out = inl e)%nat.

(** An output with one signer line and a line that is not UTF-8. *)
Definition undecodable_output : string :=
  "Signer #1 certificate SHA-256 digest: ab"
  +:+ String Py.LF (String (ascii_of_N 255) EmptyString).

(** ** Vocabulary of the further properties *)

Fixpoint all_digits (s : string) : bool :=
  match s with
  | EmptyString => true
  | String c s' => Py.isdigit c && all_digits s'
  end.

Definition starts_with_digit (s : string) : bool :=
  match s with
  | String c _ => Py.isdigit c
  | EmptyString => false
  end.

(** The character [c] does not occur in [s]. *)
Fixpoint lacks (c : ascii) (s : string) : bool :=
  match s with
  | EmptyString => true
  | String d s' => negb (Ascii.eqb d c) && lacks c s'
  end.

(** The first token of a line of badging output. *)
Definition line_key (line : string) : option string :=
  match tokens line with
  | inr (k0 :: _) => Some k0
  | _ => None
  end.

(** The lines that the branches of lines 82-90 pick. *)
Definition label_line (line : string) : bool :=
  match line_key line with
  | Some k0 => Py.startswith k0 "application-label:"
  | None => false
  end.

Definition sdk_version_line (line : string) : bool :=
  match line_key line with
  | Some k0 =>
      negb (Py.startswith k0 "application-label:")
      && Py.startswith k0 "sdkVersion"
  | None => false
  end.

Definition native_code_line (line : string) : bool :=
  match line_key line with
  | Some k0 =>
      negb (Py.startswith k0 "application-label:")
      && negb (Py.startswith k0 "sdkVersion")
      && Py.startswith k0 "native-code"
  | None => false
  end.

(** [kv[1]] of line 87: the second token of a line. *)
Definition second_token (line : string) : option string :=
  match tokens line with
  | inr kv =>
      match str_item kv 1 with
      | inr t => Some t
      | inl _ => None
      end
  | inl _ => None
  end.

(** The lines of a badging output that the loop of line 80 runs over. *)
Definition detail_lines (badging : string) : list string :=
  removelast (tl (Py.split Py.LF badging)).

(** ** The lists of a variant *)

(** What lines 155-159 record of one artifact. *)
Record row := mk_row {
  r_name : string;
  r_hash : string;
  r_size : Z;
  r_gz : Z;
  r_br : Z
}.

(** What an artifact adds to the list under [k]. *)
Definition cell (k : string) (r : row) : list pyval :=
  if String.eqb k "apkHashes" then [PStr (r_hash r)]
  else if String.eqb k "apkSizes" then [PInt (r_size r)]
  else if String.eqb k "apkGzSizes" then [PInt (r_gz r)]
  else if String.eqb k "apkBrSizes" then [PInt (r_br r)]
  else if String.eqb k "apks" then [PStr (r_name r)]
  else [].

Definition artifact_keys : list string :=
  ["apkHashes"; "apkSizes"; "apkGzSizes"; "apkBrSizes"; "apks"].

(** The sizes of a row are those of the artifact and of its companions in
    the tree. *)
Definition measured (fs0 : FS) (dir : string) (r : row) : Prop :=
  getsize fs0 (Py.path_join dir (r_name r)) = inr (r_size r) /\
  getsize fs0 (Py.path_join dir (r_name r) +:+ ".gz") = inr (r_gz r) /\
  getsize fs0 (Py.path_join dir (r_name r) +:+ ".br") = inr (r_br r).

(** From [d] to [d'] the list under [k] grew by [xs] at its end. *)
Definition extended (d d' : dict) (k : string) (xs : list pyval) : Prop :=
  match xs with
  | [] => dict_get d' k = dict_get d k
  | _ :: _ =>
      exists l, dict_get d k = Some (PList l) /\
        dict_get d' k = Some (PList (l ++ xs))
  end.

(** From [d] to [d'] one row was recorded for each of [names], in their
    order, and nothing else changed. *)
Definition recorded (fs0 : FS) (dir : string) (names : list string)
    (d d' : dict) : Prop :=
  exists rows, map r_name rows = names /\ Forall (measured fs0 dir) rows /\
    forall k, extended d d' k (flat_map (cell k) rows).

(** The variant [pkg_props] was built from the version directory: from
    the badging of its primary artifact, its property file and one row
    for each of its artifacts. *)
Definition built (w : World) (fs0 : FS) (pkg_name pkg_version : string)
    (pkg_props : dict) : Prop :=
  exists n badging extracted overrides names,
    to_int pkg_version = inr n /\
    badging_of w (primary_path pkg_name pkg_version) = inr badging /\
    primary_badging pkg_name (initial_props n) badging = inr extracted /\
    load_props w fs0 (version_path pkg_name pkg_version) "props" = inr overrides /\
    check_message (dict_update extracted overrides) = inr tt /\
    listdir fs0 (version_path pkg_name pkg_version) = inr names /\
    recorded fs0 (version_path pkg_name pkg_version) (apk_names names)
      (dict_update extracted overrides) pkg_props.

Definition variant_built (w : World) (fs0 : FS) (pkg_name : string)
    (kv : string * pyval) : Prop :=
  exists pkg_props, kv.2 = PDict pkg_props /\ built w fs0 pkg_name kv.1 pkg_props.

Definition package_built (w : World) (fs0 : FS) (kv : string * pyval) : Prop :=
  exists common variants entries,
    kv.2 = PDict (dict_set common "variants" (PDict variants)) /\
    common_props_of w fs0 kv.1 = inr common /\
    listdir fs0 (Py.path_join packages_dir kv.1) = inr entries /\
    sublist (map fst variants) (sorted entries) /\
    List.NoDup (map fst variants) /\
    Forall (variant_built w fs0 kv.1) variants.

(** The value under [k], if there is one, can be joined with a
    separator: it is a list of strings, a string or a dictionary. *)
Definition joinable (d : dict) (k : string) : Prop :=
  match dict_get d k with
  | Some v => exists t, py_join ", " v = inr t
  | None => True
  end.

(** The path of the icon of a package. *)
Definition icon_path (pkg_name : string) : string :=
  Py.path_join (Py.path_join packages_dir pkg_name) "icon.webp".

(** The conditions on the tree and on the signing tool under which the
    publishing stage goes through. *)
Definition publishable (w : World) (packages : dict) (fs : FS) : Prop :=
  isdir fs metadata_json = false /\
  isdir fs metadata_json_sig = false /\
  isdir fs metadata_sjson = false /\
  exists sig text payload,
    signify w (document w packages) = Some sig /\
    Py.read_text sig = Some text /\
    Py.splitlines text !! 1%nat = Some payload.

(** Tools for the further properties. *)
Module Cases.

(** The good tools, except that the verification tool reports no
    signer. *)
Definition unsigned : World := {|
  compress_apks := compress_apks Scenario.good;
  apksigner path := Some "DOES NOT VERIFY";
  aapt2 := aapt2 Scenario.good;
  signify := signify Scenario.good;
  toml_load := Scenario.toml;
  json_dump := Scenario.json;
  sha256_hexdigest := sha256_hexdigest Scenario.good;
  utc_timestamp := utc_timestamp Scenario.good;
  write_mtime := write_mtime Scenario.good
|}.

End Cases.

(** The sidecar of an artifact. *)
Definition sidecar_path (apk_path : string) : string := apk_path +:+ ".sha256".

(** Every artifact of the version directory has a sidecar in the tree of
    [s]; [fs0] is the tree the listing is taken from. *)
Definition version_cached (fs0 : FS) (pkg_name pkg_version : string) (s : State)
  : Prop :=
  isdir fs0 (version_path pkg_name pkg_version) = true ->
  forall a, In a (artifacts fs0 pkg_name pkg_version) ->
    isfile (st_fs s) (sidecar_path (artifact_path pkg_name pkg_version a)) = true.

Definition package_cached (fs0 : FS) (pkg_name : string) (s : State) : Prop :=
  forall entries,
    listdir fs0 (Py.path_join packages_dir pkg_name) = inr entries ->
    forall v, In v entries -> version_cached fs0 pkg_name v s.

(** ** The lines of the signature file *)

(** The bytes that start no line boundary of [str.splitlines] and no line
    end that a text-mode read translates.  The boundaries are line feed,
    carriage return, vertical tab, form feed, the separators U+001C to
    U+001E, and U+0085, U+2028 and U+2029, whose UTF-8 forms start with
    the bytes 194 and 226. *)
Definition unbroken_byte (c : ascii) : bool :=
  let n := N_of_ascii c in
  negb ((n =? 10) || (n =? 11) || (n =? 12) || (n =? 13) || (n =? 28)
        || (n =? 29) || (n =? 30) || (n =? 194) || (n =? 226))%N.

Fixpoint unbroken (s : string) : bool :=
  match s with
  | EmptyString => true
  | String c s' => unbroken_byte c && unbroken s'
  end.

(** The line ends of a text file: a line feed, alone or after a carriage
    return. *)
Definition line_end (e : string) : Prop :=
  e = String Py.LF EmptyString \/ e = String Py.CR (String Py.LF EmptyString).

(** The file [b] starts with the line [l1] and goes on with the line
    [l2], which is ended by a line end or, when it is not empty, by the
    end of the file. *)
Definition first_two_lines (b l1 l2 : string) : Prop :=
  unbroken l1 = true /\ unbroken l2 = true /\
  exists e1, line_end e1 /\
    ((l2 <> EmptyString /\ b = l1 +:+ e1 +:+ l2) \/
     exists e2 rest, line_end e2 /\ b = l1 +:+ e1 +:+ l2 +:+ e2 +:+ rest).

(** ** The companions of the artifacts *)

(** A companion of an artifact: a path that ends in [.gz] or [.br]. *)
Definition companion (p : string) : bool :=
  Py.endswith p ".gz" || Py.endswith p ".br".

(** The tree that the compression step leaves; the tree itself when the
    step cannot be started. *)
Definition compressed (w : World) (fs : FS) : FS :=
  match compress_apks w fs with
  | Some (_, fs0) => fs0
  | None => fs
  end.

(** Lines 121-122: the artifact and its two companions carry the same
    modification time. *)
Definition companions_fresh (fs0 : FS) (apk_path : string) : Prop :=
  exists t,
    getmtime fs0 apk_path = inr t /\
    getmtime fs0 (apk_path +:+ ".gz") = inr t /\
    getmtime fs0 (apk_path +:+ ".br") = inr t.

(** The paths that the publishing stage writes to. *)
Definition publish_paths : list string :=
  [metadata_json; metadata_json_sig; metadata_sjson;
   Py.path_join metadata_sjson (Py.basename metadata_json)].

(** * Properties *)

(** ** Strings and paths *)

Lemma last_char_app (a b : string) :
  b <> EmptyString -> last_char (a +:+ b) = last_char b.
Proof.
  intros Hb. induction a as [|c a IH]; [reflexivity|].
  simpl. rewrite IH. destruct (a +:+ b) eqn:E; [|reflexivity].
  destruct a; cbv beta iota delta [String.append] in E; [congruence|discriminate].
Qed.

Lemma endswith_refl (b : string) : Py.endswith b b = true.
Proof. destruct b; cbn [Py.endswith]; now rewrite String.eqb_refl. Qed.

Lemma endswith_app (a b : string) : Py.endswith (a +:+ b) b = true.
Proof.
  induction a as [|c a IH].
  - apply endswith_refl.
  - change (String c a +:+ b) with (String c (a +:+ b)).
    cbn [Py.endswith]. rewrite IH. apply orb_true_r.
Qed.

Lemma endswith_nil (suf : string) :
  Py.endswith EmptyString suf = true -> suf = EmptyString.
Proof.
  cbn [Py.endswith]. rewrite orb_false_r. intros H.
  symmetry. now apply String.eqb_eq.
Qed.

Lemma endswith_last_char (s suf : string) :
  suf <> EmptyString -> Py.endswith s suf = true -> last_char s = last_char suf.
Proof.
  intros Hsuf. induction s as [|c s IH].
  - intros H. apply endswith_nil in H. congruence.
  - cbn [Py.endswith]. intros H. apply orb_true_iff in H as [H|H].
    + apply String.eqb_eq in H. now rewrite <- H.
    + specialize (IH H). destruct s; [|exact IH].
      apply endswith_nil in H. congruence.
Qed.

Lemma last_char_path_join (d b : string) :
  b <> EmptyString -> last_char (Py.path_join d b) = last_char b.
Proof.
  intros Hb. unfold Py.path_join.
  destruct (Py.startswith b "/"); [reflexivity|].
  destruct (_ || _).
  - now apply last_char_app.
  - rewrite last_char_app; [now apply last_char_app|].
    destruct b; [congruence|discriminate].
Qed.

(** A path whose last character is not [6] is no sidecar path. *)
Lemma not_sidecar (p : string) (c : ascii) :
  last_char p = Some c -> c <> "6"%char -> Py.endswith p ".sha256" = false.
Proof.
  intros Hp Hc. destruct (Py.endswith p ".sha256") eqn:E; [|reflexivity].
  apply endswith_last_char in E; [|discriminate].
  rewrite Hp in E. simpl in E. congruence.
Qed.

Lemma not_sidecar_join (d b : string) (c : ascii) :
  last_char b = Some c -> c <> "6"%char ->
  Py.endswith (Py.path_join d b) ".sha256" = false.
Proof.
  intros Hb Hc. apply not_sidecar with c; [|exact Hc].
  rewrite last_char_path_join; [exact Hb|]. destruct b; [discriminate|congruence].
Qed.

Lemma not_sidecar_apk (d a : string) :
  Py.endswith a ".apk" = true ->
  Py.endswith (Py.path_join d a) ".sha256" = false.
Proof.
  intros H. apply not_sidecar_join with "k"%char; [|discriminate].
  apply endswith_last_char in H; [exact H|discriminate].
Qed.

Lemma not_sidecar_suffix (p suf : string) (c : ascii) :
  last_char suf = Some c -> c <> "6"%char ->
  Py.endswith (p +:+ suf) ".sha256" = false.
Proof.
  intros Hs Hc. apply not_sidecar with c; [|exact Hc].
  rewrite last_char_app; [exact Hs|]. destruct suf; [discriminate|congruence].
Qed.

(** ** Reasoning about effectful code *)

Lemma wp_ret {A} (a : A) Q E s : Q a s -> wp (ret a) Q E s.
Proof. intros H. exact H. Qed.

Lemma wp_bind {A B} (m : M A) (k : A -> M B) Q E s :
  wp m (fun a s' => wp (k a) Q E s') E s -> wp (bind m k) Q E s.
Proof.
  unfold wp, bind. destruct (m s) as [[e|a] s']; intros H; exact H.
Qed.

Lemma wp_lift {A} (r : res A) (Q : A -> State -> Prop) E s :
  (forall a, r = inr a -> Q a s) -> (forall e, r = inl e -> E e s) ->
  wp (lift r) Q E s.
Proof. unfold wp, lift. destruct r; intros H1 H2; auto. Qed.

Lemma wp_with_fs {A} (f : FS -> res A) (Q : A -> State -> Prop) E s :
  (forall a, f (st_fs s) = inr a -> Q a s) ->
  (forall e, f (st_fs s) = inl e -> E e s) ->
  wp (with_fs f) Q E s.
Proof. unfold wp, with_fs. destruct (f (st_fs s)); intros H1 H2; auto. Qed.

Lemma wp_get_fs (Q : FS -> State -> Prop) E s :
  Q (st_fs s) s -> wp get_fs Q E s.
Proof. intros H. exact H. Qed.

Lemma wp_emit (e : event) (Q : unit -> State -> Prop) E s :
  Q tt (mkState (st_fs s) (st_trace s ++ [e])) -> wp (emit e) Q E s.
Proof. intros H. exact H. Qed.

Lemma wp_set_fs (fs : FS) (Q : unit -> State -> Prop) E s :
  Q tt (mkState fs (st_trace s)) -> wp (set_fs fs) Q E s.
Proof. intros H. exact H. Qed.

Lemma wp_throw {A} (e : error) (Q : A -> State -> Prop) E s :
  E e s -> wp (throw e) Q E s.
Proof. intros H. exact H. Qed.

Lemma wp_mono {A} (m : M A) (Q Q' : A -> State -> Prop)
    (E E' : error -> State -> Prop) s :
  wp m Q E s -> (forall a s', Q a s' -> Q' a s') ->
  (forall e s', E e s' -> E' e s') -> wp m Q' E' s.
Proof.
  unfold wp. destruct (m s) as [[e|a] s']; intros H HQ HE; auto.
Qed.

Lemma wp_conj {A} (m : M A) (Q1 Q2 : A -> State -> Prop)
    (E1 E2 : error -> State -> Prop) s :
  wp m Q1 E1 s -> wp m Q2 E2 s ->
  wp m (fun a s' => Q1 a s' /\ Q2 a s') (fun e s' => E1 e s' /\ E2 e s') s.
Proof.
  unfold wp. destruct (m s) as [[e|a] s']; intros H1 H2; now split.
Qed.

(** What [wp] says about a run that is known. *)
Lemma wp_inr {A} (m : M A) Q E s a s' :
  wp m Q E s -> m s = (inr a, s') -> Q a s'.
Proof. unfold wp. intros H Hm. now rewrite Hm in H. Qed.

Lemma wp_inl {A} (m : M A) Q E s e s' :
  wp m Q E s -> m s = (inl e, s') -> E e s'.
Proof. unfold wp. intros H Hm. now rewrite Hm in H. Qed.

(** Loops: [I done b] holds of the accumulator once the items [done]
    have been processed. *)
Lemma wp_foldM_from {A B} (f : B -> A -> M B)
    (I : list A -> B -> State -> Prop) (E : error -> State -> Prop)
    (l : list A) :
  (forall (done : list A) x rest b s, l = (done ++ x :: rest)%list -> I done b s ->
     wp (f b x) (fun b' s' => I (done ++ [x]) b' s') E s) ->
  forall (rest done : list A) b s, l = (done ++ rest)%list -> I done b s ->
    wp (foldM f rest b) (fun b' s' => I l b' s') E s.
Proof.
  intros Hstep rest. induction rest as [|x rest IH]; intros done b s Hl HI.
  - simpl. apply wp_ret. rewrite app_nil_r in Hl. now subst.
  - simpl. apply wp_bind.
    eapply wp_mono; [apply (Hstep done x rest b s Hl HI)| |auto].
    intros b' s' HI'. apply (IH (done ++ [x])); [|exact HI'].
    now rewrite <- app_assoc.
Qed.

Lemma wp_foldM {A B} (f : B -> A -> M B)
    (I : list A -> B -> State -> Prop) (E : error -> State -> Prop)
    (l : list A) b s :
  (forall (done : list A) x rest b s, l = (done ++ x :: rest)%list -> I done b s ->
     wp (f b x) (fun b' s' => I (done ++ [x]) b' s') E s) ->
  I [] b s ->
  wp (foldM f l b) (fun b' s' => I l b' s') E s.
Proof. intros Hstep HI. now apply (wp_foldM_from f I E l Hstep l []). Qed.

(** ** Dictionaries *)

Lemma dict_get_set_eq (d : dict) k v : dict_get (dict_set d k v) k = Some v.
Proof.
  induction d as [|[k' v'] d IH]; cbn [dict_set dict_get].
  - now rewrite String.eqb_refl.
  - destruct (String.eqb k' k) eqn:E; cbn [dict_get].
    + now rewrite String.eqb_refl.
    + now rewrite E.
Qed.

Lemma dict_get_set_ne (d : dict) k v k' :
  k <> k' -> dict_get (dict_set d k v) k' = dict_get d k'.
Proof.
  intros Hne. induction d as [|[k0 v0] d IH]; cbn [dict_set dict_get].
  - apply String.eqb_neq in Hne. now rewrite Hne.
  - destruct (String.eqb k0 k) eqn:E; cbn [dict_get].
    + apply String.eqb_eq in E. subst k0.
      apply String.eqb_neq in Hne. now rewrite Hne.
    + now rewrite IH.
Qed.

Lemma In_dict_set (d : dict) k v k' v' :
  In (k', v') (dict_set d k v) -> (k', v') = (k, v) \/ In (k', v') d.
Proof.
  induction d as [|[k0 v0] d IH]; cbn [dict_set].
  - intros [H|[]]. now left.
  - destruct (String.eqb k0 k); intros [H|H]; auto.
    + right. now right.
    + right. now left.
    + destruct (IH H); auto. right. now right.
Qed.

Lemma append_to_get (d d' : dict) k v k' :
  append_to d k v = inr d' -> k <> k' -> dict_get d' k' = dict_get d k'.
Proof.
  unfold append_to, dict_item. intros H Hne.
  destruct (dict_get d k) as [[]|]; try discriminate.
  cbn in H. destruct v; try discriminate. cbn in H.
  injection H as <-. now apply dict_get_set_ne.
Qed.

(** Recording an artifact leaves the version code and the channel of the
    variant as they were. *)
Lemma record_apk_get fs (d d' : dict) path name h k :
  record_apk fs d path name h = inr d' ->
  k = "versionCode" \/ k = "channel" ->
  dict_get d' k = dict_get d k.
Proof.
  unfold record_apk. intros H Hk.
  destruct (append_to d _ _) as [|p1] eqn:E1; [discriminate|]. cbn [res_bind] in H.
  destruct (append_to p1 _ _) as [|p2] eqn:E2; [discriminate|]. cbn [res_bind] in H.
  destruct (append_to p2 _ _) as [|p3] eqn:E3; [discriminate|]. cbn [res_bind] in H.
  destruct (append_to p3 _ _) as [|p4] eqn:E4; [discriminate|]. cbn [res_bind] in H.
  rewrite (append_to_get _ _ _ _ k H), (append_to_get _ _ _ _ k E4),
    (append_to_get _ _ _ _ k E3), (append_to_get _ _ _ _ k E2),
    (append_to_get _ _ _ _ k E1); [reflexivity|..];
    destruct Hk; subst k; discriminate.
Qed.

Lemma Forall_dict_set (Q : string * pyval -> Prop) (d : dict) k v :
  Forall Q d -> Q (k, v) -> Forall Q (dict_set d k v).
Proof.
  intros Hd Hkv. apply List.Forall_forall. intros [k' v'] Hin.
  apply In_dict_set in Hin as [Heq|Hin]; [now rewrite Heq|].
  rewrite List.Forall_forall in Hd. now apply Hd.
Qed.

Lemma dict_update_get_none (items d : dict) k :
  dict_get items k = None -> dict_get (dict_update d items) k = dict_get d k.
Proof.
  unfold dict_update. revert d.
  induction items as [|[k0 v0] items IH]; intros d H; [reflexivity|].
  cbn [dict_get] in H. cbn [fold_left fst snd].
  destruct (String.eqb k0 k) eqn:E; [discriminate|].
  rewrite (IH _ H). apply dict_get_set_ne. now apply String.eqb_neq.
Qed.

(** ** What the scan may do to the state *)

Lemma ext_refl s : ext s s.
Proof.
  split; [now left|]. exists []. now rewrite app_nil_r.
Qed.

Lemma isfile_not_isdir fs p : isfile fs p = true -> isdir fs p = false.
Proof. unfold isfile, isdir. destruct (fs !! p) as [[]|]; congruence. Qed.

Lemma ext_trans s1 s2 s3 : ext s1 s2 -> ext s2 s3 -> ext s1 s3.
Proof.
  intros [F12 [e12 [T12 S12]]] [F23 [e23 [T23 S23]]]. split.
  - intros p. destruct (F23 p) as [E23|(Hp & Hf & Hd)].
    + destruct (F12 p) as [E12|(Hp & Hf & Hd)].
      * left. congruence.
      * right. repeat split; auto. unfold isfile in *. now rewrite E23.
    + right. repeat split; auto.
      destruct (F12 p) as [E12|(_ & _ & Hd')]; [|exact Hd'].
      unfold isdir in *. now rewrite <- E12.
  - exists (e12 ++ e23). split.
    + now rewrite T23, T12, app_assoc.
    + rewrite forallb_app. now rewrite S12, S23.
Qed.

Lemma ext_emit s e :
  scan_event e = true -> ext s (mkState (st_fs s) (st_trace s ++ [e])).
Proof.
  intros He. split; [now left|]. exists [e]. split; [reflexivity|].
  simpl. now rewrite He.
Qed.

Lemma ext_write s p c t :
  Py.endswith p ".sha256" = true -> isdir (st_fs s) p = false ->
  ext s (mkState (<[p := File c t]> (st_fs s)) (st_trace s)).
Proof.
  intros Hp Hd. split.
  - intros q. simpl. destruct (decide (p = q)) as [->|Hne].
    + right. repeat split; auto. unfold isfile. now rewrite lookup_insert_eq.
    + left. now rewrite lookup_insert_ne.
  - exists []. simpl. now rewrite app_nil_r.
Qed.

Lemma ext_lookup s s' p :
  ext s s' -> Py.endswith p ".sha256" = false -> st_fs s' !! p = st_fs s !! p.
Proof.
  intros [F _] Hp. destruct (F p) as [E|(Hp' & _)]; [exact E|congruence].
Qed.

Lemma ext_listdir s s' p l :
  ext s s' -> listdir (st_fs s') p = inr l -> listdir (st_fs s) p = inr l.
Proof.
  intros [F _]. unfold listdir. destruct (F p) as [E|(_ & Hf & _)].
  - now rewrite E.
  - unfold isfile in Hf. destruct (st_fs s' !! p) as [[]|]; discriminate.
Qed.

Lemma ext_isdir s s' p :
  ext s s' -> isdir (st_fs s') p = isdir (st_fs s) p.
Proof.
  intros [F _]. destruct (F p) as [E|(_ & Hf & Hd)].
  - unfold isdir. now rewrite E.
  - rewrite Hd. now apply isfile_not_isdir.
Qed.

Lemma ext_In s s' e : ext s s' -> In e (st_trace s) -> In e (st_trace s').
Proof.
  intros [_ [evs [-> _]]] H. apply in_or_app. now left.
Qed.

(** Every event of the trace of [s'] is either one of [s] or a scan
    action. *)
Lemma ext_new_event s s' e :
  ext s s' -> In e (st_trace s') -> In e (st_trace s) \/ scan_event e = true.
Proof.
  intros [_ [evs [-> Hall]]] H. apply in_app_or in H as [H|H]; [now left|].
  right. rewrite forallb_forall in Hall. now apply Hall.
Qed.

Section ScanFacts.
Context (w : World).

(** The two tool wrappers. *)
Lemma load_signature_wp s0 s path :
  ext s0 s ->
  wp (load_signature w path)
     (fun sig s' => ext s0 s' /\ signature_of w path = inr sig)
     (fun _ s' => ext s0 s') s.
Proof.
  intros H0. unfold load_signature. apply wp_bind, wp_emit.
  assert (ext s0 (mkState (st_fs s) (st_trace s ++
    [EvExec ["apksigner"; "verify"; "--print-certs"; "--verbose"; path]]))) as H1.
  { eapply ext_trans; [exact H0|]. now apply ext_emit. }
  apply wp_lift; auto.
Qed.

Lemma dump_badging_wp s0 s path :
  ext s0 s ->
  wp (dump_badging w path)
     (fun b s' => ext s0 s' /\ badging_of w path = inr b)
     (fun _ s' => ext s0 s') s.
Proof.
  intros H0. unfold dump_badging. apply wp_bind, wp_emit.
  assert (ext s0 (mkState (st_fs s) (st_trace s ++
    [EvExec ["aapt2"; "dump"; "badging"; path]]))) as H1.
  { eapply ext_trans; [exact H0|]. now apply ext_emit. }
  apply wp_lift; auto.
Qed.

Lemma write_sidecar_wp s0 s p c (Q : unit -> State -> Prop) :
  ext s0 s -> Py.endswith p ".sha256" = true ->
  (forall s', ext s0 s' -> Q tt s') ->
  wp (write_file (write_mtime w) p c) Q (fun _ s' => ext s0 s') s.
Proof.
  intros H0 Hp HQ. unfold write_file. apply wp_bind, wp_get_fs.
  destruct (isdir (st_fs s) p) eqn:Hd; [now apply wp_throw|].
  apply wp_bind, wp_set_fs, wp_emit. apply HQ.
  eapply ext_trans; [exact H0|].
  eapply ext_trans; [now apply (ext_write s p c (write_mtime w))|].
  apply (ext_emit (mkState _ _)). exact Hp.
Qed.

(** The digest step: the artifact was validated unless its sidecar was
    read. *)
Lemma apk_digest_wp s0 s pkg_name base_sig pkg_props path :
  ext s0 s ->
  wp (apk_digest w pkg_name base_sig pkg_props path)
     (fun _ s' => ext s0 s' /\
        (In (EvReadText (path +:+ ".sha256")) (st_trace s') \/
         validated w pkg_name base_sig pkg_props path = inr tt))
     (fun _ s' => ext s0 s') s.
Proof.
  intros H0. unfold apk_digest. apply wp_bind, wp_get_fs.
  destruct (isfile (st_fs s) (path +:+ ".sha256")) eqn:Hside.
  - apply wp_bind, wp_with_fs; [|auto]. intros b Hb.
    apply wp_bind, wp_emit.
    assert (ext s0 (mkState (st_fs s)
             (st_trace s ++ [EvReadText (path +:+ ".sha256")]))) as H1.
    { eapply ext_trans; [exact H0|]. apply ext_emit. apply endswith_app. }
    apply wp_lift; [|auto]. intros h _. split; [exact H1|].
    left. simpl. apply in_or_app. right. now left.
  - apply wp_bind. eapply wp_mono; [apply (load_signature_wp s0); exact H0| |auto].
    intros sig s1 [H1 Hsig]. cbv beta.
    destruct (String.eqb sig base_sig) eqn:Heq; simpl negb; cbv iota;
      [|now apply wp_throw].
    apply wp_bind. eapply wp_mono; [apply (dump_badging_wp s0); exact H1| |auto].
    intros badging s2 [H2 Hbad]. cbv beta.
    apply wp_bind, wp_lift; [|auto]. intros [] Hsplit.
    apply wp_bind, wp_with_fs; [|auto]. intros content Hcontent.
    apply wp_bind, wp_emit.
    apply wp_bind, write_sidecar_wp.
    + eapply ext_trans; [exact H2|]. now apply ext_emit.
    + apply endswith_app.
    + intros s' Hs'. apply wp_ret. split; [exact Hs'|]. right.
      unfold validated. rewrite Hsig. cbn [res_bind]. rewrite Heq. simpl negb.
      cbv iota. rewrite Hbad. cbn [res_bind]. exact Hsplit.
Qed.

(** The checks before hashing look at the version code of the variant
    only. *)
Lemma validated_version_code pkg_name base_sig (d d' : dict) path :
  dict_get d "versionCode" = dict_get d' "versionCode" ->
  validated w pkg_name base_sig d path = validated w pkg_name base_sig d' path.
Proof.
  intros H. unfold validated, split_badging, dict_item. now rewrite H.
Qed.

(** The companions of an artifact are looked up outside the sidecars. *)
Lemma check_companions_ext s0 s dir a :
  ext s0 s -> Py.endswith a ".apk" = true ->
  check_companions (st_fs s) (Py.path_join dir a)
  = check_companions (st_fs s0) (Py.path_join dir a).
Proof.
  intros H0 Ha. unfold check_companions, getmtime.
  rewrite (ext_lookup s0 s (Py.path_join dir a) H0 (not_sidecar_apk dir a Ha)).
  rewrite (ext_lookup s0 s (Py.path_join dir a +:+ ".gz") H0);
    [|apply not_sidecar_suffix with "z"%char; [reflexivity|discriminate]].
  rewrite (ext_lookup s0 s (Py.path_join dir a +:+ ".br") H0);
    [|apply not_sidecar_suffix with "r"%char; [reflexivity|discriminate]].
  reflexivity.
Qed.

Lemma artifact_ok_mono fs0 (tr tr' : list event) pkg_name base_sig d d' dir a :
  (forall e, In e tr -> In e tr') ->
  dict_get d "versionCode" = dict_get d' "versionCode" ->
  artifact_ok w fs0 tr pkg_name base_sig d dir a ->
  artifact_ok w fs0 tr' pkg_name base_sig d' dir a.
Proof.
  intros Htr Hd [Hc Hv]. split; [exact Hc|].
  destruct Hv as [Hv|Hv]; [left; now apply Htr|right].
  now rewrite <- (validated_version_code _ _ d d').
Qed.

Lemma process_apk_wp s0 s pkg_name base_sig dir (pkg_props : dict) a :
  ext s0 s -> Py.endswith a ".apk" = true ->
  wp (process_apk w pkg_name base_sig dir pkg_props a)
     (fun d' s' => ext s0 s' /\
        dict_get d' "versionCode" = dict_get pkg_props "versionCode" /\
        dict_get d' "channel" = dict_get pkg_props "channel" /\
        artifact_ok w (st_fs s0) (st_trace s') pkg_name base_sig pkg_props dir a)
     (fun _ s' => ext s0 s') s.
Proof.
  intros H0 Ha. unfold process_apk.
  apply wp_bind, wp_with_fs; [|auto]. intros [] Hc.
  rewrite (check_companions_ext s0 s dir a H0 Ha) in Hc.
  apply wp_bind. eapply wp_mono; [apply (apk_digest_wp s0); exact H0| |auto].
  intros h s1 [H1 Hv]. cbv beta.
  apply wp_with_fs; [|auto]. intros d' Hd'.
  split; [exact H1|]. split; [|split].
  - apply (record_apk_get _ _ _ _ _ _ _ Hd'). now left.
  - apply (record_apk_get _ _ _ _ _ _ _ Hd'). now right.
  - split; [exact Hc|exact Hv].
Qed.

(** The names the artifact loop runs over end in [.apk]. *)
Lemma apk_names_spec names a :
  In a (apk_names names) <-> In a names /\ Py.endswith a ".apk" = true.
Proof.
  unfold apk_names, sorted. rewrite <- list_elem_of_In.
  rewrite merge_sort_Permutation. rewrite list_elem_of_In.
  apply (filter_In (fun n => Py.endswith n ".apk")).
Qed.

(** The artifact loop. *)
Lemma apk_loop_wp s0 s pkg_name base_sig dir (pkg_props : dict) names :
  ext s0 s ->
  wp (foldM (process_apk w pkg_name base_sig dir) (apk_names names) pkg_props)
     (fun d' s' => ext s0 s' /\
        dict_get d' "versionCode" = dict_get pkg_props "versionCode" /\
        dict_get d' "channel" = dict_get pkg_props "channel" /\
        forall a, In a (apk_names names) ->
          artifact_ok w (st_fs s0) (st_trace s') pkg_name base_sig d' dir a)
     (fun _ s' => ext s0 s') s.
Proof.
  intros H0.
  apply (wp_foldM (process_apk w pkg_name base_sig dir)
    (fun done d' s' => ext s0 s' /\
        dict_get d' "versionCode" = dict_get pkg_props "versionCode" /\
        dict_get d' "channel" = dict_get pkg_props "channel" /\
        forall a, In a done ->
          artifact_ok w (st_fs s0) (st_trace s') pkg_name base_sig d' dir a)).
  - intros done a rest d1 s1 Hl (H1 & Hvc & Hch & Hdone).
    assert (Py.endswith a ".apk" = true) as Ha.
    { apply (apk_names_spec names a). rewrite Hl. apply in_or_app. right. now left. }
    eapply wp_mono; [apply (process_apk_wp s1 s1); [apply ext_refl|exact Ha]| |].
    + intros d2 s2 (H2 & Hvc2 & Hch2 & Hok). cbv beta.
      split; [now apply ext_trans with s1|].
      split; [congruence|]. split; [congruence|].
      intros b Hb. apply in_app_or in Hb as [Hb|[<-|[]]].
      * apply (artifact_ok_mono _ (st_trace s1) _ _ _ d1); auto.
        intros e. now apply ext_In.
      * destruct Hok as [Hc Hv]. split.
        -- rewrite <- Hc. symmetry. now apply check_companions_ext.
        -- destruct Hv as [Hv|Hv]; [now left|right].
           now rewrite (validated_version_code _ _ d2 d1).
    + intros e s2 H2. now apply ext_trans with s1.
  - split; [exact H0|]. split; [reflexivity|]. split; [reflexivity|].
    intros a [].
Qed.

(** Property files are read outside the sidecars. *)
Lemma load_props_ext s0 s dir name :
  ext s0 s -> load_props w (st_fs s) dir name = load_props w (st_fs s0) dir name.
Proof.
  intros H0. unfold load_props, isfile, read_bytes.
  rewrite (ext_lookup s0 s _ H0); [reflexivity|].
  apply not_sidecar with "l"%char; [|discriminate].
  rewrite last_char_path_join.
  - now apply last_char_app.
  - destruct name; discriminate.
Qed.

Lemma version_ok_mono fs0 (tr tr' : list event) pkg_name sigs dir v n b d :
  (forall e, In e tr -> In e tr') ->
  version_ok w fs0 tr pkg_name sigs dir v n b d ->
  version_ok w fs0 tr' pkg_name sigs dir v n b d.
Proof.
  intros Htr [H1 H2 H3 H4 H5 H6 (names & Hn & H7)].
  split; auto. exists names. split; [exact Hn|]. intros a Ha.
  apply (artifact_ok_mono fs0 tr tr' _ _ d d); auto.
Qed.

Lemma check_channel_get (d d' : dict) :
  dict_get d "channel" = dict_get d' "channel" ->
  check_channel d = check_channel d'.
Proof. intros H. unfold check_channel, dict_item. now rewrite H. Qed.

Lemma process_version_wp s0 s pkg_name sigs dir (variants : dict) v :
  ext s0 s ->
  wp (process_version w pkg_name sigs dir variants v)
     (fun variants' s' => ext s0 s' /\
        if isdir (st_fs s0) (Py.path_join dir v) then
          exists n base_sig pkg_props,
            version_ok w (st_fs s0) (st_trace s') pkg_name sigs dir v n base_sig
              pkg_props /\
            retained pkg_props variants v variants'
        else variants' = variants)
     (fun _ s' => ext s0 s') s.
Proof.
  intros H0. unfold process_version. apply wp_bind, wp_get_fs.
  rewrite (ext_isdir s0 s _ H0).
  destruct (isdir (st_fs s0) (Py.path_join dir v)) eqn:Hdir; simpl negb; cbv iota.
  2: { apply wp_ret. now split. }
  apply wp_bind, wp_lift; [|auto]. intros n Hn.
  apply wp_bind, wp_with_fs; [|auto]. intros [] Hbase.
  assert (isfile (st_fs s0) (Py.path_join (Py.path_join dir v) "base.apk") = true)
    as Hbase0.
  { unfold isfile in *.
    rewrite <- (ext_lookup s0 s _ H0);
      [|apply not_sidecar_join with "k"%char; [reflexivity|discriminate]].
    destruct (st_fs s !! _) as [[]|]; [reflexivity|discriminate..]. }
  apply wp_bind. eapply wp_mono; [apply (load_signature_wp s0); exact H0| |auto].
  intros bsig s1 [H1 Hsig]. cbv beta.
  apply wp_bind, wp_lift; [|auto]. intros known Hknown.
  destruct known; simpl negb; cbv iota; [|now apply wp_throw].
  apply wp_bind. eapply wp_mono; [apply (dump_badging_wp s0); exact H1| |auto].
  intros badging s2 [H2 Hbad]. cbv beta.
  apply wp_bind, wp_lift; [|auto]. intros extracted Hext.
  apply wp_bind, wp_with_fs; [|auto]. intros overrides Hover.
  rewrite (load_props_ext s0 s2 _ _ H2) in Hover.
  apply wp_bind, wp_lift; [|auto]. intros [] Hchan.
  apply wp_bind, wp_lift; [|auto]. intros [] _.
  apply wp_bind, wp_with_fs; [|auto]. intros names Hnames.
  apply (ext_listdir s0 s2 _ _ H2) in Hnames.
  apply wp_bind.
  eapply wp_mono; [apply (apk_loop_wp s0); exact H2| |auto].
  intros props s3 (H3 & Hvc & Hch & Hart). cbv beta.
  apply wp_bind, wp_lift; [|auto]. intros channel Hchannel.
  assert (version_ok w (st_fs s0) (st_trace s3) pkg_name sigs dir v n bsig props)
    as Hok.
  { split; auto.
    - exists badging, extracted, overrides. repeat split; auto.
    - now rewrite (check_channel_get props (dict_update extracted overrides)).
    - exists names. split; [exact Hnames|exact Hart]. }
  assert (dict_get props "channel" = Some channel) as Hget.
  { unfold dict_item in Hchannel.
    destruct (dict_get props "channel"); [|discriminate].
    now injection Hchannel as ->. }
  destruct (py_eq_str channel "old") eqn:Hold; apply wp_ret;
    (split; [exact H3|]); exists n, bsig, props; (split; [exact Hok|]);
    exists channel; (split; [exact Hget|]); now rewrite Hold.
Qed.

Lemma common_props_ext s0 s pkg_name :
  ext s0 s ->
  common_props_of w (st_fs s) pkg_name = common_props_of w (st_fs s0) pkg_name.
Proof.
  intros H0. unfold common_props_of.
  rewrite (load_props_ext s0 s _ _ H0). unfold isfile.
  rewrite (ext_lookup s0 s _ H0); [reflexivity|].
  apply not_sidecar_join with "p"%char; [reflexivity|discriminate].
Qed.

Lemma In_sorted (l : list string) x : In x (sorted l) <-> In x l.
Proof.
  unfold sorted. rewrite <- !list_elem_of_In. now rewrite merge_sort_Permutation.
Qed.

Lemma variant_entry_ok_mono fs0 (tr tr' : list event) pkg_name sigs kv :
  (forall e, In e tr -> In e tr') ->
  variant_entry_ok w fs0 tr pkg_name sigs kv ->
  variant_entry_ok w fs0 tr' pkg_name sigs kv.
Proof.
  intros Htr (n & b & d & ch & H1 & H2 & H3 & H4).
  exists n, b, d, ch. split; [exact H1|]. split; [exact H2|].
  split; [|exact H4]. now apply (version_ok_mono fs0 tr tr').
Qed.

Lemma versions_ok_mono fs0 (tr tr' : list event) pkg_name sigs :
  (forall e, In e tr -> In e tr') ->
  versions_ok w fs0 tr pkg_name sigs -> versions_ok w fs0 tr' pkg_name sigs.
Proof.
  intros Htr (entries & He & H). exists entries. split; [exact He|].
  intros v Hv Hd. destruct (H v Hv Hd) as (n & b & d & Hok).
  exists n, b, d. now apply (version_ok_mono fs0 tr tr').
Qed.

Lemma package_ok_mono fs0 (tr tr' : list event) pkg_name entry :
  (forall e, In e tr -> In e tr') ->
  package_ok w fs0 tr pkg_name entry -> package_ok w fs0 tr' pkg_name entry.
Proof.
  intros Htr (c & sg & vs & H1 & H2 & H3 & H4 & H5).
  exists c, sg, vs. split; [exact H1|]. split; [exact H2|]. split; [exact H3|].
  split.
  - eapply Forall_impl; [exact H4|]. intros kv. now apply variant_entry_ok_mono.
  - now apply (versions_ok_mono fs0 tr tr').
Qed.

(** The loop over the entries of a package directory. *)
Lemma version_loop_wp s0 s pkg_name sigs entries :
  ext s0 s ->
  wp (foldM (process_version w pkg_name sigs (Py.path_join packages_dir pkg_name))
        (sorted entries) [])
     (fun variants s' => ext s0 s' /\
        Forall (variant_entry_ok w (st_fs s0) (st_trace s') pkg_name sigs) variants /\
        forall v, In v entries ->
          isdir (st_fs s0) (Py.path_join (Py.path_join packages_dir pkg_name) v)
          = true ->
          exists n base_sig pkg_props,
            version_ok w (st_fs s0) (st_trace s') pkg_name sigs
              (Py.path_join packages_dir pkg_name) v n base_sig pkg_props)
     (fun _ s' => ext s0 s') s.
Proof.
  intros H0. set (dir := Py.path_join packages_dir pkg_name).
  eapply wp_mono;
    [apply (wp_foldM (process_version w pkg_name sigs dir)
      (fun done variants s' => ext s0 s' /\
        Forall (variant_entry_ok w (st_fs s0) (st_trace s') pkg_name sigs) variants /\
        forall v, In v done -> isdir (st_fs s0) (Py.path_join dir v) = true ->
          exists n base_sig pkg_props,
            version_ok w (st_fs s0) (st_trace s') pkg_name sigs dir v n base_sig
              pkg_props)
      (fun _ s' => ext s0 s'))| |auto].
  - intros done v rest variants s1 Hl (H1 & Hvars & Hdone).
    eapply wp_mono;
      [apply wp_conj;
        [apply (process_version_wp s0 s1); exact H1
        |apply (process_version_wp s1 s1); apply ext_refl]| |].
    + intros variants' s2 [[H2 Hres] [H12 _]]. cbv beta.
      assert (forall e, In e (st_trace s1) -> In e (st_trace s2)) as Htr
        by (intros e; now apply ext_In).
      split; [exact H2|].
      fold dir in Hres.
      destruct (isdir (st_fs s0) (Py.path_join dir v)) eqn:Hdir.
      * destruct Hres as (n & b & d & Hok & ch & Hch & Hret). split.
        -- destruct (py_eq_str ch "old") eqn:Hold; subst variants'.
           ++ eapply Forall_impl; [exact Hvars|].
              intros kv. now apply variant_entry_ok_mono.
           ++ apply Forall_dict_set.
              ** eapply Forall_impl; [exact Hvars|].
                 intros kv. now apply variant_entry_ok_mono.
              ** exists n, b, d, ch. cbn [fst snd]. fold dir. auto.
        -- intros v' Hv' Hd'. apply in_app_or in Hv' as [Hv'|[<-|[]]].
           ++ destruct (Hdone v' Hv' Hd') as (n' & b' & d' & Hok').
              exists n', b', d'. now apply (version_ok_mono _ (st_trace s1)).
           ++ now exists n, b, d.
      * subst variants'. split.
        -- eapply Forall_impl; [exact Hvars|].
           intros kv. now apply variant_entry_ok_mono.
        -- intros v' Hv' Hd'. apply in_app_or in Hv' as [Hv'|[<-|[]]].
           ++ destruct (Hdone v' Hv' Hd') as (n' & b' & d' & Hok').
              exists n', b', d'. now apply (version_ok_mono _ (st_trace s1)).
           ++ congruence.
    + intros e s2 [H2 _]. exact H2.
  - split; [exact H0|]. split; [constructor|]. intros v [].
  - intros variants s' (H1 & Hvars & Hall). split; [exact H1|].
    split; [exact Hvars|]. intros v Hv. apply Hall. now apply In_sorted.
Qed.

(** The body of the loop over the packages. *)
Lemma process_package_wp s0 s (packages : dict) pkg_name :
  ext s0 s ->
  wp (process_package w packages pkg_name)
     (fun packages' s' => ext s0 s' /\
        exists entry, packages' = dict_set packages pkg_name entry /\
          package_ok w (st_fs s0) (st_trace s') pkg_name entry)
     (fun _ s' => ext s0 s') s.
Proof.
  intros H0. unfold process_package.
  apply wp_bind, wp_with_fs; [|auto]. intros common Hcommon.
  rewrite (common_props_ext s0 s _ H0) in Hcommon.
  apply wp_bind, wp_lift; [|auto]. intros sigs Hsigs.
  apply wp_bind, wp_with_fs; [|auto]. intros entries Hentries.
  apply (ext_listdir s0 s _ _ H0) in Hentries.
  apply wp_bind.
  eapply wp_mono; [apply (version_loop_wp s0); exact H0| |auto].
  intros variants s1 (H1 & Hvars & Hall). cbv beta. apply wp_ret.
  split; [exact H1|]. eexists. split; [reflexivity|].
  exists common, sigs, variants. split; [exact Hcommon|]. split.
  { unfold dict_item in Hsigs. destruct (dict_get common "signatures");
      [now injection Hsigs as ->|discriminate]. }
  split; [reflexivity|]. split; [exact Hvars|].
  exists entries. split; [exact Hentries|exact Hall].
Qed.

(** The scan: every entry of the mapping it returns, and every package
    directory, has passed the loop bodies. *)
Lemma scan_wp s0 :
  wp (scan w)
     (fun packages s' => ext s0 s' /\
        Forall (fun kv => package_ok w (st_fs s0) (st_trace s') kv.1 kv.2) packages /\
        exists names, listdir (st_fs s0) packages_dir = inr names /\
          forall p, In p names ->
            exists entry, package_ok w (st_fs s0) (st_trace s') p entry)
     (fun _ s' => ext s0 s') s0.
Proof.
  unfold scan. apply wp_bind, wp_with_fs; [|intros; apply ext_refl].
  intros names Hnames.
  eapply wp_mono;
    [apply (wp_foldM (process_package w)
      (fun done packages s' => ext s0 s' /\
        Forall (fun kv => package_ok w (st_fs s0) (st_trace s') kv.1 kv.2) packages /\
        forall p, In p done ->
          exists entry, package_ok w (st_fs s0) (st_trace s') p entry)
      (fun _ s' => ext s0 s'))| |auto].
  - intros done p rest packages s1 Hl (H1 & Hpk & Hdone).
    eapply wp_mono;
      [apply wp_conj;
        [apply (process_package_wp s0 s1); exact H1
        |apply (process_package_wp s1 s1); apply ext_refl]| |].
    + intros packages' s2 [[H2 (entry & -> & Hentry)] [H12 _]]. cbv beta.
      assert (forall e, In e (st_trace s1) -> In e (st_trace s2)) as Htr
        by (intros e; now apply ext_In).
      split; [exact H2|]. split.
      * apply Forall_dict_set; [|exact Hentry].
        eapply Forall_impl; [exact Hpk|].
        intros kv. now apply package_ok_mono.
      * intros p' Hp'. apply in_app_or in Hp' as [Hp'|[<-|[]]].
        -- destruct (Hdone p' Hp') as (e' & He'). exists e'.
           now apply (package_ok_mono _ (st_trace s1)).
        -- now exists entry.
    + intros e s2 [H2 _]. exact H2.
  - split; [apply ext_refl|]. split; [constructor|]. intros p [].
  - intros packages s' (H1 & Hpk & Hall). split; [exact H1|].
    split; [exact Hpk|]. exists names. split; [exact Hnames|].
    intros p Hp. apply Hall. now apply In_sorted.
Qed.

End ScanFacts.

(** ** Runs *)

Lemma run_unfold w fs :
  run w fs =
  match compress_apks w fs with
  | None => (inl (OSError "./compress-apks"), scan_start fs)
  | Some (status, fs0) =>
      if Z.eqb status 0 then
        match scan w (scan_start fs0) with
        | (inl e, s1) => (inl e, s1)
        | (inr packages, s1) => publish w packages s1
        end
      else (inl AssertionError, scan_start fs0)
  end.
Proof.
  unfold run, main, run_compress, bind, emit, get_fs, set_fs, throw, lift,
    scan_start, compress_event. cbn [st_fs st_trace app].
  destruct (compress_apks w fs) as [[status fs0]|]; [|reflexivity].
  cbn [st_fs st_trace]. destruct (Z.eqb status 0); reflexivity.
Qed.

Lemma run_completes w fs s2 :
  run w fs = (inr tt, s2) <->
  exists fs0 packages s1, completes w fs fs0 packages s1 s2.
Proof.
  rewrite run_unfold. split.
  - destruct (compress_apks w fs) as [[status fs0]|] eqn:Hc; [|discriminate].
    destruct (Z.eqb status 0) eqn:Hs; [|discriminate].
    apply Z.eqb_eq in Hs. subst status.
    destruct (scan w (scan_start fs0)) as [[e|packages] s1] eqn:Hscan;
      [discriminate|].
    intros Hp. exists fs0, packages, s1. now split.
  - intros (fs0 & packages & s1 & [Hc Hs Hp]).
    now rewrite Hc, Hs.
Qed.

Section RunFacts.
Context (w : World).

(** What the checks before hashing establish. *)
Lemma validated_inv pkg_name base_sig (pkg_props : dict) path :
  validated w pkg_name base_sig pkg_props path = inr tt ->
  signature_of w path = inr base_sig /\
  exists badging m vc,
    badging_of w path = inr badging /\
    declared_version_code pkg_name badging = inr (Some m) /\
    dict_get pkg_props "versionCode" = Some vc /\
    py_eq_int vc m = true.
Proof.
  unfold validated. destruct (signature_of w path) as [|sig]; [discriminate|].
  cbn [res_bind]. destruct (String.eqb sig base_sig) eqn:Heq;
    simpl negb; cbv iota; [|discriminate].
  apply String.eqb_eq in Heq. subst sig.
  destruct (badging_of w path) as [|badging]; [discriminate|]. cbn [res_bind].
  unfold split_badging, dict_item.
  destruct (declared_version_code pkg_name badging) as [|avc] eqn:Hd;
    [discriminate|].
  cbn [res_bind]. destruct (dict_get pkg_props "versionCode") as [vc|];
    [|discriminate]. cbn [res_bind or_raise ok].
  destruct avc as [m|]; cbn [same_version_code].
  - destruct (py_eq_int vc m) eqn:E; [|discriminate]. intros _.
    split; [reflexivity|]. now exists badging, m, vc.
  - discriminate.
Qed.

(** The scan of a run that completes. *)
Lemma completes_scan fs fs0 packages s1 s2 :
  completes w fs fs0 packages s1 s2 ->
  ext (scan_start fs0) s1 /\
  Forall (fun kv => package_ok w fs0 (st_trace s1) kv.1 kv.2) packages /\
  exists names, listdir fs0 packages_dir = inr names /\
    forall p, In p names -> exists entry, package_ok w fs0 (st_trace s1) p entry.
Proof.
  intros [_ Hs _]. exact (wp_inr _ _ _ _ _ _ (scan_wp w (scan_start fs0)) Hs).
Qed.

(** An entry of the variant mapping was built from its version
    directory and is not on the old channel. *)
Lemma emitted_variant_ok fs fs0 packages s1 s2 pkg_name sigs v pkg_props :
  completes w fs fs0 packages s1 s2 ->
  emitted_variant packages pkg_name sigs v pkg_props ->
  exists n base_sig channel,
    isdir fs0 (version_path pkg_name v) = true /\
    version_ok w fs0 (st_trace s1) pkg_name sigs
      (Py.path_join packages_dir pkg_name) v n base_sig pkg_props /\
    dict_get pkg_props "channel" = Some channel /\
    py_eq_str channel "old" = false.
Proof.
  intros Hc (common & variants & Hin & Hsig & Hvar & Hv).
  destruct (completes_scan _ _ _ _ _ Hc) as (_ & Hall & _).
  rewrite List.Forall_forall in Hall. specialize (Hall _ Hin).
  destruct Hall as (c0 & sg0 & vs0 & _ & Hsg0 & Hentry & Hvs & _).
  cbn [fst snd] in *. injection Hentry as ->.
  rewrite dict_get_set_eq in Hvar. injection Hvar as <-.
  rewrite dict_get_set_ne in Hsig; [|intros ?; discriminate].
  assert (sg0 = sigs) as -> by congruence.
  rewrite List.Forall_forall in Hvs. specialize (Hvs _ Hv).
  destruct Hvs as (n & b & d & ch & Hd & Hdir & Hok & Hch & Hold).
  cbn [fst snd] in *. injection Hd as <-.
  now exists n, b, ch.
Qed.

End RunFacts.

(** ** Looking up the mapping *)

Lemma dict_get_In (d : dict) k v : dict_get d k = Some v -> In (k, v) d.
Proof.
  induction d as [|[k0 v0] d IH]; cbn [dict_get]; [discriminate|].
  destruct (String.eqb k0 k) eqn:E.
  - apply String.eqb_eq in E. subst k0. intros [= ->]. now left.
  - intros H. right. now apply IH.
Qed.

Lemma lookup_variant_emitted packages pkg_name v sigs pkg_props :
  lookup_variant packages pkg_name v = Some (sigs, pkg_props) ->
  emitted_variant packages pkg_name sigs v pkg_props.
Proof.
  unfold lookup_variant.
  destruct (dict_get packages pkg_name) as [[| | | |common]|] eqn:Hp;
    try discriminate.
  destruct (dict_get common "signatures") as [sg|] eqn:Hs; [|discriminate].
  destruct (dict_get common "variants") as [[| | | |variants]|] eqn:Hv;
    try discriminate.
  destruct (dict_get variants v) as [[| | | |d]|] eqn:Hd; try discriminate.
  intros [= -> ->]. exists common, variants.
  auto using dict_get_In.
Qed.

Lemma completes_by_computation w fs fs0 packages :
  compress_apks w fs = Some (0, fs0) ->
  fst (scan w (scan_start fs0)) = inr packages ->
  fst (publish w packages (snd (scan w (scan_start fs0)))) = inr tt ->
  completes w fs fs0 packages (snd (scan w (scan_start fs0)))
    (snd (publish w packages (snd (scan w (scan_start fs0))))).
Proof.
  intros Hc Hs Hp. split; [exact Hc| |].
  - destruct (scan w (scan_start fs0)) as [r s1]. cbn [fst snd] in *. now subst.
  - destruct (publish w packages _) as [r s2]. cbn [fst snd] in *. now subst.
Qed.

(** ** Two runs that complete *)

Lemma cached_completes :
  completes Scenario.bad_split Scenario.cached_tree Scenario.cached_tree Runs.cached_packages
    (snd (scan Scenario.bad_split (scan_start Scenario.cached_tree)))
    (snd (publish Scenario.bad_split Runs.cached_packages
            (snd (scan Scenario.bad_split (scan_start Scenario.cached_tree))))).
Proof. apply completes_by_computation; vm_compute; reflexivity. Qed.

Lemma fresh_completes :
  completes Scenario.good Scenario.fresh_tree Scenario.fresh_tree Runs.fresh_packages
    (snd (scan Scenario.good (scan_start Scenario.fresh_tree)))
    (snd (publish Scenario.good Runs.fresh_packages
            (snd (scan Scenario.good (scan_start Scenario.fresh_tree))))).
Proof. apply completes_by_computation; vm_compute; reflexivity. Qed.

(** * The claims *)

(** ** C1: signatures of the artifacts of an emitted variant *)

(** C1, counterexample: version 7 of [app.one] is emitted although its
    split, whose sidecar is there already, is signed by [cd34] and the
    primary artifact by [ab12]. *)
Lemma C1_cached_split_counterexample :
  ~ signatures_consistent Scenario.bad_split Scenario.cached_tree.
Proof.
  intros H.
  destruct (H _ _ _ _ "app.one" (PList [PStr "ab12"]) "7"
              (match lookup_variant Runs.cached_packages "app.one" "7" with
               | Some (_, d) => d
               | None => []
               end)
              cached_completes) as (b & Hb & _ & Hall).
  { apply lookup_variant_emitted. vm_compute. reflexivity. }
  specialize (Hall "split.apk").
  vm_compute in Hb. vm_compute in Hall.
  assert (inr "cd34" = (inr b : res string)) as Hsplit
    by (apply Hall; right; now left).
  congruence.
Qed.

(** C1, as amended: for every variant in the emitted mapping, the
    signature digest of the primary artifact is in the trusted set of the
    package, and every artifact of the version directory whose sidecar was
    not read during the run has that same signature digest. *)
Theorem C1_signatures_unless_cached w fs fs0 packages s1 s2 pkg_name sigs v
    pkg_props :
  completes w fs fs0 packages s1 s2 ->
  emitted_variant packages pkg_name sigs v pkg_props ->
  exists base_sig,
    signature_of w (primary_path pkg_name v) = inr base_sig /\
    py_contains sigs base_sig = inr true /\
    forall a, In a (artifacts fs0 pkg_name v) ->
      sidecar_read (st_trace s1) (artifact_path pkg_name v a) \/
      signature_of w (artifact_path pkg_name v a) = inr base_sig.
Proof.
  intros Hc He.
  destruct (emitted_variant_ok w _ _ _ _ _ _ _ _ _ Hc He)
    as (n & b & ch & Hdir & Hok & _).
  destruct Hok as [_ _ Hsig Htrust _ _ (names & Hnames & Hart)].
  exists b. split; [exact Hsig|]. split; [exact Htrust|].
  intros a Ha. unfold artifacts, version_path in Ha. rewrite Hnames in Ha.
  destruct (Hart a Ha) as [_ [Hread|Hval]]; [now left|right].
  now apply validated_inv in Hval.
Qed.

Lemma C1_signatures_unless_cached_witness :
  exists base_sig,
    signature_of Scenario.good (primary_path "app.one" "7") = inr base_sig /\
    py_contains (PList [PStr "ab12"]) base_sig = inr true /\
    forall a, In a (artifacts Scenario.fresh_tree "app.one" "7") ->
      sidecar_read
        (st_trace (snd (scan Scenario.good (scan_start Scenario.fresh_tree))))
        (artifact_path "app.one" "7" a) \/
      signature_of Scenario.good (artifact_path "app.one" "7" a) = inr base_sig.
Proof.
  apply (C1_signatures_unless_cached Scenario.good Scenario.fresh_tree
           Scenario.fresh_tree Runs.fresh_packages _ _ "app.one"
           (PList [PStr "ab12"]) "7"
           (match lookup_variant Runs.fresh_packages "app.one" "7" with
            | Some (_, d) => d
            | None => []
            end)
           fresh_completes).
  apply lookup_variant_emitted. vm_compute. reflexivity.
Defined.

(** ** C5: version codes of the artifacts of a variant *)

Lemma dict_get_set_some (d : dict) k v k' x :
  dict_get d k' = Some x -> exists x', dict_get (dict_set d k v) k' = Some x'.
Proof.
  intros H. destruct (String.eqb k k') eqn:E.
  - apply String.eqb_eq in E. subst k'. exists v. apply dict_get_set_eq.
  - apply String.eqb_neq in E. exists x. now rewrite dict_get_set_ne.
Qed.

Lemma dict_update_get_some (items d : dict) k x :
  dict_get d k = Some x -> exists x', dict_get (dict_update d items) k = Some x'.
Proof.
  unfold dict_update. revert d x.
  induction items as [|[k0 v0] items IH]; intros d x H; [now exists x|].
  cbn [fold_left fst snd].
  destruct (dict_get_set_some d k0 v0 k x H) as (x' & Hx'). now apply (IH _ x').
Qed.

Lemma py_eq_int_PInt n m : py_eq_int (PInt n) m = true -> m = n.
Proof. cbn. intros H. apply Z.eqb_eq in H. congruence. Qed.

Lemma assert_inr b (u : unit) : assert b = inr u -> b = true.
Proof. destruct b; [reflexivity|discriminate]. Qed.

Lemma head_step_inv pkg_name (d d' : dict) kv n :
  head_step pkg_name d kv = inr d' ->
  dict_get d "versionCode" = Some (PInt n) ->
  dict_get d' "versionCode" = Some (PInt n) /\
  (code_token kv = true ->
   exists x, field "=" kv = inr x /\ to_int x = inr n).
Proof.
  unfold head_step, code_token. intros H Hn.
  destruct (Py.startswith kv "versionName") eqn:E1.
  - destruct (field "=" kv) as [|x]; [discriminate|]. cbn [res_bind] in H.
    injection H as <-. split; [|discriminate].
    rewrite dict_get_set_ne; [exact Hn|discriminate].
  - destruct (Py.startswith kv "versionCode") eqn:E2.
    + unfold dict_item in H. rewrite Hn in H. cbn [res_bind or_raise ok] in H.
      destruct (field "=" kv) as [|x]; [discriminate|]. cbn [res_bind] in H.
      destruct (to_int x) as [|m] eqn:Et; [discriminate|]. cbn [res_bind] in H.
      destruct (assert (py_eq_int (PInt n) m)) as [|[]] eqn:Ha; [discriminate|].
      cbn [res_bind] in H. injection H as <-. split; [exact Hn|].
      intros _. exists x. split; [reflexivity|].
      apply assert_inr, py_eq_int_PInt in Ha. now subst m.
    + split; [|discriminate].
      destruct (Py.startswith kv "name").
      * destruct (field "=" kv) as [|x]; [discriminate|]. cbn [res_bind] in H.
        destruct (assert _) as [|[]]; [discriminate|]. cbn [res_bind] in H.
        now injection H as <-.
      * now injection H as <-.
Qed.

Lemma head_fold_inv pkg_name kvs (d d' : dict) n :
  fold_res (head_step pkg_name) kvs d = inr d' ->
  dict_get d "versionCode" = Some (PInt n) ->
  dict_get d' "versionCode" = Some (PInt n) /\
  forall kv, In kv kvs -> code_token kv = true ->
    exists x, field "=" kv = inr x /\ to_int x = inr n.
Proof.
  revert d. induction kvs as [|kv kvs IH]; intros d H Hn.
  - injection H as <-. split; [exact Hn|]. intros kv [].
  - cbn [fold_res] in H.
    destruct (head_step pkg_name d kv) as [|d1] eqn:E; [discriminate|].
    cbn [res_bind] in H.
    destruct (head_step_inv _ _ _ _ _ E Hn) as [Hn1 Hkv].
    destruct (IH _ H Hn1) as [Hn' Hall]. split; [exact Hn'|].
    intros kv' [<-|Hin]; auto.
Qed.

Lemma line_step_version_code (d d' : dict) line :
  line_step d line = inr d' ->
  dict_get d' "versionCode" = dict_get d "versionCode".
Proof.
  unfold line_step. intros H.
  destruct (tokens line) as [|kv]; [discriminate|]. cbn [res_bind] in H.
  destruct (str_item kv 0) as [|k0]; [discriminate|]. cbn [res_bind] in H.
  destruct (Py.startswith k0 "application-label:").
  { destruct (field ":" k0) as [|x]; [discriminate|]. cbn [res_bind] in H.
    injection H as <-. apply dict_get_set_ne. discriminate. }
  destruct (Py.startswith k0 "sdkVersion").
  { destruct (field ":" k0) as [|x]; [discriminate|]. cbn [res_bind] in H.
    destruct (to_int x) as [|m]; [discriminate|]. cbn [res_bind] in H.
    injection H as <-. apply dict_get_set_ne. discriminate. }
  destruct (Py.startswith k0 "native-code").
  { destruct (str_item kv 1) as [|abi]; [discriminate|]. cbn [res_bind] in H.
    destruct (assert _) as [|[]]; [discriminate|]. cbn [res_bind] in H.
    destruct (assert _) as [|[]]; [discriminate|]. cbn [res_bind] in H.
    injection H as <-. apply dict_get_set_ne. discriminate. }
  now injection H as <-.
Qed.

Lemma line_fold_version_code lines (d d' : dict) :
  fold_res line_step lines d = inr d' ->
  dict_get d' "versionCode" = dict_get d "versionCode".
Proof.
  revert d. induction lines as [|l lines IH]; intros d H.
  - now injection H as <-.
  - cbn [fold_res] in H. destruct (line_step d l) as [|d1] eqn:E; [discriminate|].
    cbn [res_bind] in H. rewrite (IH _ H). now apply line_step_version_code in E.
Qed.

(** The primary badging, when accepted for version code [n], declares no
    other version code. *)
Lemma primary_badging_inv pkg_name n badging (extracted : dict) :
  primary_badging pkg_name (initial_props n) badging = inr extracted ->
  dict_get extracted "versionCode" = Some (PInt n) /\
  exists kvs, tokens (hd EmptyString (Py.split Py.LF badging)) = inr kvs /\
    forall kv, In kv kvs -> code_token kv = true ->
      exists x, field "=" kv = inr x /\ to_int x = inr n.
Proof.
  unfold primary_badging. intros H.
  destruct (tokens _) as [|kvs]; [discriminate|]. cbn [res_bind] in H.
  destruct (fold_res (head_step pkg_name) kvs _) as [|p1] eqn:E1; [discriminate|].
  cbn [res_bind] in H.
  destruct (fold_res line_step _ p1) as [|p2] eqn:E2; [discriminate|].
  cbn [res_bind] in H.
  destruct (assert _) as [|[]]; [discriminate|]. cbn [res_bind] in H.
  injection H as <-.
  destruct (head_fold_inv _ _ _ _ n E1 eq_refl) as [Hn Hall].
  split.
  - now rewrite (line_fold_version_code _ _ _ E2).
  - now exists kvs.
Qed.

(** C5, counterexample: version 7 of [app.one] is emitted although its
    split, whose sidecar is there already, declares version code 9. *)
Lemma C5_cached_split_counterexample :
  ~ version_codes_consistent Scenario.bad_split Scenario.cached_tree.
Proof.
  intros H.
  destruct (H _ _ _ _ "app.one" (PList [PStr "ab12"]) "7"
              (match lookup_variant Runs.cached_packages "app.one" "7" with
               | Some (_, d) => d
               | None => []
               end)
              cached_completes) as (n & Hn & _ & Hall).
  { apply lookup_variant_emitted. vm_compute. reflexivity. }
  destruct (Hall "split.apk") as (badging & Hb & Hd).
  { vm_compute. right. now left. }
  vm_compute in Hn. injection Hn as <-.
  vm_compute in Hb. injection Hb as <-.
  vm_compute in Hd. discriminate.
Qed.

(** C5, as amended: for every variant in the emitted mapping, with [n]
    the integer of the directory name, the version code of the variant is
    [n] unless the property file of the version sets [versionCode]; every
    version code that the first badging line of the primary artifact
    declares is [n]; and every artifact whose sidecar was not read during
    the run declares exactly one version code, equal to that of the
    variant. *)
Theorem C5_version_codes_unless_cached w fs fs0 packages s1 s2 pkg_name sigs v
    pkg_props :
  completes w fs fs0 packages s1 s2 ->
  emitted_variant packages pkg_name sigs v pkg_props ->
  exists n vc,
    to_int v = inr n /\
    dict_get pkg_props "versionCode" = Some vc /\
    (forall overrides,
       load_props w fs0 (version_path pkg_name v) "props" = inr overrides ->
       dict_get overrides "versionCode" = None -> vc = PInt n) /\
    (exists badging kvs,
       badging_of w (primary_path pkg_name v) = inr badging /\
       tokens (hd EmptyString (Py.split Py.LF badging)) = inr kvs /\
       forall kv, In kv kvs -> code_token kv = true ->
         exists x, field "=" kv = inr x /\ to_int x = inr n) /\
    forall a, In a (artifacts fs0 pkg_name v) ->
      sidecar_read (st_trace s1) (artifact_path pkg_name v a) \/
      exists badging m,
        badging_of w (artifact_path pkg_name v a) = inr badging /\
        declared_version_code pkg_name badging = inr (Some m) /\
        py_eq_int vc m = true.
Proof.
  intros Hc He.
  destruct (emitted_variant_ok w _ _ _ _ _ _ _ _ _ Hc He)
    as (n & b & ch & Hdir & Hok & _).
  destruct Hok as [Hint _ _ _ (badging & extracted & overrides & Hbad & Hprim
                                & Hover & Hvc & _) _ (names & Hnames & Hart)].
  destruct (primary_badging_inv _ _ _ _ Hprim) as (Hn & kvs & Hkvs & Hall).
  destruct (dict_update_get_some overrides extracted "versionCode" _ Hn)
    as (vc & Hvc').
  exists n, vc. split; [exact Hint|]. split; [congruence|]. split; [|split].
  - intros o Ho Hnone. unfold version_path in Ho. rewrite Hover in Ho.
    injection Ho as <-.
    rewrite (dict_update_get_none _ _ _ Hnone) in Hvc'. congruence.
  - exists badging, kvs. auto.
  - intros a Ha. unfold artifacts, version_path in Ha. rewrite Hnames in Ha.
    destruct (Hart a Ha) as [_ [Hread|Hval]]; [now left|right].
    apply validated_inv in Hval as (_ & bd & m & vc0 & H1 & H2 & H3 & H4).
    exists bd, m. split; [exact H1|]. split; [exact H2|]. congruence.
Qed.

Lemma C5_version_codes_unless_cached_witness :
  exists n vc,
    to_int "7" = inr n /\
    dict_get (match lookup_variant Runs.fresh_packages "app.one" "7" with
              | Some (_, d) => d
              | None => []
              end) "versionCode" = Some vc /\
    (forall overrides,
       load_props Scenario.good Scenario.fresh_tree (version_path "app.one" "7")
         "props" = inr overrides ->
       dict_get overrides "versionCode" = None -> vc = PInt n) /\
    (exists badging kvs,
       badging_of Scenario.good (primary_path "app.one" "7") = inr badging /\
       tokens (hd EmptyString (Py.split Py.LF badging)) = inr kvs /\
       forall kv, In kv kvs -> code_token kv = true ->
         exists x, field "=" kv = inr x /\ to_int x = inr n) /\
    forall a, In a (artifacts Scenario.fresh_tree "app.one" "7") ->
      sidecar_read
        (st_trace (snd (scan Scenario.good (scan_start Scenario.fresh_tree))))
        (artifact_path "app.one" "7" a) \/
      exists badging m,
        badging_of Scenario.good (artifact_path "app.one" "7" a) = inr badging /\
        declared_version_code "app.one" badging = inr (Some m) /\
        py_eq_int vc m = true.
Proof.
  apply (C5_version_codes_unless_cached Scenario.good Scenario.fresh_tree
           Scenario.fresh_tree Runs.fresh_packages _ _ "app.one"
           (PList [PStr "ab12"]) "7" _ fresh_completes).
  apply lookup_variant_emitted. vm_compute. reflexivity.
Defined.

(** ** C3: versions on the old channel *)

(** C3, counterexample: the run completes although the split of the old
    version 6, whose sidecar is there already, is signed by [cd34] and
    the primary artifact by [ab12]. *)
Lemma C3_cached_old_split_counterexample :
  ~ old_versions_validated Scenario.bad_split Scenario.cached_tree.
Proof.
  intros H.
  destruct (H _ _ _ _ cached_completes) as [_ Hold].
  destruct (Hold "app.one" "6") as (_ & b & n & Hb & _ & Hall).
  { exists ["app.one"], ["7"; "6"; "common-props.toml"; "icon.webp"].
    repeat split; try (vm_compute; reflexivity); vm_compute; auto. }
  { exists [("channel", PStr "old")]. split; vm_compute; reflexivity. }
  destruct (Hall "split.apk") as (_ & Hs & _).
  { vm_compute. right. now left. }
  vm_compute in Hb. vm_compute in Hs. congruence.
Qed.

(** C3, as amended: in a run that completes, no variant of the emitted
    mapping is on the old channel, and every version directory, on the
    old channel or not, has a primary artifact whose signature digest is
    trusted and whose declared version codes are the integer of the
    directory name, and fresh companions for every artifact; an artifact
    whose sidecar was not read has the signature digest of the primary
    artifact and declares exactly one version code, that of the variant
    (the integer of the directory name unless the property file sets
    [versionCode]). *)
Theorem C3_old_validated_unless_cached w fs fs0 packages s1 s2 :
  completes w fs fs0 packages s1 s2 ->
  (forall pkg_name sigs v pkg_props,
     emitted_variant packages pkg_name sigs v pkg_props -> not_old pkg_props) /\
  (forall pkg_name v,
     in_tree fs0 pkg_name v ->
     isfile fs0 (primary_path pkg_name v) = true /\
     exists common sigs base_sig n vc,
       common_props_of w fs0 pkg_name = inr common /\
       dict_get common "signatures" = Some sigs /\
       signature_of w (primary_path pkg_name v) = inr base_sig /\
       py_contains sigs base_sig = inr true /\
       to_int v = inr n /\
       (forall overrides,
          load_props w fs0 (version_path pkg_name v) "props" = inr overrides ->
          dict_get overrides "versionCode" = None -> vc = PInt n) /\
       (exists badging kvs,
          badging_of w (primary_path pkg_name v) = inr badging /\
          tokens (hd EmptyString (Py.split Py.LF badging)) = inr kvs /\
          forall kv, In kv kvs -> code_token kv = true ->
            exists x, field "=" kv = inr x /\ to_int x = inr n) /\
       forall a, In a (artifacts fs0 pkg_name v) ->
         check_companions fs0 (artifact_path pkg_name v a) = inr tt /\
         (sidecar_read (st_trace s1) (artifact_path pkg_name v a) \/
          signature_of w (artifact_path pkg_name v a) = inr base_sig /\
          exists badging m,
            badging_of w (artifact_path pkg_name v a) = inr badging /\
            declared_version_code pkg_name badging = inr (Some m) /\
            py_eq_int vc m = true)).
Proof.
  intros Hc. split.
  - intros p sigs v d He.
    destruct (emitted_variant_ok w _ _ _ _ _ _ _ _ _ Hc He)
      as (n & b & ch & _ & _ & Hch & Hold).
    now exists ch.
  - intros p v (names & entries & Hnames & Hp & Hentries & Hv & Hdir).
    destruct (completes_scan w _ _ _ _ _ Hc) as (_ & _ & names' & Hnames' & Hall).
    assert (names' = names) as -> by congruence.
    destruct (Hall p Hp)
      as (entry & common & sigs & variants & Hcommon & Hsigs & _ & _ & Hvers).
    destruct Hvers as (entries' & Hentries' & Hvers).
    assert (entries' = entries) as -> by congruence.
    destruct (Hvers v Hv Hdir) as (n & b & d & Hok).
    destruct Hok as [Hint Hbase Hsig Htrust
      (badging & extracted & overrides & Hbad & Hprim & Hover & Hvc & _) _
      (anames & Hanames & Hart)].
    destruct (primary_badging_inv _ _ _ _ Hprim) as (Hn & kvs & Hkvs & Hcodes).
    destruct (dict_update_get_some overrides extracted "versionCode" _ Hn)
      as (vc & Hvc').
    split; [exact Hbase|].
    exists common, sigs, b, n, vc.
    split; [exact Hcommon|]. split; [exact Hsigs|]. split; [exact Hsig|].
    split; [exact Htrust|]. split; [exact Hint|]. split; [|split].
    + intros o Ho Hnone. unfold version_path in Ho. rewrite Hover in Ho.
      injection Ho as <-.
      rewrite (dict_update_get_none _ _ _ Hnone) in Hvc'. congruence.
    + exists badging, kvs. auto.
    + intros a Ha. unfold artifacts, version_path in Ha. rewrite Hanames in Ha.
      destruct (Hart a Ha) as [Hcomp Hv']. split; [exact Hcomp|].
      destruct Hv' as [Hread|Hval]; [now left|right].
      apply validated_inv in Hval as (Hs & bd & m & vc0 & H1 & H2 & H3 & H4).
      split; [exact Hs|]. exists bd, m. split; [exact H1|]. split; [exact H2|].
      congruence.
Qed.

Lemma C3_old_validated_unless_cached_witness :
  not_old (match lookup_variant Runs.fresh_packages "app.one" "7" with
           | Some (_, d) => d
           | None => []
           end) /\
  isfile Scenario.fresh_tree (primary_path "app.one" "6") = true.
Proof.
  destruct (C3_old_validated_unless_cached _ _ _ _ _ _ fresh_completes)
    as [Hnot Hall].
  split.
  - apply (Hnot "app.one" (PList [PStr "ab12"]) "7").
    apply lookup_variant_emitted. vm_compute. reflexivity.
  - apply (Hall "app.one" "6").
    exists ["app.one"], ["7"; "6"; "common-props.toml"; "icon.webp"].
    repeat split; try (vm_compute; reflexivity); vm_compute; auto.
Defined.

(** ** The publishing stage *)

Section Publish.
Context (w : World).

Lemma grows_refl P s : grows P s s.
Proof. exists []. now rewrite app_nil_r. Qed.

Lemma grows_step P s tr e :
  (exists evs, tr = st_trace s ++ evs /\ forallb P evs = true) -> P e = true ->
  forall fs', grows P s (mkState fs' (tr ++ [e])).
Proof.
  intros (evs & Ht & Hall) He fs'. exists (evs ++ [e]). cbn [st_trace] in *.
  split; [now rewrite Ht, app_assoc|].
  rewrite forallb_app, Hall. cbn. now rewrite He.
Qed.

Lemma write_file_wp mt p c (Q : unit -> State -> Prop) E s :
  (isdir (st_fs s) p = false ->
   Q tt (mkState (<[p := File c mt]> (st_fs s)) (st_trace s ++ [EvWrite p c]))) ->
  (isdir (st_fs s) p = true -> E (IsADirectoryError p) s) ->
  wp (write_file mt p c) Q E s.
Proof.
  intros HQ HE. unfold write_file. apply wp_bind, wp_get_fs.
  destruct (isdir (st_fs s) p); [apply wp_throw; auto|].
  apply wp_bind, wp_set_fs, wp_emit. now apply HQ.
Qed.

Lemma run_signify_wp (Q : unit -> State -> Prop) (E : error -> State -> Prop) s :
  (forall msg sig,
     read_bytes (st_fs s) metadata_json = inr msg ->
     signify w msg = Some sig ->
     Q tt (mkState (<[metadata_json_sig := File sig (write_mtime w)]> (st_fs s))
             (st_trace s ++ [signify_event]))) ->
  (forall e, E e (mkState (st_fs s) (st_trace s ++ [signify_event]))) ->
  wp (run_signify w) Q E s.
Proof.
  intros HQ HE. unfold run_signify. apply wp_bind, wp_emit, wp_bind, wp_get_fs.
  cbn [st_fs st_trace].
  destruct (read_bytes (st_fs s) metadata_json) as [e|msg] eqn:Hmsg;
    [apply wp_throw, HE|].
  destruct (signify w msg) as [sig|] eqn:Hsig; [|apply wp_throw, HE].
  destruct (isdir (st_fs s) metadata_json_sig); [apply wp_throw, HE|].
  apply wp_set_fs. cbn [st_trace]. now apply (HQ msg sig).
Qed.

Lemma read_sig_wp (Q : string -> State -> Prop) (E : error -> State -> Prop) s :
  (forall b text payload,
     read_bytes (st_fs s) metadata_json_sig = inr b ->
     Py.read_text b = Some text ->
     Py.splitlines text !! 1%nat = Some payload ->
     Q payload (mkState (st_fs s) (st_trace s ++ [EvReadText metadata_json_sig]))) ->
  (forall e, E e s) ->
  (forall e, E e (mkState (st_fs s) (st_trace s ++ [EvReadText metadata_json_sig]))) ->
  wp read_sig Q E s.
Proof.
  intros HQ HE HE'. unfold read_sig.
  apply wp_bind, wp_with_fs; [|intros; apply HE]. intros b Hb.
  apply wp_bind, wp_emit.
  apply wp_bind, wp_lift; [|intros; apply HE']. intros text Ht.
  apply wp_lift; [|intros; apply HE']. intros payload Hp.
  apply (HQ b text payload Hb).
  - destruct (Py.read_text b); [now injection Ht as ->|discriminate].
  - unfold str_item in Hp.
    destruct (Py.splitlines text !! 1%nat); [now injection Hp as ->|discriminate].
Qed.

Lemma copy_wp src dst (Q : unit -> State -> Prop) (E : error -> State -> Prop) s :
  (forall content,
     read_bytes (st_fs s) src = inr content ->
     isdir (st_fs s) (copy_target (st_fs s) src dst) = false ->
     Q tt (mkState (<[copy_target (st_fs s) src dst := File content (write_mtime w)]>
                      (st_fs s))
             (st_trace s ++ [EvCopy src (copy_target (st_fs s) src dst)]))) ->
  (forall e, E e s) ->
  wp (copy w src dst) Q E s.
Proof.
  intros HQ HE. unfold copy. fold (copy_target (st_fs s) src dst).
  apply wp_bind, wp_get_fs. fold (copy_target (st_fs s) src dst).
  apply wp_bind, wp_with_fs; [|intros; apply HE]. intros content Hc.
  destruct (isdir (st_fs s) (copy_target (st_fs s) src dst)) eqn:Hd;
    [apply wp_throw, HE|].
  apply wp_bind, wp_set_fs, wp_emit. now apply HQ.
Qed.

Lemma append_file_wp p c (Q : unit -> State -> Prop) (E : error -> State -> Prop) s :
  (forall old,
     (exists t, st_fs s !! p = Some (File old t)) \/
     (st_fs s !! p = None /\ old = EmptyString) ->
     Q tt (mkState (<[p := File (old +:+ c) (write_mtime w)]> (st_fs s))
             (st_trace s ++ [EvAppend p c]))) ->
  (isdir (st_fs s) p = true -> forall e, E e s) ->
  wp (append_file w p c) Q E s.
Proof.
  intros HQ HE. unfold append_file. apply wp_bind, wp_get_fs.
  destruct (st_fs s !! p) as [[old t|l t z]|] eqn:Hp.
  - apply wp_bind, wp_set_fs, wp_emit. apply HQ. left. now exists t.
  - apply wp_throw, HE. unfold isdir. now rewrite Hp.
  - apply wp_bind, wp_set_fs, wp_emit. apply (HQ EmptyString). now right.
Qed.

Lemma publish_wp packages s1 :
  wp (publish w packages)
     (fun _ s2 => published w packages s1 s2)
     (fun _ s2 => grows (publish_event false) s1 s2) s1.
Proof.
  unfold publish. fold (document w packages).
  apply wp_bind, write_file_wp; [|intros; apply grows_refl]. intros Hdj.
  assert (grows (publish_event false) s1
            (mkState (st_fs s1)
               (st_trace s1 ++ [EvWrite metadata_json (document w packages)]))) as G1.
  { apply (grows_step _ s1); [apply (grows_refl _ s1)|reflexivity]. }
  apply wp_bind, run_signify_wp; cbn [st_fs st_trace].
  2: { intros e. apply (grows_step _ s1); [exact G1|reflexivity]. }
  intros msg sigbytes Hmsg Hsig.
  unfold read_bytes in Hmsg. rewrite lookup_insert_eq in Hmsg.
  injection Hmsg as <-.
  assert (grows (publish_event false) s1
            (mkState (st_fs s1)
               ((st_trace s1 ++ [EvWrite metadata_json (document w packages)])
                ++ [signify_event]))) as G2.
  { apply (grows_step _ s1); [exact G1|reflexivity]. }
  apply wp_bind, read_sig_wp; cbn [st_fs st_trace].
  2: { intros e. exact G2. }
  2: { intros e. apply (grows_step _ s1); [exact G2|reflexivity]. }
  intros b text payload Hb Htext Hpay.
  unfold read_bytes in Hb. rewrite lookup_insert_eq in Hb. injection Hb as <-.
  assert (grows (publish_event false) s1
            (mkState (st_fs s1)
               (((st_trace s1 ++ [EvWrite metadata_json (document w packages)])
                 ++ [signify_event]) ++ [EvReadText metadata_json_sig]))) as G3.
  { apply (grows_step _ s1); [exact G2|reflexivity]. }
  apply wp_bind, copy_wp; cbn [st_fs st_trace].
  2: { intros e. exact G3. }
  intros content Hcontent Htarget.
  unfold read_bytes in Hcontent.
  rewrite lookup_insert_ne, lookup_insert_eq in Hcontent by discriminate.
  injection Hcontent as <-.
  set (fs3 := <[metadata_json_sig := File sigbytes (write_mtime w)]>
                (<[metadata_json := File (document w packages) (write_mtime w)]>
                   (st_fs s1))) in *.
  unfold copy_target in *.
  destruct (isdir fs3 metadata_sjson) eqn:Hds.
  - (* the secondary path is a directory: the copy lands inside it and the
       append fails *)
    apply append_file_wp; cbn [st_fs st_trace].
    + intros old [[t Hold]|[Hold _]];
        rewrite lookup_insert_ne in Hold by discriminate;
        unfold isdir in Hds; rewrite Hold in Hds; discriminate.
    + intros _ e. apply (grows_step _ s1); [exact G3|reflexivity].
  - apply append_file_wp; cbn [st_fs st_trace].
    + intros old [[t Hold]|[Hold _]]; rewrite lookup_insert_eq in Hold;
        [|discriminate].
      injection Hold as <- <-.
      exists sigbytes, text, payload. cbn [st_fs st_trace].
      split; [exact Hsig|]. split; [exact Htext|]. split; [exact Hpay|].
      split; [reflexivity|]. now rewrite <- !app_assoc.
    + unfold isdir. rewrite lookup_insert_eq. discriminate.
Qed.

End Publish.

(** ** The stages of a run *)

Lemma scan_ext w fs0 r s1 :
  scan w (scan_start fs0) = (r, s1) -> ext (scan_start fs0) s1.
Proof.
  intros H. pose proof (scan_wp w (scan_start fs0)) as Hwp.
  unfold wp in Hwp. rewrite H in Hwp. destruct r; tauto.
Qed.

Lemma run_stages w fs r s : run w fs = (r, s) -> run_stage w fs r s.
Proof.
  rewrite run_unfold.
  destruct (compress_apks w fs) as [[status fs0]|] eqn:Hc.
  - destruct (Z.eqb status 0) eqn:Hs.
    + apply Z.eqb_eq in Hs. subst status.
      destruct (scan w (scan_start fs0)) as [[e|packages] s1] eqn:Hscan.
      * intros [= <- <-]. now apply (stage_scan_failed w fs _ _ fs0 e).
      * intros Hp. now apply (stage_publish w fs _ _ fs0 packages s1).
    + apply Z.eqb_neq in Hs. intros [= <- <-].
      now apply (stage_compress_failed w fs _ _ status fs0).
  - intros [= <- <-]. now apply stage_no_compress.
Qed.

Lemma run_trace w fs r s :
  run w fs = (r, s) ->
  exists evs, st_trace s = compress_event :: evs /\
    forallb (later_event (succeeded r)) evs = true.
Proof.
  intros H. destruct (run_stages _ _ _ _ H)
    as [_ -> ->|status fs0 _ _ -> ->|fs0 e _ Hs ->|fs0 packages s1 _ Hs Hp].
  - now exists [].
  - now exists [].
  - destruct (scan_ext _ _ _ _ Hs) as [_ (evs & Ht & Hall)].
    exists evs. split; [exact Ht|].
    rewrite forallb_forall in *. intros x Hx. unfold later_event.
    now rewrite (Hall x Hx).
  - destruct (scan_ext _ _ _ _ Hs) as [_ (evs & Ht & Hall)].
    pose proof (publish_wp w packages s1) as Hwp. unfold wp in Hwp.
    rewrite Hp in Hwp.
    assert (exists evs', st_trace s = st_trace s1 ++ evs' /\
              forallb (publish_event (succeeded r)) evs' = true)
      as (evs' & Ht' & Hall').
    { destruct r as [e|[]]; cbn [succeeded].
      - exact Hwp.
      - destruct Hwp as (sb & st & pl & _ & _ & _ & _ & Htr).
        eexists. split; [exact Htr|]. reflexivity. }
    exists (evs ++ evs'). split.
    + rewrite Ht', Ht. reflexivity.
    + rewrite forallb_app. apply andb_true_iff. split.
      * rewrite forallb_forall in *. intros x Hx. unfold later_event.
        now rewrite (Hall x Hx).
      * rewrite forallb_forall in *. intros x Hx. unfold later_event.
        rewrite (Hall' x Hx). apply orb_true_r.
Qed.

(** ** What the run does to the companions *)

Lemma companion_not_sidecar (p : string) :
  companion p = true -> Py.endswith p ".sha256" = false.
Proof.
  unfold companion. intros H. apply orb_true_iff in H as [H|H].
  - apply not_sidecar with "z"%char; [|discriminate].
    apply endswith_last_char in H; [exact H|discriminate].
  - apply not_sidecar with "r"%char; [|discriminate].
    apply endswith_last_char in H; [exact H|discriminate].
Qed.

Lemma companion_not_published (p : string) :
  companion p = true -> ~ In p publish_paths.
Proof.
  intros H Hin. unfold publish_paths in Hin. cbn [In] in Hin.
  destruct Hin as [<-|[<-|[<-|[<-|[]]]]]; vm_compute in H; discriminate.
Qed.

Ltac frame_ne Hp :=
  let E := fresh "E" in
  intros E; apply Hp; rewrite <- E; unfold publish_paths; cbn [In]; tauto.

(** The publishing stage, whether it ends well or not, writes to its own
    paths only. *)
Lemma publish_frame w packages s1 :
  wp (publish w packages)
     (fun _ s' => forall p, ~ In p publish_paths -> st_fs s' !! p = st_fs s1 !! p)
     (fun _ s' => forall p, ~ In p publish_paths -> st_fs s' !! p = st_fs s1 !! p)
     s1.
Proof.
  unfold publish.
  apply wp_bind, write_file_wp; [|intros _ p _; reflexivity]. intros _.
  apply wp_bind, run_signify_wp; cbn [st_fs st_trace].
  2: { intros e p Hp. cbn [st_fs]. apply lookup_insert_ne. frame_ne Hp. }
  intros msg sigbytes _ _.
  apply wp_bind, read_sig_wp; cbn [st_fs st_trace].
  2, 3: intros e p Hp; cbn [st_fs];
    rewrite !lookup_insert_ne by frame_ne Hp; reflexivity.
  intros b text payload _ _ _.
  apply wp_bind, copy_wp; cbn [st_fs st_trace].
  2: { intros e p Hp. cbn [st_fs].
       rewrite !lookup_insert_ne by frame_ne Hp. reflexivity. }
  intros content _ _. unfold copy_target.
  destruct (isdir _ metadata_sjson).
  - apply append_file_wp; cbn [st_fs st_trace].
    + intros old _ p Hp. cbn [st_fs].
      rewrite !lookup_insert_ne by frame_ne Hp. reflexivity.
    + intros _ e p Hp. cbn [st_fs].
      rewrite !lookup_insert_ne by frame_ne Hp. reflexivity.
  - apply append_file_wp; cbn [st_fs st_trace].
    + intros old _ p Hp. cbn [st_fs].
      rewrite !lookup_insert_ne by frame_ne Hp. reflexivity.
    + intros _ e p Hp. cbn [st_fs].
      rewrite !lookup_insert_ne by frame_ne Hp. reflexivity.
Qed.

(** After the compression step, a companion path holds what the step
    left there. *)
Lemma run_keeps_companions w fs p :
  companion p = true -> st_fs (snd (run w fs)) !! p = compressed w fs !! p.
Proof.
  intros Hc. unfold compressed.
  destruct (run w fs) as [r s] eqn:Hrun. cbn [snd].
  destruct (run_stages _ _ _ _ Hrun)
    as [Hn _ ->|status fs0 Hn _ _ ->|fs0 e Hn Hs _|fs0 packages s1 Hn Hs Hp];
    rewrite Hn.
  - reflexivity.
  - reflexivity.
  - exact (ext_lookup _ _ _ (scan_ext _ _ _ _ Hs) (companion_not_sidecar p Hc)).
  - pose proof (publish_frame w packages s1) as Hwp. unfold wp in Hwp.
    rewrite Hp in Hwp.
    assert (st_fs s !! p = st_fs s1 !! p) as ->.
    { destruct r; apply Hwp; now apply companion_not_published. }
    exact (ext_lookup _ _ _ (scan_ext _ _ _ _ Hs) (companion_not_sidecar p Hc)).
Qed.

Lemma check_companions_inv fs p :
  check_companions fs p = inr tt -> companions_fresh fs p.
Proof.
  unfold check_companions, companions_fresh.
  destruct (getmtime fs p) as [|t]; [discriminate|]. cbn [res_bind].
  destruct (getmtime fs (p +:+ ".gz")) as [|tgz]; [discriminate|]. cbn [res_bind].
  destruct (assert (Z.eqb t tgz)) as [|[]] eqn:E1; [discriminate|].
  cbn [res_bind].
  destruct (getmtime fs (p +:+ ".br")) as [|tbr]; [discriminate|]. cbn [res_bind].
  intros E2. apply assert_inr in E1, E2. apply Z.eqb_eq in E1, E2. subst.
  now exists tbr.
Qed.

(** ** C2: the compression tool *)

(** C2, counterexample: the run on the fresh tree starts the compression
    tool. *)
Lemma C2_compress_invoked_counterexample :
  ~ never_compresses Scenario.good Scenario.fresh_tree.
Proof.
  intros H. apply H. vm_compute. left. reflexivity.
Qed.

(** C2, as amended: every run invokes the compression tool exactly once,
    as its first action, and ends with [AssertionError] before anything
    else when the tool exits with another status than 0.  After that step
    the run writes no companion: a path that ends in [.gz] or [.br] holds
    a file at the end of the run exactly when the step left that file
    there, with the same content and modification time.  And a run
    completes only if, for every artifact of every version directory,
    the two companions carry the modification time of the artifact. *)
Theorem C2_compress_once_first w fs :
  (exists rest,
     st_trace (snd (run w fs)) = compress_event :: rest /\
     ~ In compress_event rest /\
     match compress_apks w fs with
     | Some (status, fs0) =>
         if Z.eqb status 0 then True
         else run w fs = (inl AssertionError, scan_start fs0)
     | None => True
     end) /\
  (forall p c t, companion p = true ->
     (compressed w fs !! p = Some (File c t) <->
      st_fs (snd (run w fs)) !! p = Some (File c t))) /\
  (forall fs0 packages s1 s2,
     completes w fs fs0 packages s1 s2 ->
     forall pkg_name v a,
       in_tree fs0 pkg_name v -> In a (artifacts fs0 pkg_name v) ->
       companions_fresh fs0 (artifact_path pkg_name v a)).
Proof.
  split; [|split].
  - destruct (run w fs) as [r s] eqn:Hrun.
    destruct (run_trace _ _ _ _ Hrun) as (evs & Ht & Hall).
    exists evs. cbn [snd]. split; [exact Ht|]. split.
    + intros Hin. rewrite forallb_forall in Hall. specialize (Hall _ Hin).
      destruct (succeeded r); discriminate.
    + rewrite run_unfold in Hrun.
      destruct (compress_apks w fs) as [[status fs0]|]; [|exact I].
      destruct (Z.eqb status 0); [exact I|]. now rewrite <- Hrun.
  - intros p c t Hc. now rewrite (run_keeps_companions w fs p Hc).
  - intros fs0 packages s1 s2 Hc pkg_name v a
      (names & entries & Hnames & Hp & Hentries & Hv & Hdir) Ha.
    destruct (completes_scan w _ _ _ _ _ Hc) as (_ & _ & names' & Hnames' & Hall).
    assert (names' = names) as -> by congruence.
    destruct (Hall pkg_name Hp) as (entry & common & sigs & variants & _ & _ & _ & _
                                    & entries' & Hentries' & Hvers).
    assert (entries' = entries) as -> by congruence.
    destruct (Hvers v Hv Hdir) as (n & b & d & Hok).
    destruct (vo_artifacts _ _ _ _ _ _ _ _ _ _ Hok) as (anames & Hanames & Hart).
    unfold artifacts, version_path in Ha. rewrite Hanames in Ha.
    destruct (Hart a Ha) as [Hcomp _].
    exact (check_companions_inv _ _ Hcomp).
Qed.

Lemma C2_compress_once_first_witness :
  companions_fresh Scenario.fresh_tree (artifact_path "app.one" "6" "split.apk").
Proof.
  apply (proj2 (proj2 (C2_compress_once_first Scenario.good Scenario.fresh_tree))
           Scenario.fresh_tree Runs.fresh_packages _ _ fresh_completes
           "app.one" "6" "split.apk").
  - exists ["app.one"], ["7"; "6"; "common-props.toml"; "icon.webp"].
    repeat split; try (vm_compute; reflexivity); cbn; tauto.
  - vm_compute. tauto.
Defined.

(** ** C6: failures and the manifest *)

(** C6, counterexample: when the signing tool fails on the fresh tree the
    run ends with an exception after the canonical manifest was written. *)
Lemma C6_signing_failure_counterexample :
  ~ atomic_failure Scenario.signing_fails Scenario.fresh_tree.
Proof.
  intros H.
  destruct (H (CalledProcessError "signify")
              (snd (run Scenario.signing_fails Scenario.fresh_tree)))
    as [_ Hno].
  - vm_compute. reflexivity.
  - vm_compute in Hno. discriminate.
Qed.

(** C6, as amended: a run that ends with an exception exits with a
    non-zero status and has neither copied to nor appended to the
    secondary file; if it has written the canonical manifest, then the
    compression step and the whole scan had succeeded and the exception
    comes from the publishing stage (the signing tool, the signature
    file, or the copy). *)
Theorem C6_failure_and_manifest w fs e s :
  run w fs = (inl e, s) ->
  exit_status (fst (run w fs)) = 1 /\
  forallb (fun ev => match ev with
                     | EvWrite p _ => negb (String.eqb p metadata_sjson)
                     | EvCopy _ dst => negb (String.eqb dst metadata_sjson)
                     | EvAppend _ _ => false
                     | _ => true
                     end) (st_trace s) = true /\
  ((exists c, In (EvWrite metadata_json c) (st_trace s)) ->
   exists fs0 packages s1,
     compress_apks w fs = Some (0, fs0) /\
     scan w (scan_start fs0) = (inr packages, s1) /\
     publish w packages s1 = (inl e, s)).
Proof.
  intros Hrun. split; [now rewrite Hrun|].
  destruct (run_trace _ _ _ _ Hrun) as (evs & Ht & Hall).
  cbn [succeeded] in Hall. split.
  - rewrite Ht. cbn [forallb]. apply andb_true_iff. split; [reflexivity|].
    rewrite forallb_forall in *.
    intros x Hx. specialize (Hall x Hx). unfold later_event in Hall.
    destruct x as [[|t l]|p|p|p c|src dst|p c]; try reflexivity.
    + cbn in Hall. apply orb_true_iff in Hall as [Hs|Hp].
      * destruct (String.eqb p metadata_sjson) eqn:E; [|reflexivity].
        apply String.eqb_eq in E. subst p. vm_compute in Hs. discriminate.
      * apply String.eqb_eq in Hp. subst p. reflexivity.
    + cbn in Hall. apply andb_true_iff in Hall as [_ Hd]. exact Hd.
    + cbn in Hall. discriminate.
  - intros (c & Hin).
    destruct (run_stages _ _ _ _ Hrun)
      as [_ _ ->|status fs0 _ _ _ ->|fs0 e' _ Hs _|fs0 packages s1 Hc Hs Hp].
    + destruct Hin as [Hin|[]]. discriminate.
    + destruct Hin as [Hin|[]]. discriminate.
    + destruct (ext_new_event _ _ _ (scan_ext _ _ _ _ Hs) Hin) as [Hold|Hnew].
      * destruct Hold as [Hold|[]]. discriminate.
      * vm_compute in Hnew. discriminate.
    + now exists fs0, packages, s1.
Qed.

Lemma C6_failure_and_manifest_witness :
  exit_status (fst (run Scenario.bad_split Scenario.fresh_tree)) = 1.
Proof.
  apply (C6_failure_and_manifest Scenario.bad_split Scenario.fresh_tree
           (Exception "signature mismatch, apk: apps/packages/app.one/6/split.apk")
           (snd (run Scenario.bad_split Scenario.fresh_tree))).
  vm_compute. reflexivity.
Defined.

(** ** The second line of a text *)

Lemma append_nil_r (s : string) : s +:+ EmptyString = s.
Proof.
  induction s as [|c s IH]; [reflexivity|].
  change (String c s +:+ EmptyString) with (String c (s +:+ EmptyString)).
  now rewrite IH.
Qed.

Lemma rev_app_rev_app (l a b : string) :
  String.rev_app (String.rev_app l a) b = String.rev_app a (l +:+ b).
Proof.
  revert a. induction l as [|c l IH]; intros a; [reflexivity|].
  cbn [String.rev_app]. rewrite IH. reflexivity.
Qed.

Lemma rev_rev_app (l : string) : String.rev (String.rev_app l EmptyString) = l.
Proof.
  unfold String.rev. rewrite rev_app_rev_app. cbn [String.rev_app].
  apply append_nil_r.
Qed.

Lemma unbroken_byte_inv c :
  unbroken_byte c = true ->
  forall k, In k [10; 11; 12; 13; 28; 29; 30; 194; 226]%N ->
    (N_of_ascii c =? k)%N = false.
Proof.
  unfold unbroken_byte. cbv zeta. intros H. apply negb_true_iff in H.
  repeat rewrite orb_false_iff in H.
  destruct H as ((((((((H1 & H2) & H3) & H4) & H5) & H6) & H7) & H8) & H9).
  intros k Hk. cbn [In] in Hk.
  destruct Hk as [<-|[<-|[<-|[<-|[<-|[<-|[<-|[<-|[<-|[]]]]]]]]]]; assumption.
Qed.

Lemma unbroken_byte_boundary c s :
  unbroken_byte c = true -> Py.line_boundary (String c s) = None.
Proof.
  intros H. pose proof (unbroken_byte_inv c H) as Hk.
  unfold Py.line_boundary. cbv zeta.
  rewrite (Hk 13%N), (Hk 10%N), (Hk 11%N), (Hk 12%N), (Hk 28%N), (Hk 29%N),
    (Hk 30%N), (Hk 194%N), (Hk 226%N) by (cbn [In]; tauto).
  reflexivity.
Qed.

Lemma unbroken_byte_not_cr c : unbroken_byte c = true -> Ascii.eqb c Py.CR = false.
Proof.
  intros H. pose proof (unbroken_byte_inv c H 13%N) as Hk.
  apply Ascii.eqb_neq. intros ->.
  assert ((N_of_ascii Py.CR =? 13)%N = false) as E by (apply Hk; cbn [In]; tauto).
  discriminate E.
Qed.

(** A text-mode read leaves an unbroken line as it is and turns its line
    end into a line feed. *)
Lemma universal_newlines_unbroken (l : string) :
  unbroken l = true -> Py.universal_newlines l = l.
Proof.
  induction l as [|c l IH]; [reflexivity|]. cbn [unbroken]. intros H.
  apply andb_true_iff in H as [Hc Hl]. cbn [Py.universal_newlines].
  rewrite (unbroken_byte_not_cr c Hc). now rewrite IH.
Qed.

Lemma universal_newlines_line (l e rest : string) :
  unbroken l = true -> line_end e ->
  Py.universal_newlines (l +:+ e +:+ rest)
  = l +:+ String Py.LF (Py.universal_newlines rest).
Proof.
  intros Hl He. induction l as [|c l IH].
  - destruct He as [->| ->]; reflexivity.
  - cbn [unbroken] in Hl. apply andb_true_iff in Hl as [Hc Hl].
    change (String c l +:+ e +:+ rest) with (String c (l +:+ e +:+ rest)).
    cbn [Py.universal_newlines]. rewrite (unbroken_byte_not_cr c Hc).
    rewrite (IH Hl). reflexivity.
Qed.

(** [str.splitlines] on a text that starts with an unbroken line. *)
Lemma splitlines_go_line (l cur rest : string) :
  unbroken l = true ->
  Py.splitlines_go 0 cur (l +:+ String Py.LF rest)
  = String.rev (String.rev_app l cur) :: Py.splitlines_go 0 EmptyString rest.
Proof.
  revert cur. induction l as [|c l IH]; intros cur Hl.
  - reflexivity.
  - cbn [unbroken] in Hl. apply andb_true_iff in Hl as [Hc Hl].
    change (String c l +:+ String Py.LF rest)
      with (String c (l +:+ String Py.LF rest)).
    cbn [Py.splitlines_go]. rewrite (unbroken_byte_boundary c _ Hc).
    now rewrite (IH _ Hl).
Qed.

Lemma splitlines_go_last (l cur : string) :
  unbroken l = true -> l <> EmptyString ->
  Py.splitlines_go 0 cur l = [String.rev (String.rev_app l cur)].
Proof.
  revert cur. induction l as [|c l IH]; intros cur Hl Hne; [congruence|].
  cbn [unbroken] in Hl. apply andb_true_iff in Hl as [Hc Hl].
  cbn [Py.splitlines_go]. rewrite (unbroken_byte_boundary c _ Hc).
  destruct l as [|d l]; [reflexivity|].
  now rewrite (IH _ Hl).
Qed.

(** The second item of [str.splitlines] on the text of a file is the
    second line of the file. *)
Lemma second_line (b text l1 l2 : string) :
  Py.read_text b = Some text -> first_two_lines b l1 l2 ->
  Py.splitlines text !! 1%nat = Some l2.
Proof.
  unfold Py.read_text, Py.decode. intros Ht (H1 & H2 & e1 & He1 & Hb).
  destruct (Py.utf8_valid b); [|discriminate]. cbn in Ht. injection Ht as <-.
  unfold Py.splitlines.
  destruct Hb as [[Hne ->]|(e2 & rest & He2 & ->)].
  - rewrite (universal_newlines_line l1 e1 l2 H1 He1).
    rewrite (universal_newlines_unbroken l2 H2).
    rewrite (splitlines_go_line l1 _ _ H1).
    now rewrite (splitlines_go_last l2 _ H2 Hne), !rev_rev_app.
  - rewrite (universal_newlines_line l1 e1 _ H1 He1).
    rewrite (universal_newlines_line l2 e2 _ H2 He2).
    rewrite (splitlines_go_line l1 _ _ H1), (splitlines_go_line l2 _ _ H2).
    now rewrite !rev_rev_app.
Qed.

(** ** C9: the secondary file *)

(** C9: when the run completes, the canonical manifest holds the
    serialized document, the signature file holds what the signing tool
    produced for it, and the secondary file holds the document, a
    newline, the second line of the signature file and a newline.  The
    payload is item 1 of [splitlines] on the text of the signature file,
    and that is its second line: whenever the file starts with a line
    [l1] and goes on with a line [l2], the payload is [l2]. *)
Theorem C9_secondary_file w fs s2 :
  run w fs = (inr tt, s2) ->
  exists packages sigbytes sigtext payload,
    read_bytes (st_fs s2) metadata_json = inr (document w packages) /\
    signify w (document w packages) = Some sigbytes /\
    read_bytes (st_fs s2) metadata_json_sig = inr sigbytes /\
    Py.read_text sigbytes = Some sigtext /\
    Py.splitlines sigtext !! 1%nat = Some payload /\
    read_bytes (st_fs s2) metadata_sjson
    = inr (document w packages +:+ String Py.LF payload
           +:+ String Py.LF EmptyString) /\
    forall l1 l2, first_two_lines sigbytes l1 l2 -> payload = l2.
Proof.
  intros Hrun. apply run_completes in Hrun as (fs0 & packages & s1 & [_ _ Hp]).
  pose proof (wp_inr _ _ _ _ _ _ (publish_wp w packages s1) Hp)
    as (sigbytes & sigtext & payload & Hsig & Htext & Hpay & Hfs & _).
  exists packages, sigbytes, sigtext, payload. unfold read_bytes. rewrite Hfs.
  split.
  { rewrite !lookup_insert_ne by discriminate. now rewrite lookup_insert_eq. }
  split; [exact Hsig|]. split.
  { rewrite !lookup_insert_ne by discriminate. now rewrite lookup_insert_eq. }
  split; [exact Htext|]. split; [exact Hpay|].
  split; [now rewrite lookup_insert_eq|].
  intros l1 l2 Hlines. pose proof (second_line _ _ _ _ Htext Hlines). congruence.
Qed.

Lemma C9_secondary_file_witness :
  exists packages sigbytes sigtext payload,
    read_bytes (st_fs (snd (run Scenario.good Scenario.fresh_tree))) metadata_json
    = inr (document Scenario.good packages) /\
    signify Scenario.good (document Scenario.good packages) = Some sigbytes /\
    read_bytes (st_fs (snd (run Scenario.good Scenario.fresh_tree)))
      metadata_json_sig = inr sigbytes /\
    Py.read_text sigbytes = Some sigtext /\
    Py.splitlines sigtext !! 1%nat = Some payload /\
    read_bytes (st_fs (snd (run Scenario.good Scenario.fresh_tree))) metadata_sjson
    = inr (document Scenario.good packages +:+ String Py.LF payload
           +:+ String Py.LF EmptyString) /\
    forall l1 l2, first_two_lines sigbytes l1 l2 -> payload = l2.
Proof.
  apply (C9_secondary_file Scenario.good Scenario.fresh_tree).
  vm_compute. reflexivity.
Defined.

(** The signature file of the scenario has the two lines that the
    statement speaks of. *)
Lemma scenario_signature_lines :
  first_two_lines (Scenario.unlines ["untrusted comment: signature"; "SIGDATA"])
    "untrusted comment: signature" "SIGDATA".
Proof.
  split; [reflexivity|]. split; [reflexivity|].
  exists (String Py.LF EmptyString). split; [now left|]. right.
  exists (String Py.LF EmptyString), EmptyString. split; [now left|reflexivity].
Qed.

(** ** C8: the common property file *)

(** C8, counterexample: the package directory of the bare tree has no
    common property file, and the scan raises [KeyError]. *)
Lemma C8_missing_common_props_counterexample :
  ~ tolerates_missing_common_props Scenario.good Scenario.bare_tree.
Proof.
  intros H.
  destruct (H Scenario.bare_tree ["app.one"] "app.one")
    as (packages & s1 & Hscan & _); try (vm_compute; reflexivity).
  { now left. }
  assert (fst (scan Scenario.good (scan_start Scenario.bare_tree))
          = inl (KeyError "signatures")) as Hk by (vm_compute; reflexivity).
  rewrite Hscan in Hk. discriminate.
Qed.

(** C8, as amended: for a package directory without the common property
    file, [load_props] returns the empty mapping, the body of the package
    loop raises [KeyError] at the lookup of [signatures] without changing
    the state, and the run ends with an exception: the file is needed for
    the trusted signatures. *)
Theorem C8_signatures_required w fs fs0 names pkg_name :
  compress_apks w fs = Some (0, fs0) ->
  listdir fs0 packages_dir = inr names -> In pkg_name names ->
  isfile fs0 (common_props_path pkg_name) = false ->
  load_props w fs0 (Py.path_join packages_dir pkg_name) "common-props" = inr [] /\
  (forall packages,
     process_package w packages pkg_name (scan_start fs0)
     = (inl (KeyError "signatures"), scan_start fs0)) /\
  exists e, fst (run w fs) = inl e.
Proof.
  intros Hc Hnames Hin Hfile.
  assert (load_props w fs0 (Py.path_join packages_dir pkg_name) "common-props"
          = inr []) as Hload.
  { unfold load_props. unfold common_props_path in Hfile.
    change ("common-props" +:+ ".toml") with "common-props.toml".
    now rewrite Hfile. }
  assert (exists common, common_props_of w fs0 pkg_name = inr common /\
            dict_get common "signatures" = None) as (common & Hcommon & Hnone).
  { unfold common_props_of. rewrite Hload. cbn [res_bind].
    destruct (isfile fs0 (Py.path_join _ "icon.webp"));
      eexists; split; reflexivity. }
  split; [exact Hload|]. split.
  - intros packages. unfold process_package, bind, with_fs, lift.
    cbn [st_fs scan_start]. rewrite Hcommon. unfold dict_item.
    now rewrite Hnone.
  - destruct (run w fs) as [[e|[]] s2] eqn:Hrun; [now exists e|].
    apply run_completes in Hrun as (fs0' & packages & s1 & Hcomp).
    assert (fs0' = fs0) as -> by (destruct Hcomp as [Hc' _ _]; congruence).
    destruct (completes_scan w _ _ _ _ _ Hcomp)
      as (_ & _ & names' & Hnames' & Hall).
    assert (names' = names) as -> by congruence.
    destruct (Hall _ Hin) as (entry & c & sg & vs & Hc1 & Hsg & _).
    congruence.
Qed.

Lemma C8_signatures_required_witness :
  exists e, fst (run Scenario.good Scenario.bare_tree) = inl e.
Proof.
  apply (C8_signatures_required Scenario.good Scenario.bare_tree
           Scenario.bare_tree ["app.one"] "app.one");
    try (vm_compute; reflexivity).
  now left.
Defined.

(** ** C4 and C10: the sidecar of an artifact *)

Lemma str_length_app (a b : string) :
  String.length (a +:+ b) = (String.length a + String.length b)%nat.
Proof.
  induction a as [|c a IH]; [reflexivity|].
  change (String c a +:+ b) with (String c (a +:+ b)). cbn [String.length].
  now rewrite IH.
Qed.

Lemma sidecar_path_ne (p : string) : p <> p +:+ ".sha256".
Proof.
  intros H. apply (f_equal String.length) in H. rewrite str_length_app in H.
  cbn [String.length] in H. lia.
Qed.

(** The digest step when the sidecar is there. *)
Lemma apk_digest_hit w pkg_name base_sig (pkg_props : dict) apk_path s bytes mt :
  st_fs s !! (apk_path +:+ ".sha256") = Some (File bytes mt) ->
  apk_digest w pkg_name base_sig pkg_props apk_path s
  = (or_raise UnicodeDecodeError (Py.read_text bytes),
     mkState (st_fs s) (st_trace s ++ [EvReadText (apk_path +:+ ".sha256")])).
Proof.
  intros H. unfold apk_digest, bind, get_fs, with_fs, emit, lift, isfile,
    read_bytes. cbn [st_fs st_trace]. rewrite H. cbn [ok st_fs st_trace].
  rewrite ?H. reflexivity.
Qed.

(** The digest step when there is no sidecar. *)
Lemma apk_digest_miss w pkg_name base_sig (pkg_props : dict) apk_path s :
  isfile (st_fs s) (apk_path +:+ ".sha256") = false ->
  apk_digest w pkg_name base_sig pkg_props apk_path s
  = match validated w pkg_name base_sig pkg_props apk_path with
    | inl e =>
        (inl e,
         mkState (st_fs s)
           (st_trace s ++ apksigner_event apk_path ::
              match signature_of w apk_path with
              | inr sig => if String.eqb sig base_sig
                           then [aapt2_event apk_path] else []
              | inl _ => []
              end))
    | inr _ =>
        match read_bytes (st_fs s) apk_path with
        | inl e =>
            (inl e, mkState (st_fs s)
                      (st_trace s ++ [apksigner_event apk_path;
                                      aapt2_event apk_path]))
        | inr content =>
            if isdir (st_fs s) (apk_path +:+ ".sha256") then
              (inl (IsADirectoryError (apk_path +:+ ".sha256")),
               mkState (st_fs s)
                 (st_trace s ++ [apksigner_event apk_path; aapt2_event apk_path;
                                 EvReadBytes apk_path]))
            else
              (inr (sha256_hexdigest w content),
               mkState (<[apk_path +:+ ".sha256" :=
                            File (sha256_hexdigest w content) (write_mtime w)]>
                          (st_fs s))
                 (st_trace s ++ [apksigner_event apk_path; aapt2_event apk_path;
                                 EvReadBytes apk_path;
                                 EvWrite (apk_path +:+ ".sha256")
                                   (sha256_hexdigest w content)]))
        end
    end.
Proof.
  intros H. unfold apk_digest, load_signature, dump_badging, write_file, bind,
    get_fs, set_fs, with_fs, emit, lift, throw, raise, validated.
  cbn [st_fs st_trace]. rewrite H.
  destruct (signature_of w apk_path) as [e|sig]; cbn [res_bind]; [reflexivity|].
  destruct (String.eqb sig base_sig); cbn [negb st_fs st_trace]; [|reflexivity].
  destruct (badging_of w apk_path) as [e|badging];
    cbn [res_bind st_fs st_trace]; [now rewrite <- app_assoc|].
  destruct (split_badging pkg_name pkg_props badging) as [e|[]];
    cbn [st_fs st_trace]; [now rewrite <- app_assoc|].
  destruct (read_bytes (st_fs s) apk_path) as [e|content];
    cbn [st_fs st_trace]; [now rewrite <- app_assoc|].
  destruct (isdir (st_fs s) (apk_path +:+ ".sha256")); cbn [st_fs st_trace];
    now rewrite <- !app_assoc.
Qed.

Lemma append_to_inr (d d' : dict) k v :
  append_to d k v = inr d' ->
  exists l x, dict_get d k = Some (PList l) /\ v = inr x /\
    d' = dict_set d k (PList (l ++ [x])).
Proof.
  unfold append_to, dict_item. intros H.
  destruct (dict_get d k) as [[| | |l|]|]; try discriminate.
  cbn in H. destruct v as [|x]; [discriminate|]. cbn in H.
  injection H as <-. now exists l, x.
Qed.

(** The digest that the loop body records is the one it was given. *)
Lemma record_apk_hashes fs (d d' : dict) path name h :
  record_apk fs d path name h = inr d' ->
  exists hashes,
    dict_get d "apkHashes" = Some (PList hashes) /\
    dict_get d' "apkHashes" = Some (PList (hashes ++ [PStr h])).
Proof.
  unfold record_apk. intros H.
  destruct (append_to d _ _) as [|p1] eqn:E1; [discriminate|]. cbn [res_bind] in H.
  destruct (append_to p1 _ _) as [|p2] eqn:E2; [discriminate|]. cbn [res_bind] in H.
  destruct (append_to p2 _ _) as [|p3] eqn:E3; [discriminate|]. cbn [res_bind] in H.
  destruct (append_to p3 _ _) as [|p4] eqn:E4; [discriminate|]. cbn [res_bind] in H.
  apply append_to_inr in E1 as (hashes & x & Hget & Hx & ->).
  injection Hx as <-. exists hashes. split; [exact Hget|].
  rewrite (append_to_get _ _ _ _ "apkHashes" H) by discriminate.
  rewrite (append_to_get _ _ _ _ "apkHashes" E4) by discriminate.
  rewrite (append_to_get _ _ _ _ "apkHashes" E3) by discriminate.
  rewrite (append_to_get _ _ _ _ "apkHashes" E2) by discriminate.
  apply dict_get_set_eq.
Qed.

Lemma universal_newlines_plain (s : string) :
  has_cr s = false -> Py.universal_newlines s = s.
Proof.
  induction s as [|c s IH]; [reflexivity|].
  cbn [has_cr Py.universal_newlines]. intros H.
  apply orb_false_iff in H as [Hc Hs]. rewrite Hc. now rewrite IH.
Qed.

(** C4: when the sidecar of an artifact is a file whose text is [D], the
    digest step returns [D] and does nothing but read the sidecar (no
    tool is run, the artifact is not read); this is so whatever lies at
    the path of the artifact; [D] is the digest that the loop body
    appends to the digests of the variant; and [D] is the very bytes of
    the sidecar when these are UTF-8 without carriage returns. *)
Theorem C4_sidecar_digest_trusted w pkg_name base_sig pkg_path
    (pkg_props : dict) apk_name s bytes mt D :
  st_fs s !! (Py.path_join pkg_path apk_name +:+ ".sha256")
  = Some (File bytes mt) ->
  Py.read_text bytes = Some D ->
  apk_digest w pkg_name base_sig pkg_props (Py.path_join pkg_path apk_name) s
  = (inr D,
     mkState (st_fs s)
       (st_trace s ++ [EvReadText (Py.path_join pkg_path apk_name +:+ ".sha256")]))
  /\
  (forall artifact : node,
     fst (apk_digest w pkg_name base_sig pkg_props
            (Py.path_join pkg_path apk_name)
            (mkState (<[Py.path_join pkg_path apk_name := artifact]> (st_fs s))
               (st_trace s)))
     = inr D) /\
  (forall d' s',
     process_apk w pkg_name base_sig pkg_path pkg_props apk_name s = (inr d', s') ->
     exists hashes,
       dict_get pkg_props "apkHashes" = Some (PList hashes) /\
       dict_get d' "apkHashes" = Some (PList (hashes ++ [PStr D])) /\
       st_trace s'
       = st_trace s ++ [EvReadText (Py.path_join pkg_path apk_name +:+ ".sha256")])
  /\
  (Py.utf8_valid bytes = true -> has_cr bytes = false -> D = bytes).
Proof.
  intros Hside Htext. split; [|split; [|split]].
  - rewrite (apk_digest_hit _ _ _ _ _ _ bytes mt Hside). now rewrite Htext.
  - intros artifact.
    rewrite (apk_digest_hit _ _ _ _ _ _ bytes mt).
    + cbn [fst]. now rewrite Htext.
    + cbn [st_fs]. rewrite lookup_insert_ne; [exact Hside|].
      apply sidecar_path_ne.
  - intros d' s'. unfold process_apk, bind, with_fs.
    destruct (check_companions (st_fs s) _) as [|[]]; [discriminate|].
    rewrite (apk_digest_hit _ _ _ _ _ _ bytes mt Hside). rewrite Htext.
    cbn [or_raise ok st_fs].
    destruct (record_apk _ _ _ _ _) as [|d''] eqn:Hrec; [discriminate|].
    intros [= <- <-]. cbn [st_trace].
    destruct (record_apk_hashes _ _ _ _ _ _ Hrec) as (hashes & H1 & H2).
    now exists hashes.
  - intros Hvalid Hcr. unfold Py.read_text, Py.decode in Htext.
    rewrite Hvalid in Htext. cbn in Htext. injection Htext as <-.
    now apply universal_newlines_plain.
Qed.

Lemma C4_sidecar_digest_trusted_witness :
  apk_digest Scenario.bad_split "app.one" "ab12" []
    (Py.path_join "apps/packages/app.one/7" "split.apk")
    (scan_start Scenario.cached_tree)
  = (inr "feed",
     mkState Scenario.cached_tree
       [compress_event;
        EvReadText (Py.path_join "apps/packages/app.one/7" "split.apk"
                    +:+ ".sha256")]).
Proof.
  apply (C4_sidecar_digest_trusted Scenario.bad_split "app.one" "ab12"
           "apps/packages/app.one/7" [] "split.apk"
           (scan_start Scenario.cached_tree) "feed" 20 "feed");
    vm_compute; reflexivity.
Defined.

(** C10: when an artifact has no sidecar, the digest step either
    succeeds, and then the signature and version-code checks passed, the
    digest is that of the content of the artifact, and the sidecar was
    written last, after the two tools were run and the artifact was read;
    or it raises, and then the tree is unchanged, there is still no
    sidecar, nothing was written, and a new attempt from the state
    reached raises again. *)
Theorem C10_sidecar_written_last w pkg_name base_sig (pkg_props : dict)
    apk_path s :
  isfile (st_fs s) (apk_path +:+ ".sha256") = false ->
  match apk_digest w pkg_name base_sig pkg_props apk_path s with
  | (inr h, s') =>
      validated w pkg_name base_sig pkg_props apk_path = inr tt /\
      (exists content,
         read_bytes (st_fs s) apk_path = inr content /\
         h = sha256_hexdigest w content) /\
      st_fs s' = <[apk_path +:+ ".sha256" := File h (write_mtime w)]> (st_fs s) /\
      st_trace s' = st_trace s ++
        [apksigner_event apk_path; aapt2_event apk_path; EvReadBytes apk_path;
         EvWrite (apk_path +:+ ".sha256") h]
  | (inl e, s') =>
      st_fs s' = st_fs s /\
      isfile (st_fs s') (apk_path +:+ ".sha256") = false /\
      (exists evs, st_trace s' = st_trace s ++ evs /\ forallb no_write evs = true) /\
      fst (apk_digest w pkg_name base_sig pkg_props apk_path s') = inl e
  end.
Proof.
  intros Hside. rewrite (apk_digest_miss _ _ _ _ _ _ Hside).
  destruct (validated w pkg_name base_sig pkg_props apk_path) as [e|[]] eqn:Hv.
  - cbn [st_fs st_trace]. split; [reflexivity|]. split; [exact Hside|]. split.
    + eexists. split; [reflexivity|].
      destruct (signature_of w apk_path) as [|sig]; [reflexivity|].
      destruct (String.eqb sig base_sig); reflexivity.
    + rewrite apk_digest_miss by exact Hside. now rewrite Hv.
  - destruct (read_bytes (st_fs s) apk_path) as [e|content] eqn:Hc.
    + cbn [st_fs st_trace]. split; [reflexivity|]. split; [exact Hside|]. split.
      * eexists. split; reflexivity.
      * rewrite apk_digest_miss by exact Hside. cbn [st_fs]. now rewrite Hv, Hc.
    + destruct (isdir (st_fs s) (apk_path +:+ ".sha256")) eqn:Hd.
      * cbn [st_fs st_trace]. split; [reflexivity|]. split; [exact Hside|]. split.
        -- eexists. split; reflexivity.
        -- rewrite apk_digest_miss by exact Hside. cbn [st_fs].
           now rewrite Hv, Hc, Hd.
      * cbn [st_fs st_trace]. split; [reflexivity|]. split; [now exists content|].
        split; reflexivity.
Qed.

Lemma C10_sidecar_written_last_witness :
  isfile (st_fs (scan_start Scenario.fresh_tree))
    ("apps/packages/app.one/7/split.apk" +:+ ".sha256") = false /\
  match apk_digest Scenario.bad_split "app.one" "ab12" [("versionCode", PInt 7)]
          "apps/packages/app.one/7/split.apk" (scan_start Scenario.fresh_tree)
  with
  | (inr h, s') => True
  | (inl e, s') =>
      st_fs s' = Scenario.fresh_tree /\
      isfile (st_fs s') ("apps/packages/app.one/7/split.apk" +:+ ".sha256")
      = false
  end.
Proof.
  assert (isfile (st_fs (scan_start Scenario.fresh_tree))
            ("apps/packages/app.one/7/split.apk" +:+ ".sha256") = false) as H
    by (vm_compute; reflexivity).
  split; [exact H|].
  pose proof (C10_sidecar_written_last Scenario.bad_split "app.one" "ab12"
                [("versionCode", PInt 7)] "apps/packages/app.one/7/split.apk"
                (scan_start Scenario.fresh_tree) H) as Hthm.
  destruct (apk_digest _ _ _ _ _ _) as [[e|h] s']; [|exact I].
  destruct Hthm as (Hfs & Hno & _). split; [exact Hfs|exact Hno].
Defined.

(** ** C7: the signature extractor *)

Lemma decode_valid l : Py.utf8_valid l = true -> Py.decode l = Some l.
Proof. unfold Py.decode. now intros ->. Qed.

Lemma decode_inv l t : Py.decode l = Some t -> Py.utf8_valid l = true /\ t = l.
Proof.
  unfold Py.decode. destruct (Py.utf8_valid l); [|discriminate].
  intros [= <-]. now split.
Qed.

Lemma signature_fold_inr apk_path lines acc r :
  fold_res (signature_step apk_path) lines acc = inr r ->
  Forall (fun l => Py.utf8_valid l = true) lines /\
  found acc ++ omap signer_line lines = found r.
Proof.
  revert acc. induction lines as [|l lines IH]; intros acc H.
  - injection H as <-. split; [constructor|]. cbn. apply app_nil_r.
  - cbn [fold_res] in H. unfold signature_step at 1 in H.
    destruct (Py.decode l) as [t|] eqn:Hd; [|discriminate].
    apply decode_inv in Hd as [Hvalid ->]. cbn [or_raise ok res_bind] in H.
    cbn [omap list_omap].
    destruct (signer_line l) as [d|] eqn:Hl.
    + destruct acc as [d0|]; [discriminate|]. cbn [res_bind ok] in H.
      destruct (IH _ H) as [Hall Heq]. split; [now constructor|exact Heq].
    + cbn [res_bind ok] in H. destruct (IH _ H) as [Hall Heq].
      split; [now constructor|exact Heq].
Qed.

Lemma signature_fold_ok apk_path lines acc r :
  Forall (fun l => Py.utf8_valid l = true) lines ->
  found acc ++ omap signer_line lines = found r ->
  fold_res (signature_step apk_path) lines acc = inr r.
Proof.
  intros Hall. revert acc. induction Hall as [|l lines Hl Hall IH]; intros acc H.
  - cbn in H. rewrite app_nil_r in H. cbn [fold_res].
    destruct acc, r; cbn in H; try discriminate; unfold ok; congruence.
  - cbn [fold_res]. unfold signature_step at 1. rewrite (decode_valid _ Hl).
    cbn [or_raise ok res_bind]. cbn [omap list_omap] in H.
    destruct (signer_line l) as [d|] eqn:Hs.
    + destruct acc as [d0|].
      * destruct r; cbn in H; discriminate.
      * cbn [res_bind ok]. apply IH. exact H.
    + cbn [res_bind ok]. apply IH. exact H.
Qed.

(** C7, counterexample: the output has exactly one signer line, and the
    extractor raises [UnicodeDecodeError] on the line after it. *)
Lemma C7_undecodable_line_counterexample :
  ~ one_signer_rule "base.apk" undecodable_output.
Proof.
  intros [H _]. destruct (H "ab") as [_ Hback].
  assert (parse_signature "base.apk" undecodable_output = inl UnicodeDecodeError)
    as Hfail by (vm_compute; reflexivity).
  rewrite Hfail in Hback. discriminate Hback. vm_compute. reflexivity.
Qed.

(** C7, as amended: on the output [out] of the verification tool, the
    extractor returns [d] exactly when every line of [out] decodes as
    UTF-8 and exactly one line is a signer line, whose digest is [d]; it
    raises when there is no signer line and when there are several. *)
Theorem C7_one_signer_of_text w apk_path out :
  apksigner w apk_path = Some out ->
  (forall d, signature_of w apk_path = inr d <->
             decodable out /\ signer_digests out = [d]) /\
  (signer_digests out = [] -> exists e, signature_of w apk_path = inl e) /\
  ((2 <= length (signer_digests out))%nat ->
   exists e, signature_of w apk_path = inl e) /\
  (forall s, load_signature w apk_path s
             = (signature_of w apk_path,
                mkState (st_fs s) (st_trace s ++ [apksigner_event apk_path]))).
Proof.
  intros Hout. unfold signature_of. rewrite Hout. cbn [or_raise ok res_bind].
  unfold parse_signature, signer_digests, decodable.
  split; [|split; [|split]].
  - intros d. split.
    + destruct (fold_res _ _ None) as [|r] eqn:Hf; [discriminate|].
      cbn [res_bind]. apply signature_fold_inr in Hf as [Hall Heq].
      destruct r as [h|]; [|discriminate]. intros [= <-]. now split.
    + intros [Hall Heq].
      rewrite (signature_fold_ok apk_path _ None (Some d) Hall Heq).
      reflexivity.
  - intros Hnil. destruct (fold_res _ _ None) as [e|r] eqn:Hf; [now exists e|].
    apply signature_fold_inr in Hf as [_ Heq]. rewrite Hnil in Heq.
    destruct r; [discriminate|]. cbn [res_bind]. eexists. reflexivity.
  - intros Hlen. destruct (fold_res _ _ None) as [e|r] eqn:Hf; [now exists e|].
    apply signature_fold_inr in Hf as [_ Heq]. cbn [found app] in Heq.
    rewrite Heq in Hlen. destruct r; cbn in Hlen; lia.
  - intros s. unfold load_signature, bind, emit, lift, signature_of.
    rewrite Hout. reflexivity.
Qed.

Lemma C7_one_signer_of_text_witness :
  signature_of Scenario.good "x.apk" = inr "ab12" <->
  decodable (Scenario.signer_output "ab12") /\
  signer_digests (Scenario.signer_output "ab12") = ["ab12"].
Proof.
  apply (C7_one_signer_of_text Scenario.good "x.apk"
           (Scenario.signer_output "ab12") eq_refl).
Defined.

(** * Further properties of the script *)

(** ** The scan and the tree *)

(** X1: The scan writes nothing but sidecar files, whether it returns or
    raises: a file whose path does not end in [.sha256] keeps its content
    and its modification time, a file that is there afterwards and was
    not there before is a sidecar, what was a file is still a file, and
    the directories are the same paths as before.  (What a directory
    lists and when it was modified is not part of the statement.) *)
Theorem scan_touches_sidecars_only w s0 :
  (forall p c t, Py.endswith p ".sha256" = false ->
     (st_fs s0 !! p = Some (File c t) <->
      st_fs (snd (scan w s0)) !! p = Some (File c t))) /\
  (forall p, isfile (st_fs (snd (scan w s0))) p = true ->
     isfile (st_fs s0) p = true \/ Py.endswith p ".sha256" = true) /\
  (forall p, isfile (st_fs s0) p = true ->
     isfile (st_fs (snd (scan w s0))) p = true) /\
  (forall p, isdir (st_fs (snd (scan w s0))) p = isdir (st_fs s0) p).
Proof.
  assert (ext s0 (snd (scan w s0))) as Hext.
  { pose proof (scan_wp w s0) as Hwp. unfold wp in Hwp.
    destruct (scan w s0) as [[e|packages] s1]; cbn [snd]; tauto. }
  split; [|split; [|split]].
  - intros p c t Hp. now rewrite (ext_lookup _ _ _ Hext Hp).
  - intros p Hp. destruct Hext as [Hfs _].
    destruct (Hfs p) as [Heq|(Hs & _)]; [left|now right].
    unfold isfile in *. now rewrite <- Heq.
  - intros p Hp. destruct Hext as [Hfs _].
    destruct (Hfs p) as [Heq|(_ & Hf & _)]; [|exact Hf].
    unfold isfile in *. now rewrite Heq.
  - intros p. now apply ext_isdir.
Qed.

(** ** The signer lines *)

Lemma strip_prefix_spec (p s r : string) :
  strip_prefix p s = Some r <-> s = p +:+ r.
Proof.
  revert s. induction p as [|a p IH]; intros s.
  - cbn [strip_prefix]. change (EmptyString +:+ r) with r.
    split; [now intros [= ->]|now intros ->].
  - change (String a p +:+ r) with (String a (p +:+ r)).
    destruct s as [|b s]; cbn [strip_prefix]; [split; discriminate|].
    destruct (Ascii.eqb a b) eqn:E.
    + apply Ascii.eqb_eq in E. subst b. rewrite IH.
      split; [now intros ->|now intros [= ->]].
    + apply Ascii.eqb_neq in E. split; [discriminate|]. intros [= -> _].
      congruence.
Qed.

Lemma drop_digits_app (ds rest : string) :
  all_digits ds = true -> starts_with_digit rest = false ->
  drop_digits (ds +:+ rest) = rest.
Proof.
  intros Hds Hrest. induction ds as [|c ds IH].
  - change (EmptyString +:+ rest) with rest.
    destruct rest as [|d rest]; [reflexivity|].
    cbn [drop_digits]. cbn [starts_with_digit] in Hrest. now rewrite Hrest.
  - change (String c ds +:+ rest) with (String c (ds +:+ rest)).
    cbn [all_digits] in Hds. apply andb_true_iff in Hds as [Hc Hds].
    cbn [drop_digits]. rewrite Hc. now apply IH.
Qed.

Lemma drop_digits_split (s : string) :
  exists ds, all_digits ds = true /\ s = ds +:+ drop_digits s /\
    starts_with_digit (drop_digits s) = false.
Proof.
  induction s as [|c s (ds & Hds & Hs & Hrest)].
  - now exists EmptyString.
  - cbn [drop_digits]. destruct (Py.isdigit c) eqn:Hc.
    + exists (String c ds). cbn [all_digits]. rewrite Hc, Hds.
      split; [reflexivity|]. split; [|exact Hrest].
      change (String c ds +:+ drop_digits s) with (String c (ds +:+ drop_digits s)).
      now rewrite <- Hs.
    + exists EmptyString. split; [reflexivity|]. split; [reflexivity|].
      cbn [starts_with_digit]. exact Hc.
Qed.

(** X2: A line is a signer line exactly when it is [Signer #], one or more
    decimal digits, [ certificate SHA-256 digest: ] and then the digest,
    which is everything that follows, as the pattern of line 25 says. *)
Theorem signer_line_matches_pattern (line d : string) :
  signer_line line = Some d <->
  exists n, n <> EmptyString /\ all_digits n = true /\
    line = "Signer #" +:+ n +:+ " certificate SHA-256 digest: " +:+ d.
Proof.
  unfold signer_line. split.
  - destruct (strip_prefix "Signer #" line) as [r|] eqn:Hr; [|discriminate].
    apply strip_prefix_spec in Hr. destruct r as [|c r]; [discriminate|].
    destruct (Py.isdigit c) eqn:Hc; [|discriminate].
    intros Hd. apply strip_prefix_spec in Hd.
    destruct (drop_digits_split (String c r)) as (ds & Hds & Hs & _).
    exists ds. split.
    + intros ->. change (EmptyString +:+ drop_digits (String c r))
        with (drop_digits (String c r)) in Hs.
      rewrite Hd in Hs. injection Hs as -> _. discriminate.
    + split; [exact Hds|]. rewrite Hr. f_equal. rewrite Hs at 1. now rewrite Hd.
  - intros (n & Hn & Hds & ->).
    assert (strip_prefix "Signer #"
              ("Signer #" +:+ n +:+ " certificate SHA-256 digest: " +:+ d)
            = Some (n +:+ " certificate SHA-256 digest: " +:+ d)) as ->
      by now apply strip_prefix_spec.
    destruct n as [|c n]; [congruence|].
    change (String c n +:+ " certificate SHA-256 digest: " +:+ d)
      with (String c (n +:+ " certificate SHA-256 digest: " +:+ d)).
    cbn [all_digits] in Hds. apply andb_true_iff in Hds as [Hc Hds].
    rewrite Hc.
    change (String c (n +:+ " certificate SHA-256 digest: " +:+ d))
      with (String c n +:+ " certificate SHA-256 digest: " +:+ d).
    rewrite drop_digits_app.
    + now apply strip_prefix_spec.
    + cbn [all_digits]. now rewrite Hc, Hds.
    + reflexivity.
Qed.

Lemma signature_fold_many apk_path lines acc :
  Forall (fun l => Py.utf8_valid l = true) lines ->
  (2 <= length (found acc ++ omap signer_line lines))%nat ->
  fold_res (signature_step apk_path) lines acc
  = inl (Exception (apk_path +:+ " has more than one signer")).
Proof.
  intros Hall. revert acc. induction Hall as [|l lines Hl Hall IH]; intros acc H.
  - rewrite app_nil_r in H. destruct acc; cbn in H; lia.
  - cbn [fold_res]. unfold signature_step at 1. rewrite (decode_valid _ Hl).
    cbn [or_raise ok res_bind]. cbn [omap list_omap] in H.
    destruct (signer_line l) as [d|] eqn:Hs.
    + destruct acc as [d0|]; [reflexivity|].
      cbn [res_bind ok]. apply IH. exact H.
    + cbn [res_bind ok]. apply IH. exact H.
Qed.

(** X3: The exceptions of the extractor on an output whose lines all
    decode: the message of line 33 when no line is a signer line, the
    message of line 29 when two or more lines are. *)
Theorem signature_errors w apk_path out :
  apksigner w apk_path = Some out -> decodable out ->
  (signer_digests out = [] ->
   signature_of w apk_path
   = inl (Exception ("didn't find signature of " +:+ apk_path))) /\
  ((2 <= length (signer_digests out))%nat ->
   signature_of w apk_path
   = inl (Exception (apk_path +:+ " has more than one signer"))).
Proof.
  intros Hout Hall. unfold signature_of. rewrite Hout.
  cbn [or_raise ok res_bind]. unfold parse_signature, signer_digests, decodable in *.
  split.
  - intros Hnil.
    rewrite (signature_fold_ok apk_path _ None None Hall); [reflexivity|].
    cbn [found app]. exact Hnil.
  - intros Hlen. now rewrite (signature_fold_many apk_path _ None Hall).
Qed.

Lemma signature_errors_witness :
  signature_of Cases.unsigned "x.apk"
  = inl (Exception "didn't find signature of x.apk").
Proof.
  apply (signature_errors Cases.unsigned "x.apk" "DOES NOT VERIFY" eq_refl).
  - unfold decodable. vm_compute. repeat constructor.
  - reflexivity.
Defined.

(** ** Fields of a badging token *)

Lemma split_go_sep (sep : ascii) (a b cur : string) :
  lacks sep a = true ->
  Py.split_go sep cur (a +:+ String sep b)
  = String.rev_app cur a :: Py.split sep b.
Proof.
  revert cur. induction a as [|c a IH]; intros cur Ha.
  - change (EmptyString +:+ String sep b) with (String sep b).
    cbn [Py.split_go]. now rewrite Ascii.eqb_refl.
  - change (String c a +:+ String sep b) with (String c (a +:+ String sep b)).
    cbn [lacks] in Ha. apply andb_true_iff in Ha as [Hc Ha].
    cbn [Py.split_go]. apply negb_true_iff in Hc. rewrite Hc.
    now rewrite IH.
Qed.

Lemma split_go_last (sep : ascii) (a cur : string) :
  lacks sep a = true -> Py.split_go sep cur a = [String.rev_app cur a].
Proof.
  revert cur. induction a as [|c a IH]; intros cur Ha; [reflexivity|].
  cbn [lacks] in Ha. apply andb_true_iff in Ha as [Hc Ha].
  cbn [Py.split_go]. apply negb_true_iff in Hc. rewrite Hc. now rewrite IH.
Qed.

(** X4: [kv.split(sep)[1]] of lines 74-85: the value of [key sep value]; what
    follows a second separator is dropped; without a separator the index
    is out of range. *)
Theorem field_of_token (sep : ascii) (k v rest : string) :
  lacks sep k = true -> lacks sep v = true ->
  field sep (k +:+ String sep v) = inr v /\
  field sep (k +:+ String sep (v +:+ String sep rest)) = inr v /\
  field sep k = inl IndexError.
Proof.
  intros Hk Hv. unfold field, Py.split. split; [|split].
  - rewrite (split_go_sep sep k v EmptyString Hk). unfold Py.split.
    now rewrite (split_go_last sep v EmptyString Hv).
  - rewrite (split_go_sep sep k _ EmptyString Hk). unfold Py.split.
    now rewrite (split_go_sep sep v rest EmptyString Hv).
  - now rewrite (split_go_last sep k EmptyString Hk).
Qed.

Lemma field_of_token_witness :
  field "=" ("versionName" +:+ String "=" "1.0") = inr "1.0" /\
  field "=" ("versionName" +:+ String "=" ("1.0" +:+ String "=" "rc1"))
  = inr "1.0" /\
  field "=" "versionName" = inl IndexError.
Proof. apply (field_of_token "=" "versionName" "1.0" "rc1"); reflexivity. Defined.

(** ** Property files and overrides *)

Lemma dict_get_not_in (d : dict) k :
  ~ In k (map fst d) -> dict_get d k = None.
Proof.
  induction d as [|[k0 v0] d IH]; [reflexivity|].
  cbn [map fst In dict_get]. intros H.
  destruct (String.eqb k0 k) eqn:E.
  - apply String.eqb_eq in E. tauto.
  - apply IH. tauto.
Qed.

Lemma dict_set_keys (d : dict) k v :
  map fst (dict_set d k v)
  = if has_key d k then map fst d else map fst d ++ [k].
Proof.
  unfold has_key. induction d as [|[k0 v0] d IH]; [reflexivity|].
  cbn [dict_set dict_get]. destruct (String.eqb k0 k) eqn:E.
  - apply String.eqb_eq in E. now subst k0.
  - cbn [map fst]. rewrite IH. now destruct (dict_get d k).
Qed.

Lemma has_key_In (d : dict) k : has_key d k = true <-> In k (map fst d).
Proof.
  unfold has_key. induction d as [|[k0 v0] d IH]; cbn [dict_get map fst In].
  - split; [discriminate|tauto].
  - destruct (String.eqb k0 k) eqn:E.
    + apply String.eqb_eq in E. tauto.
    + apply String.eqb_neq in E. rewrite IH. tauto.
Qed.

Lemma dict_set_NoDup (d : dict) k v :
  List.NoDup (map fst d) -> List.NoDup (map fst (dict_set d k v)).
Proof.
  intros H. rewrite dict_set_keys. destruct (has_key d k) eqn:E; [exact H|].
  apply NoDup_ListNoDup. apply NoDup_app. rewrite !NoDup_ListNoDup.
  split; [exact H|]. split.
  - intros x Hx [->|[]]%list_elem_of_In. apply list_elem_of_In in Hx.
    apply has_key_In in Hx. congruence.
  - apply NoDup_ListNoDup. apply NoDup_singleton.
Qed.

Lemma dict_update_NoDup (items d : dict) :
  List.NoDup (map fst d) -> List.NoDup (map fst (dict_update d items)).
Proof.
  unfold dict_update. revert d. induction items as [|[k v] items IH]; intros d H.
  - exact H.
  - cbn [fold_left]. apply IH. now apply dict_set_NoDup.
Qed.

(** The dictionary [load_props] returns has each key once. *)
Lemma load_props_NoDup w fs dir name (o : dict) :
  load_props w fs dir name = inr o -> List.NoDup (map fst o).
Proof.
  unfold load_props. destruct (isfile fs _).
  - destruct (read_bytes fs _) as [|b]; [discriminate|]. cbn [res_bind].
    destruct (toml_load w b) as [items|]; [|discriminate].
    cbn [or_raise ok res_bind]. intros [= <-].
    apply dict_update_NoDup. constructor.
  - intros [= <-]. constructor.
Qed.

Lemma dict_update_get (o d : dict) k :
  List.NoDup (map fst o) ->
  dict_get (dict_update d o) k
  = match dict_get o k with
    | Some v => Some v
    | None => dict_get d k
    end.
Proof.
  revert d. induction o as [|[k0 v0] o IH]; intros d Hnd; [reflexivity|].
  cbn [map fst] in Hnd. apply List.NoDup_cons_iff in Hnd as [Hnot Hnd].
  change (dict_update d ((k0, v0) :: o)) with (dict_update (dict_set d k0 v0) o).
  cbn [dict_get]. destruct (String.eqb k0 k) eqn:E.
  - apply String.eqb_eq in E. subst k0.
    rewrite (dict_update_get_none o _ k (dict_get_not_in o k Hnot)).
    apply dict_get_set_eq.
  - rewrite (IH _ Hnd). destruct (dict_get o k); [reflexivity|].
    apply dict_get_set_ne. now apply String.eqb_neq.
Qed.

(** X5: Lines 94-95: the properties of the per-version file take precedence
    over the extracted ones, and every other extracted property is
    kept. *)
Theorem overrides_take_precedence w fs dir (extracted overrides : dict) k :
  load_props w fs dir "props" = inr overrides ->
  dict_get (dict_update extracted overrides) k
  = match dict_get overrides k with
    | Some v => Some v
    | None => dict_get extracted k
    end.
Proof.
  intros H. apply dict_update_get. exact (load_props_NoDup _ _ _ _ _ H).
Qed.

Lemma overrides_take_precedence_witness :
  dict_get (dict_update [("channel", PStr "beta"); ("minSdk", PInt 21)]
              [("channel", PStr "stable")]) "channel"
  = Some (PStr "stable").
Proof.
  apply (overrides_take_precedence Scenario.good Scenario.fresh_tree
           "apps/packages/app.one/7"
           [("channel", PStr "beta"); ("minSdk", PInt 21)]
           [("channel", PStr "stable")] "channel").
  vm_compute. reflexivity.
Defined.

(** ** The channel of an emitted variant *)

Lemma check_channel_inv (d : dict) :
  check_channel d = inr tt ->
  exists c, dict_get d "channel" = Some (PStr c) /\ In c channels.
Proof.
  unfold check_channel, dict_item.
  destruct (dict_get d "channel") as [ch|]; [|discriminate].
  cbn [or_raise ok res_bind]. intros H. apply assert_inr in H.
  apply existsb_exists in H as (c & Hin & Heq).
  destruct ch as [|s| | |]; try discriminate.
  cbn [py_eq_str] in Heq. apply String.eqb_eq in Heq. subst s.
  now exists c.
Qed.

(** X6: Lines 97 and 163: the channel of every variant of the emitted
    mapping is the string [alpha], [beta] or [stable]. *)
Theorem emitted_channel w fs fs0 packages s1 s2 pkg_name sigs v pkg_props :
  completes w fs fs0 packages s1 s2 ->
  emitted_variant packages pkg_name sigs v pkg_props ->
  exists c, dict_get pkg_props "channel" = Some (PStr c) /\
    In c ["alpha"; "beta"; "stable"].
Proof.
  intros Hc He.
  destruct (emitted_variant_ok w _ _ _ _ _ _ _ _ _ Hc He)
    as (n & b & ch & _ & Hok & Hch & Hold).
  destruct (check_channel_inv _ (vo_channel _ _ _ _ _ _ _ _ _ _ Hok))
    as (c & Hget & Hin).
  exists c. split; [exact Hget|].
  assert (ch = PStr c) as -> by congruence.
  cbn [py_eq_str] in Hold. apply String.eqb_neq in Hold.
  unfold channels in Hin. cbn [In] in *. intuition congruence.
Qed.

Lemma emitted_channel_witness :
  exists c,
    dict_get (match lookup_variant Runs.fresh_packages "app.one" "7" with
              | Some (_, d) => d
              | None => []
              end) "channel" = Some (PStr c) /\
    In c ["alpha"; "beta"; "stable"].
Proof.
  apply (emitted_channel Scenario.good Scenario.fresh_tree Scenario.fresh_tree
           Runs.fresh_packages _ _ "app.one" (PList [PStr "ab12"]) "7" _
           fresh_completes).
  apply lookup_variant_emitted. vm_compute. reflexivity.
Defined.

(** ** What the primary badging yields *)

Lemma head_step_other pkg_name (d d' : dict) kv k :
  head_step pkg_name d kv = inr d' -> k <> "versionName" ->
  dict_get d' k = dict_get d k.
Proof.
  unfold head_step. intros H Hk.
  destruct (Py.startswith kv "versionName").
  { destruct (field "=" kv) as [|x]; [discriminate|]. cbn [res_bind] in H.
    injection H as <-. apply dict_get_set_ne. congruence. }
  destruct (Py.startswith kv "versionCode").
  { destruct (dict_item d "versionCode") as [|vc]; [discriminate|].
    cbn [res_bind] in H.
    destruct (field "=" kv) as [|x]; [discriminate|]. cbn [res_bind] in H.
    destruct (to_int x) as [|m]; [discriminate|]. cbn [res_bind] in H.
    destruct (assert _) as [|[]]; [discriminate|]. cbn [res_bind] in H.
    now injection H as <-. }
  destruct (Py.startswith kv "name").
  { destruct (field "=" kv) as [|x]; [discriminate|]. cbn [res_bind] in H.
    destruct (assert _) as [|[]]; [discriminate|]. cbn [res_bind] in H.
    now injection H as <-. }
  now injection H as <-.
Qed.

Lemma head_fold_other pkg_name kvs (d d' : dict) k :
  fold_res (head_step pkg_name) kvs d = inr d' -> k <> "versionName" ->
  dict_get d' k = dict_get d k.
Proof.
  intros H Hk. revert d H. induction kvs as [|kv kvs IH]; intros d H.
  - now injection H as <-.
  - cbn [fold_res] in H.
    destruct (head_step pkg_name d kv) as [|d1] eqn:E; [discriminate|].
    cbn [res_bind] in H. rewrite (IH _ H). exact (head_step_other _ _ _ _ _ E Hk).
Qed.

(** One line of lines 81-90: what it does to [abis] and to [minSdk]. *)
Lemma line_step_inv (d d1 : dict) line :
  line_step d line = inr d1 ->
  (if native_code_line line then
     has_key d "abis" = false /\
     exists abi, second_token line = Some abi /\ In abi known_abis /\
       dict_get d1 "abis" = Some (PList [PStr abi])
   else dict_get d1 "abis" = dict_get d "abis") /\
  (if sdk_version_line line then exists m, dict_get d1 "minSdk" = Some (PInt m)
   else dict_get d1 "minSdk" = dict_get d "minSdk").
Proof.
  unfold line_step, native_code_line, sdk_version_line, line_key, second_token.
  intros H.
  destruct (tokens line) as [|kv]; [discriminate|]. cbn [res_bind] in H.
  destruct kv as [|k0 kv]; [discriminate|].
  change (str_item (k0 :: kv) 0) with (inr k0 : res string) in H.
  cbn [res_bind] in H.
  destruct (Py.startswith k0 "application-label:"); cbn [negb andb].
  { destruct (field ":" k0) as [|x]; [discriminate|]. cbn [res_bind] in H.
    injection H as <-. split; apply dict_get_set_ne; discriminate. }
  destruct (Py.startswith k0 "sdkVersion"); cbn [negb andb].
  { destruct (field ":" k0) as [|x]; [discriminate|]. cbn [res_bind] in H.
    destruct (to_int x) as [|m]; [discriminate|]. cbn [res_bind] in H.
    injection H as <-. split.
    - apply dict_get_set_ne. discriminate.
    - exists m. apply dict_get_set_eq. }
  destruct (Py.startswith k0 "native-code").
  { destruct (str_item (k0 :: kv) 1) as [|abi]; [discriminate|].
    cbn [res_bind] in H.
    destruct (assert (existsb _ _)) as [|[]] eqn:Ha; [discriminate|].
    cbn [res_bind] in H.
    destruct (assert (negb _)) as [|[]] eqn:Hb; [discriminate|].
    cbn [res_bind] in H. injection H as <-.
    apply assert_inr in Ha, Hb. apply negb_true_iff in Hb.
    apply existsb_exists in Ha as (x & Hin & Heq).
    apply String.eqb_eq in Heq. subst x. split.
    - split; [exact Hb|]. exists abi. split; [reflexivity|].
      split; [exact Hin|]. apply dict_get_set_eq.
    - apply dict_get_set_ne. discriminate. }
  injection H as <-. now split.
Qed.

Lemma line_fold_abis lines (d d' : dict) :
  fold_res line_step lines d = inr d' ->
  match dict_get d "abis" with
  | Some _ =>
      List.filter native_code_line lines = [] /\
      dict_get d' "abis" = dict_get d "abis"
  | None =>
      match dict_get d' "abis" with
      | Some v =>
          exists line abi,
            List.filter native_code_line lines = [line] /\
            second_token line = Some abi /\ In abi known_abis /\
            v = PList [PStr abi]
      | None => List.filter native_code_line lines = []
      end
  end.
Proof.
  revert d. induction lines as [|l lines IH]; intros d H.
  - injection H as <-. now destruct (dict_get d "abis").
  - cbn [fold_res] in H. destruct (line_step d l) as [|d1] eqn:E; [discriminate|].
    cbn [res_bind] in H. specialize (IH _ H).
    destruct (line_step_inv _ _ _ E) as [Habis _]. cbn [List.filter].
    destruct (native_code_line l).
    + destruct Habis as (Hnone & abi & Htok & Hin & Hset).
      unfold has_key in Hnone. destruct (dict_get d "abis"); [discriminate|].
      rewrite Hset in IH. destruct IH as [Hnil Hsame].
      rewrite Hsame, Hnil. now exists l, abi.
    + now rewrite <- Habis.
Qed.

Lemma line_fold_min_sdk lines (d d' : dict) :
  fold_res line_step lines d = inr d' ->
  if existsb sdk_version_line lines
  then exists m, dict_get d' "minSdk" = Some (PInt m)
  else dict_get d' "minSdk" = dict_get d "minSdk".
Proof.
  revert d. induction lines as [|l lines IH]; intros d H.
  - now injection H as <-.
  - cbn [fold_res] in H. destruct (line_step d l) as [|d1] eqn:E; [discriminate|].
    cbn [res_bind] in H. specialize (IH _ H).
    destruct (line_step_inv _ _ _ E) as [_ Hsdk]. cbn [existsb].
    destruct (existsb sdk_version_line lines).
    + now rewrite orb_true_r.
    + rewrite orb_false_r. destruct (sdk_version_line l).
      * destruct Hsdk as (m & Hm). exists m. congruence.
      * congruence.
Qed.

(** X7: Lines 80-92: a primary badging is accepted only when one of its
    detail lines is an [sdkVersion] line, and the minimum platform version
    it yields is an integer. *)
Theorem primary_badging_min_sdk pkg_name n badging (extracted : dict) :
  primary_badging pkg_name (initial_props n) badging = inr extracted ->
  existsb sdk_version_line (detail_lines badging) = true /\
  exists m, dict_get extracted "minSdk" = Some (PInt m).
Proof.
  unfold primary_badging, detail_lines. intros H.
  destruct (tokens _) as [|kvs]; [discriminate|]. cbn [res_bind] in H.
  destruct (fold_res (head_step pkg_name) kvs _) as [|p1] eqn:E1; [discriminate|].
  cbn [res_bind] in H.
  destruct (fold_res line_step _ p1) as [|p2] eqn:E2; [discriminate|].
  cbn [res_bind] in H.
  destruct (assert (has_key p2 "minSdk")) as [|[]] eqn:Ha; [discriminate|].
  cbn [res_bind] in H. injection H as <-. apply assert_inr in Ha.
  pose proof (line_fold_min_sdk _ _ _ E2) as Hsdk.
  destruct (existsb sdk_version_line _).
  - now split.
  - rewrite (head_fold_other _ _ _ _ "minSdk" E1) in Hsdk by discriminate.
    unfold has_key in Ha. rewrite Hsdk in Ha. discriminate.
Qed.

Lemma primary_badging_min_sdk_witness :
  existsb sdk_version_line (detail_lines (Scenario.badging_output "7")) = true /\
  exists m,
    dict_get (match primary_badging "app.one" (initial_props 7)
                      (Scenario.badging_output "7") with
              | inr d => d
              | inl _ => []
              end) "minSdk" = Some (PInt m).
Proof.
  apply (primary_badging_min_sdk "app.one" 7). vm_compute. reflexivity.
Defined.

(** X8: Lines 86-90: a primary badging is accepted only when at most one of
    its detail lines is a [native-code] line; with none it yields no
    [abis], with one it yields the list whose one item is the second
    token of that line, which is one of the four known architectures. *)
Theorem primary_badging_single_abi pkg_name n badging (extracted : dict) :
  primary_badging pkg_name (initial_props n) badging = inr extracted ->
  match dict_get extracted "abis" with
  | Some v =>
      exists line abi,
        List.filter native_code_line (detail_lines badging) = [line] /\
        second_token line = Some abi /\ In abi known_abis /\
        v = PList [PStr abi]
  | None => List.filter native_code_line (detail_lines badging) = []
  end.
Proof.
  unfold primary_badging, detail_lines. intros H.
  destruct (tokens _) as [|kvs]; [discriminate|]. cbn [res_bind] in H.
  destruct (fold_res (head_step pkg_name) kvs _) as [|p1] eqn:E1; [discriminate|].
  cbn [res_bind] in H.
  destruct (fold_res line_step _ p1) as [|p2] eqn:E2; [discriminate|].
  cbn [res_bind] in H.
  destruct (assert _) as [|[]]; [discriminate|].
  cbn [res_bind] in H. injection H as <-.
  pose proof (line_fold_abis _ _ _ E2) as Habis.
  rewrite (head_fold_other _ _ _ _ "abis" E1) in Habis by discriminate.
  exact Habis.
Qed.

Lemma primary_badging_single_abi_witness :
  match dict_get (match primary_badging "app.one" (initial_props 7)
                          (Scenario.badging_output "7") with
                  | inr d => d
                  | inl _ => []
                  end) "abis" with
  | Some v =>
      exists line abi,
        List.filter native_code_line (detail_lines (Scenario.badging_output "7"))
        = [line] /\
        second_token line = Some abi /\ In abi known_abis /\
        v = PList [PStr abi]
  | None =>
      List.filter native_code_line (detail_lines (Scenario.badging_output "7"))
      = []
  end.
Proof.
  apply (primary_badging_single_abi "app.one" 7). vm_compute. reflexivity.
Defined.

(** ** How the variants are built *)

Lemma extended_app (d d1 d2 : dict) k xs ys :
  extended d d1 k xs -> extended d1 d2 k ys -> extended d d2 k (xs ++ ys).
Proof.
  unfold extended. destruct xs as [|x xs], ys as [|y ys]; cbn [app].
  - congruence.
  - intros H1 (l & H2 & H3). exists l. split; congruence.
  - intros (l & H1 & H2) H3. exists l. rewrite app_nil_r. split; congruence.
  - intros (l & H1 & H2) (l' & H3 & H4). exists l. split; [exact H1|].
    assert (l' = l ++ x :: xs) as -> by congruence.
    rewrite H4. now rewrite <- app_assoc.
Qed.

Lemma extended_from_nil (d d' : dict) k xs :
  extended d d' k xs -> dict_get d k = Some (PList []) ->
  dict_get d' k = Some (PList xs).
Proof.
  unfold extended. destruct xs as [|x xs].
  - congruence.
  - intros (l & H1 & H2) H. assert (l = []) as -> by congruence. exact H2.
Qed.

Lemma extended_other (d d' : dict) k (rows : list row) :
  extended d d' k (flat_map (cell k) rows) -> ~ In k artifact_keys ->
  dict_get d' k = dict_get d k.
Proof.
  intros H Hk. assert (flat_map (cell k) rows = []) as E.
  { clear H. induction rows as [|r rows IH]; [reflexivity|]. cbn [flat_map].
    rewrite IH, app_nil_r. unfold cell. unfold artifact_keys in Hk. cbn [In] in Hk.
    destruct (String.eqb_spec k "apkHashes"); [intuition congruence|].
    destruct (String.eqb_spec k "apkSizes"); [intuition congruence|].
    destruct (String.eqb_spec k "apkGzSizes"); [intuition congruence|].
    destruct (String.eqb_spec k "apkBrSizes"); [intuition congruence|].
    destruct (String.eqb_spec k "apks"); [intuition congruence|].
    reflexivity. }
  rewrite E in H. exact H.
Qed.

Lemma append_to_extended (d d' : dict) k0 v :
  append_to d k0 v = inr d' ->
  exists x, v = inr x /\
    forall k, extended d d' k (if String.eqb k k0 then [x] else []).
Proof.
  intros H. apply append_to_inr in H as (l & x & Hget & Hv & ->).
  exists x. split; [exact Hv|]. intros k.
  destruct (String.eqb_spec k k0) as [->|Hne]; cbn [extended].
  - exists l. split; [exact Hget|apply dict_get_set_eq].
  - apply dict_get_set_ne. congruence.
Qed.

Lemma cell_split k (r : row) :
  (if String.eqb k "apkHashes" then [PStr (r_hash r)] else []) ++
  (if String.eqb k "apkSizes" then [PInt (r_size r)] else []) ++
  (if String.eqb k "apkGzSizes" then [PInt (r_gz r)] else []) ++
  (if String.eqb k "apkBrSizes" then [PInt (r_br r)] else []) ++
  (if String.eqb k "apks" then [PStr (r_name r)] else [])
  = cell k r.
Proof.
  unfold cell.
  destruct (String.eqb_spec k "apkHashes") as [->|_]; [reflexivity|].
  destruct (String.eqb_spec k "apkSizes") as [->|_]; [reflexivity|].
  destruct (String.eqb_spec k "apkGzSizes") as [->|_]; [reflexivity|].
  destruct (String.eqb_spec k "apkBrSizes") as [->|_]; [reflexivity|].
  destruct (String.eqb_spec k "apks") as [->|_]; reflexivity.
Qed.

(** Lines 155-159: recording an artifact adds one row. *)
Lemma record_apk_row fs (d d' : dict) path name h :
  record_apk fs d path name h = inr d' ->
  exists z zg zb,
    getsize fs path = inr z /\ getsize fs (path +:+ ".gz") = inr zg /\
    getsize fs (path +:+ ".br") = inr zb /\
    forall k, extended d d' k (cell k (mk_row name h z zg zb)).
Proof.
  unfold record_apk. intros H.
  destruct (append_to d _ _) as [|p1] eqn:E1; [discriminate|]. cbn [res_bind] in H.
  destruct (append_to p1 _ _) as [|p2] eqn:E2; [discriminate|]. cbn [res_bind] in H.
  destruct (append_to p2 _ _) as [|p3] eqn:E3; [discriminate|]. cbn [res_bind] in H.
  destruct (append_to p3 _ _) as [|p4] eqn:E4; [discriminate|]. cbn [res_bind] in H.
  apply append_to_extended in E1 as (x1 & Hx1 & X1).
  apply append_to_extended in E2 as (x2 & Hx2 & X2).
  apply append_to_extended in E3 as (x3 & Hx3 & X3).
  apply append_to_extended in E4 as (x4 & Hx4 & X4).
  apply append_to_extended in H as (x5 & Hx5 & X5).
  unfold ok in Hx1, Hx5. injection Hx1 as <-. injection Hx5 as <-.
  destruct (getsize fs path) as [|z]; [discriminate|].
  destruct (getsize fs (path +:+ ".gz")) as [|zg]; [discriminate|].
  destruct (getsize fs (path +:+ ".br")) as [|zb]; [discriminate|].
  cbn [res_map] in Hx2, Hx3, Hx4.
  injection Hx2 as <-. injection Hx3 as <-. injection Hx4 as <-.
  exists z, zg, zb. split; [reflexivity|]. split; [reflexivity|].
  split; [reflexivity|]. intros k. rewrite <- cell_split.
  cbn [r_name r_hash r_size r_gz r_br].
  apply (extended_app d p1 d'); [apply X1|].
  apply (extended_app p1 p2 d'); [apply X2|].
  apply (extended_app p2 p3 d'); [apply X3|].
  apply (extended_app p3 p4 d'); [apply X4|apply X5].
Qed.

Lemma getsize_ext s0 s p :
  ext s0 s -> Py.endswith p ".sha256" = false ->
  getsize (st_fs s) p = getsize (st_fs s0) p.
Proof. intros H Hp. unfold getsize. now rewrite (ext_lookup s0 s p H Hp). Qed.

(** The keys of a dictionary that was built by assignments. *)
Lemma sublist_dict_set (d : dict) k v (done : list string) :
  sublist (map fst d) done ->
  sublist (map fst (dict_set d k v)) (done ++ [k]).
Proof.
  intros H. rewrite dict_set_keys. destruct (has_key d k).
  - now apply sublist_inserts_r.
  - now apply sublist_app.
Qed.

Lemma In_dict_set_keys (d : dict) k v k' :
  In k' (map fst (dict_set d k v)) <-> In k' (map fst d) \/ k' = k.
Proof.
  rewrite dict_set_keys. destruct (has_key d k) eqn:E.
  - apply has_key_In in E. split; [tauto|]. intros [H| ->]; tauto.
  - rewrite in_app_iff. cbn [In]. intuition congruence.
Qed.

Lemma line_step_other (d d' : dict) line k :
  line_step d line = inr d' -> ~ In k ["label"; "minSdk"; "abis"] ->
  dict_get d' k = dict_get d k.
Proof.
  unfold line_step. intros H Hk. cbn [In] in Hk.
  destruct (tokens line) as [|kv]; [discriminate|]. cbn [res_bind] in H.
  destruct (str_item kv 0) as [|k0]; [discriminate|]. cbn [res_bind] in H.
  destruct (Py.startswith k0 "application-label:").
  { destruct (field ":" k0) as [|x]; [discriminate|]. cbn [res_bind] in H.
    injection H as <-. apply dict_get_set_ne. intuition congruence. }
  destruct (Py.startswith k0 "sdkVersion").
  { destruct (field ":" k0) as [|x]; [discriminate|]. cbn [res_bind] in H.
    destruct (to_int x) as [|m]; [discriminate|]. cbn [res_bind] in H.
    injection H as <-. apply dict_get_set_ne. intuition congruence. }
  destruct (Py.startswith k0 "native-code").
  { destruct (str_item kv 1) as [|abi]; [discriminate|]. cbn [res_bind] in H.
    destruct (assert _) as [|[]]; [discriminate|]. cbn [res_bind] in H.
    destruct (assert _) as [|[]]; [discriminate|]. cbn [res_bind] in H.
    injection H as <-. apply dict_get_set_ne. intuition congruence. }
  now injection H as <-.
Qed.

Lemma line_fold_other lines (d d' : dict) k :
  fold_res line_step lines d = inr d' -> ~ In k ["label"; "minSdk"; "abis"] ->
  dict_get d' k = dict_get d k.
Proof.
  intros H Hk. revert d H. induction lines as [|l lines IH]; intros d H.
  - now injection H as <-.
  - cbn [fold_res] in H. destruct (line_step d l) as [|d1] eqn:E; [discriminate|].
    cbn [res_bind] in H. rewrite (IH _ H). exact (line_step_other _ _ _ _ E Hk).
Qed.

(** The primary badging sets the version name, the label, the minimum
    platform version and the architecture, and nothing else. *)
Lemma primary_badging_other pkg_name (d extracted : dict) badging k :
  primary_badging pkg_name d badging = inr extracted ->
  ~ In k ["versionName"; "label"; "minSdk"; "abis"] ->
  dict_get extracted k = dict_get d k.
Proof.
  unfold primary_badging. intros H Hk. cbn [In] in Hk.
  destruct (tokens _) as [|kvs]; [discriminate|]. cbn [res_bind] in H.
  destruct (fold_res (head_step pkg_name) kvs _) as [|p1] eqn:E1; [discriminate|].
  cbn [res_bind] in H.
  destruct (fold_res line_step _ p1) as [|p2] eqn:E2; [discriminate|].
  cbn [res_bind] in H.
  destruct (assert _) as [|[]]; [discriminate|]. cbn [res_bind] in H.
  injection H as <-.
  rewrite (line_fold_other _ _ _ k E2) by (cbn [In]; tauto).
  apply (head_fold_other _ _ _ _ k E1). intuition congruence.
Qed.

Section BuiltFacts.
Context (w : World).

Lemma process_apk_row_wp s0 s pkg_name base_sig dir (d : dict) a :
  ext s0 s -> Py.endswith a ".apk" = true ->
  wp (process_apk w pkg_name base_sig dir d a)
     (fun d' s' => ext s0 s' /\
        exists r, r_name r = a /\ measured (st_fs s0) dir r /\
          forall k, extended d d' k (cell k r))
     (fun _ s' => ext s0 s') s.
Proof.
  intros H0 Ha. unfold process_apk.
  apply wp_bind, wp_with_fs; [|auto]. intros [] _.
  apply wp_bind. eapply wp_mono; [apply (apk_digest_wp w s0); exact H0| |auto].
  intros h s1 [H1 _]. cbv beta.
  apply wp_with_fs; [|auto]. intros d' Hd'.
  split; [exact H1|].
  apply record_apk_row in Hd' as (z & zg & zb & Hz & Hzg & Hzb & Hk).
  exists (mk_row a h z zg zb). split; [reflexivity|]. split; [|exact Hk].
  unfold measured. cbn [r_name r_size r_gz r_br].
  rewrite <- (getsize_ext s0 s1 _ H1 (not_sidecar_apk dir a Ha)).
  rewrite <- (getsize_ext s0 s1 (Py.path_join dir a +:+ ".gz") H1)
    by (apply not_sidecar_suffix with "z"%char; [reflexivity|discriminate]).
  rewrite <- (getsize_ext s0 s1 (Py.path_join dir a +:+ ".br") H1)
    by (apply not_sidecar_suffix with "r"%char; [reflexivity|discriminate]).
  now split.
Qed.

Lemma apk_loop_rows_wp s0 s pkg_name base_sig dir (d : dict) names :
  ext s0 s ->
  wp (foldM (process_apk w pkg_name base_sig dir) (apk_names names) d)
     (fun d' s' => ext s0 s' /\ recorded (st_fs s0) dir (apk_names names) d d')
     (fun _ s' => ext s0 s') s.
Proof.
  intros H0.
  apply (wp_foldM (process_apk w pkg_name base_sig dir)
    (fun done d' s' => ext s0 s' /\ recorded (st_fs s0) dir done d d')).
  - intros done a rest d1 s1 Hl (H1 & rows & Hn & Hm & Hk).
    assert (Py.endswith a ".apk" = true) as Ha.
    { apply (apk_names_spec names a). rewrite Hl. apply in_or_app. right. now left. }
    eapply wp_mono; [apply (process_apk_row_wp s0 s1); [exact H1|exact Ha]| |auto].
    intros d2 s2 (H2 & r & Hr & Hmr & Hkr). cbv beta. split; [exact H2|].
    exists (rows ++ [r]). split; [|split].
    + rewrite map_app. cbn [map]. now rewrite Hn, Hr.
    + apply Forall_app. split; [exact Hm|]. now constructor.
    + intros k. rewrite flat_map_app. cbn [flat_map]. rewrite app_nil_r.
      apply (extended_app d d1 d2); [apply Hk|apply Hkr].
  - split; [exact H0|]. exists []. split; [reflexivity|]. split; [constructor|].
    intros k. reflexivity.
Qed.

Lemma process_version_built_wp s0 s pkg_name sigs (variants : dict) v :
  ext s0 s ->
  wp (process_version w pkg_name sigs (Py.path_join packages_dir pkg_name)
        variants v)
     (fun variants' s' => ext s0 s' /\
        (variants' = variants \/
         exists pkg_props,
           variants' = dict_set variants v (PDict pkg_props) /\
           built w (st_fs s0) pkg_name v pkg_props))
     (fun _ s' => ext s0 s') s.
Proof.
  intros H0. unfold process_version. apply wp_bind, wp_get_fs.
  destruct (isdir (st_fs s) _); simpl negb; cbv iota.
  2: { apply wp_ret. split; [exact H0|now left]. }
  apply wp_bind, wp_lift; [|auto]. intros n Hn.
  apply wp_bind, wp_with_fs; [|auto]. intros [] _.
  apply wp_bind. eapply wp_mono; [apply (load_signature_wp w s0); exact H0| |auto].
  intros bsig s1 [H1 _]. cbv beta.
  apply wp_bind, wp_lift; [|auto]. intros known _.
  destruct known; simpl negb; cbv iota; [|now apply wp_throw].
  apply wp_bind. eapply wp_mono; [apply (dump_badging_wp w s0); exact H1| |auto].
  intros badging s2 [H2 Hbad]. cbv beta.
  apply wp_bind, wp_lift; [|auto]. intros extracted Hext.
  apply wp_bind, wp_with_fs; [|auto]. intros overrides Hover.
  rewrite (load_props_ext w s0 s2 _ _ H2) in Hover.
  apply wp_bind, wp_lift; [|auto]. intros [] _.
  apply wp_bind, wp_lift; [|auto]. intros [] Hmsg.
  apply wp_bind, wp_with_fs; [|auto]. intros names Hnames.
  apply (ext_listdir s0 s2 _ _ H2) in Hnames.
  apply wp_bind.
  eapply wp_mono; [apply (apk_loop_rows_wp s0); exact H2| |auto].
  intros props s3 (H3 & Hrec). cbv beta.
  apply wp_bind, wp_lift; [|auto]. intros channel _.
  destruct (py_eq_str channel "old"); apply wp_ret; (split; [exact H3|]);
    [now left|right].
  exists props. split; [reflexivity|].
  exists n, badging, extracted, overrides, names.
  unfold primary_path, artifact_path, version_path. auto 10.
Qed.

Lemma version_loop_built_wp s0 s pkg_name sigs entries :
  ext s0 s ->
  wp (foldM (process_version w pkg_name sigs (Py.path_join packages_dir pkg_name))
        (sorted entries) [])
     (fun variants s' => ext s0 s' /\
        sublist (map fst variants) (sorted entries) /\
        List.NoDup (map fst variants) /\
        Forall (variant_built w (st_fs s0) pkg_name) variants)
     (fun _ s' => ext s0 s') s.
Proof.
  intros H0.
  apply (wp_foldM
    (process_version w pkg_name sigs (Py.path_join packages_dir pkg_name))
    (fun done variants s' => ext s0 s' /\
       sublist (map fst variants) done /\
       List.NoDup (map fst variants) /\
       Forall (variant_built w (st_fs s0) pkg_name) variants)).
  - intros done v rest variants s1 Hl (H1 & Hsub & Hnd & Hall).
    eapply wp_mono; [apply (process_version_built_wp s0 s1); exact H1| |auto].
    intros variants' s2 (H2 & Hres). cbv beta. split; [exact H2|].
    destruct Hres as [->|(props & -> & Hb)].
    + split; [now apply sublist_inserts_r|]. now split.
    + split; [now apply sublist_dict_set|].
      split; [now apply dict_set_NoDup|].
      apply Forall_dict_set; [exact Hall|]. exists props. now split.
  - split; [exact H0|]. split; [constructor|]. split; constructor.
Qed.

Lemma process_package_built_wp s0 s (packages : dict) pkg_name :
  ext s0 s ->
  wp (process_package w packages pkg_name)
     (fun packages' s' => ext s0 s' /\
        exists entry, packages' = dict_set packages pkg_name entry /\
          package_built w (st_fs s0) (pkg_name, entry))
     (fun _ s' => ext s0 s') s.
Proof.
  intros H0. unfold process_package.
  apply wp_bind, wp_with_fs; [|auto]. intros common Hcommon.
  rewrite (common_props_ext w s0 s _ H0) in Hcommon.
  apply wp_bind, wp_lift; [|auto]. intros sigs _.
  apply wp_bind, wp_with_fs; [|auto]. intros entries Hentries.
  apply (ext_listdir s0 s _ _ H0) in Hentries.
  apply wp_bind.
  eapply wp_mono; [apply (version_loop_built_wp s0); exact H0| |auto].
  intros variants s1 (H1 & Hsub & Hnd & Hall). cbv beta. apply wp_ret.
  split; [exact H1|]. eexists. split; [reflexivity|].
  exists common, variants, entries. cbn [fst snd]. auto 6.
Qed.

(** The scan: the mapping it returns holds the package directories in
    the order of the sorted listing, each once, and every entry was
    built from its directory. *)
Lemma scan_built_wp s0 :
  wp (scan w)
     (fun packages _ =>
        Forall (package_built w (st_fs s0)) packages /\
        List.NoDup (map fst packages) /\
        exists names, listdir (st_fs s0) packages_dir = inr names /\
          sublist (map fst packages) (sorted names) /\
          forall p, In p names -> In p (map fst packages))
     (fun _ _ => True) s0.
Proof.
  unfold scan. apply wp_bind, wp_with_fs; [|auto].
  intros names Hnames.
  eapply wp_mono;
    [apply (wp_foldM (process_package w)
      (fun done packages s' => ext s0 s' /\
        Forall (package_built w (st_fs s0)) packages /\
        List.NoDup (map fst packages) /\
        sublist (map fst packages) done /\
        forall p, In p done -> In p (map fst packages))
      (fun _ _ => True))| |auto].
  - intros done p rest packages s1 Hl (H1 & Hpk & Hnd & Hsub & Hdone).
    eapply wp_mono; [apply (process_package_built_wp s0 s1); exact H1| |auto].
    intros packages' s2 (H2 & entry & -> & Hentry). cbv beta.
    split; [exact H2|]. split; [now apply Forall_dict_set|].
    split; [now apply dict_set_NoDup|].
    split; [now apply sublist_dict_set|].
    intros p' Hp'. apply In_dict_set_keys.
    apply in_app_or in Hp' as [Hp'|[<-|[]]]; [left; now apply Hdone|now right].
  - split; [apply ext_refl|]. split; [constructor|]. split; [constructor|].
    split; [constructor|]. intros p [].
  - intros packages s' (_ & Hpk & Hnd & Hsub & Hall).
    split; [exact Hpk|]. split; [exact Hnd|]. exists names.
    split; [exact Hnames|]. split; [exact Hsub|].
    intros p Hp. apply Hall. now apply In_sorted.
Qed.

End BuiltFacts.

(** A variant of the mapping that a scan returned was built from its
    version directory. *)
Lemma emitted_variant_built w s0 s1 packages pkg_name sigs v pkg_props :
  scan w s0 = (inr packages, s1) ->
  emitted_variant packages pkg_name sigs v pkg_props ->
  built w (st_fs s0) pkg_name v pkg_props.
Proof.
  intros Hs (common & variants & Hin & _ & Hvar & Hv).
  destruct (wp_inr _ _ _ _ _ _ (scan_built_wp w s0) Hs) as (Hall & _).
  rewrite List.Forall_forall in Hall. specialize (Hall _ Hin).
  destruct Hall as (c0 & vs0 & es & Hentry & _ & _ & _ & _ & Hvs).
  cbn [fst snd] in *. injection Hentry as ->.
  rewrite dict_get_set_eq in Hvar. injection Hvar as <-.
  rewrite List.Forall_forall in Hvs. specialize (Hvs _ Hv).
  destruct Hvs as (d & Hd & Hb). cbn [fst snd] in *. now injection Hd as <-.
Qed.

(** ** Where the properties of an emitted variant come from *)

Lemma built_property w fs0 pkg_name v (pkg_props : dict) k :
  built w fs0 pkg_name v pkg_props -> ~ In k artifact_keys ->
  exists n badging extracted overrides,
    to_int v = inr n /\
    badging_of w (primary_path pkg_name v) = inr badging /\
    primary_badging pkg_name (initial_props n) badging = inr extracted /\
    load_props w fs0 (version_path pkg_name v) "props" = inr overrides /\
    check_message (dict_update extracted overrides) = inr tt /\
    dict_get pkg_props k = dict_get (dict_update extracted overrides) k /\
    dict_get pkg_props k
    = match dict_get overrides k with
      | Some x => Some x
      | None => dict_get extracted k
      end.
Proof.
  intros (n & badging & extracted & overrides & names & Hn & Hbad & Hprim
          & Hover & Hmsg & _ & rows & _ & _ & Hk) Hnot.
  exists n, badging, extracted, overrides.
  split; [exact Hn|]. split; [exact Hbad|]. split; [exact Hprim|].
  split; [exact Hover|]. split; [exact Hmsg|].
  rewrite (extended_other _ _ _ _ (Hk k) Hnot). split; [reflexivity|].
  apply dict_update_get. exact (load_props_NoDup _ _ _ _ _ Hover).
Qed.

(** X9: Lines 58-95 and 155-159: every property of a variant of the
    mapping, the five lists of the artifacts apart, is the one its
    property file gives when it gives one, and else the one the badging
    of the primary artifact yields, starting from the version code of the
    directory name. *)
Theorem emitted_property w s0 s1 packages pkg_name sigs v pkg_props k :
  scan w s0 = (inr packages, s1) ->
  emitted_variant packages pkg_name sigs v pkg_props ->
  ~ In k artifact_keys ->
  exists n badging extracted overrides,
    to_int v = inr n /\
    badging_of w (primary_path pkg_name v) = inr badging /\
    primary_badging pkg_name (initial_props n) badging = inr extracted /\
    load_props w (st_fs s0) (version_path pkg_name v) "props" = inr overrides /\
    dict_get pkg_props k
    = match dict_get overrides k with
      | Some x => Some x
      | None => dict_get extracted k
      end.
Proof.
  intros Hs He Hk.
  destruct (built_property _ _ _ _ _ k (emitted_variant_built _ _ _ _ _ _ _ _ Hs He) Hk)
    as (n & badging & extracted & overrides & H1 & H2 & H3 & H4 & _ & _ & H5).
  now exists n, badging, extracted, overrides.
Qed.

Lemma emitted_property_witness :
  exists n badging extracted overrides,
    to_int "7" = inr n /\
    badging_of Scenario.good (primary_path "app.one" "7") = inr badging /\
    primary_badging "app.one" (initial_props n) badging = inr extracted /\
    load_props Scenario.good (st_fs (scan_start Scenario.fresh_tree))
      (version_path "app.one" "7") "props" = inr overrides /\
    dict_get (match lookup_variant Runs.fresh_packages "app.one" "7" with
              | Some (_, d) => d
              | None => []
              end) "channel"
    = match dict_get overrides "channel" with
      | Some x => Some x
      | None => dict_get extracted "channel"
      end.
Proof.
  apply (emitted_property Scenario.good (scan_start Scenario.fresh_tree) _
           Runs.fresh_packages "app.one" (PList [PStr "ab12"]) "7" _ "channel"
           (c_scan _ _ _ _ _ _ fresh_completes)).
  - apply lookup_variant_emitted. vm_compute. reflexivity.
  - cbn [artifact_keys In]. intuition discriminate.
Defined.

Lemma flat_map_cell k (f : row -> pyval) (rows : list row) :
  (forall r, cell k r = [f r]) -> flat_map (cell k) rows = map f rows.
Proof.
  intros H. induction rows as [|r rows IH]; [reflexivity|].
  cbn [flat_map map]. now rewrite H, IH.
Qed.

(** X10: Lines 58-59, 115 and 155-159: unless the property file of the
    version sets one of the five lists, they hold one entry for each
    artifact of the version directory, in the sorted order of the names:
    the names, the digests, and the sizes that the artifact and its two
    companions have in the tree. *)
Theorem emitted_artifact_lists w s0 s1 packages pkg_name sigs v pkg_props
    overrides :
  scan w s0 = (inr packages, s1) ->
  emitted_variant packages pkg_name sigs v pkg_props ->
  load_props w (st_fs s0) (version_path pkg_name v) "props" = inr overrides ->
  (forall k, In k artifact_keys -> dict_get overrides k = None) ->
  exists rows,
    map r_name rows = artifacts (st_fs s0) pkg_name v /\
    Forall (measured (st_fs s0) (version_path pkg_name v)) rows /\
    dict_get pkg_props "apks"
    = Some (PList (map (fun r => PStr (r_name r)) rows)) /\
    dict_get pkg_props "apkHashes"
    = Some (PList (map (fun r => PStr (r_hash r)) rows)) /\
    dict_get pkg_props "apkSizes"
    = Some (PList (map (fun r => PInt (r_size r)) rows)) /\
    dict_get pkg_props "apkGzSizes"
    = Some (PList (map (fun r => PInt (r_gz r)) rows)) /\
    dict_get pkg_props "apkBrSizes"
    = Some (PList (map (fun r => PInt (r_br r)) rows)).
Proof.
  intros Hs He Hover Hnone.
  destruct (emitted_variant_built _ _ _ _ _ _ _ _ Hs He)
    as (n & badging & extracted & overrides' & names & Hn & Hbad & Hprim
        & Hover' & _ & Hnames & rows & Hrows & Hm & Hk).
  assert (overrides' = overrides) as -> by congruence.
  assert (forall k, In k artifact_keys ->
            dict_get pkg_props k = Some (PList (flat_map (cell k) rows))) as Hget.
  { intros k Hin. apply (extended_from_nil _ _ _ _ (Hk k)).
    rewrite (dict_update_get_none _ _ _ (Hnone k Hin)).
    rewrite (primary_badging_other _ _ _ _ k Hprim).
    - unfold artifact_keys in Hin. cbn [In] in Hin.
      destruct Hin as [<-|[<-|[<-|[<-|[<-|[]]]]]]; reflexivity.
    - unfold artifact_keys in Hin. cbn [In] in *.
      destruct Hin as [<-|[<-|[<-|[<-|[<-|[]]]]]]; intuition discriminate. }
  exists rows. split.
  { unfold artifacts. now rewrite Hnames. }
  split; [exact Hm|].
  rewrite <- (flat_map_cell "apks" (fun r => PStr (r_name r)) rows) by reflexivity.
  rewrite <- (flat_map_cell "apkHashes" (fun r => PStr (r_hash r)) rows)
    by reflexivity.
  rewrite <- (flat_map_cell "apkSizes" (fun r => PInt (r_size r)) rows)
    by reflexivity.
  rewrite <- (flat_map_cell "apkGzSizes" (fun r => PInt (r_gz r)) rows)
    by reflexivity.
  rewrite <- (flat_map_cell "apkBrSizes" (fun r => PInt (r_br r)) rows)
    by reflexivity.
  unfold artifact_keys in Hget. cbn [In] in Hget.
  repeat split; apply Hget; tauto.
Qed.

Lemma emitted_artifact_lists_witness :
  exists rows,
    map r_name rows = artifacts (st_fs (scan_start Scenario.fresh_tree)) "app.one" "7" /\
    Forall (measured (st_fs (scan_start Scenario.fresh_tree))
              (version_path "app.one" "7")) rows /\
    dict_get (match lookup_variant Runs.fresh_packages "app.one" "7" with
              | Some (_, d) => d
              | None => []
              end) "apks"
    = Some (PList (map (fun r => PStr (r_name r)) rows)) /\
    dict_get (match lookup_variant Runs.fresh_packages "app.one" "7" with
              | Some (_, d) => d
              | None => []
              end) "apkHashes"
    = Some (PList (map (fun r => PStr (r_hash r)) rows)) /\
    dict_get (match lookup_variant Runs.fresh_packages "app.one" "7" with
              | Some (_, d) => d
              | None => []
              end) "apkSizes"
    = Some (PList (map (fun r => PInt (r_size r)) rows)) /\
    dict_get (match lookup_variant Runs.fresh_packages "app.one" "7" with
              | Some (_, d) => d
              | None => []
              end) "apkGzSizes"
    = Some (PList (map (fun r => PInt (r_gz r)) rows)) /\
    dict_get (match lookup_variant Runs.fresh_packages "app.one" "7" with
              | Some (_, d) => d
              | None => []
              end) "apkBrSizes"
    = Some (PList (map (fun r => PInt (r_br r)) rows)).
Proof.
  apply (emitted_artifact_lists Scenario.good (scan_start Scenario.fresh_tree) _
           Runs.fresh_packages "app.one" (PList [PStr "ab12"]) "7" _
           [("channel", PStr "stable")]
           (c_scan _ _ _ _ _ _ fresh_completes)).
  - apply lookup_variant_emitted. vm_compute. reflexivity.
  - vm_compute. reflexivity.
  - intros k Hk. unfold artifact_keys in Hk. cbn [In] in Hk.
    destruct Hk as [<-|[<-|[<-|[<-|[<-|[]]]]]]; reflexivity.
Defined.

(** ** The types that the message needs *)

Lemma joined_inv (d : dict) k : joined d k = inr tt -> joinable d k.
Proof.
  unfold joined, joinable. destruct (dict_get d k) as [v|]; [|auto].
  destruct (py_join ", " v) as [|t]; [discriminate|]. intros _. now exists t.
Qed.

Lemma check_message_inv (d : dict) :
  check_message d = inr tt ->
  (dict_get d "maxSdk" = None \/ exists t, dict_get d "maxSdk" = Some (PStr t)) /\
  joinable d "abis" /\ joinable d "staticDeps" /\ joinable d "deps".
Proof.
  unfold check_message. intros H.
  assert (dict_get d "maxSdk" = None \/
          exists t, dict_get d "maxSdk" = Some (PStr t)) as Hmax.
  { destruct (dict_get d "maxSdk") as [[]|]; try discriminate;
      [right; eauto|now left]. }
  split; [exact Hmax|].
  destruct (match dict_get d "maxSdk" with
            | Some (PStr _) | None => ok tt
            | Some _ => raise TypeError
            end) as [|[]]; [discriminate|]. cbn [res_bind] in H.
  destruct (joined d "abis") as [|[]] eqn:E1; [discriminate|]. cbn [res_bind] in H.
  destruct (joined d "staticDeps") as [|[]] eqn:E2; [discriminate|].
  cbn [res_bind] in H.
  split; [now apply joined_inv|]. split; now apply joined_inv.
Qed.

(** X11: Lines 99-113: building the message of a version checks types.  In
    every variant of the mapping [maxSdk], when there is one, is a
    string, and [abis], [staticDeps] and [deps], when there are, can be
    joined: each is a list of strings, a string or a dictionary. *)
Theorem emitted_message_types w s0 s1 packages pkg_name sigs v pkg_props :
  scan w s0 = (inr packages, s1) ->
  emitted_variant packages pkg_name sigs v pkg_props ->
  (dict_get pkg_props "maxSdk" = None \/
   exists t, dict_get pkg_props "maxSdk" = Some (PStr t)) /\
  joinable pkg_props "abis" /\ joinable pkg_props "staticDeps" /\
  joinable pkg_props "deps".
Proof.
  intros Hs He.
  pose proof (emitted_variant_built _ _ _ _ _ _ _ _ Hs He) as Hb.
  assert (forall k, In k ["maxSdk"; "abis"; "staticDeps"; "deps"] ->
            exists d0, check_message d0 = inr tt /\
              dict_get pkg_props k = dict_get d0 k) as Hsame.
  { intros k Hk.
    destruct (built_property _ _ _ _ _ k Hb)
      as (n & badging & extracted & overrides & _ & _ & _ & _ & Hmsg & Hget & _).
    - unfold artifact_keys. cbn [In] in *. intuition (subst; discriminate).
    - now exists (dict_update extracted overrides). }
  unfold joinable.
  destruct (Hsame "maxSdk") as (d1 & M1 & ->); [cbn; tauto|].
  destruct (Hsame "abis") as (d2 & M2 & ->); [cbn; tauto|].
  destruct (Hsame "staticDeps") as (d3 & M3 & ->); [cbn; tauto|].
  destruct (Hsame "deps") as (d4 & M4 & ->); [cbn; tauto|].
  split; [apply (check_message_inv _ M1)|].
  split; [apply (check_message_inv _ M2)|].
  split; [apply (check_message_inv _ M3)|apply (check_message_inv _ M4)].
Qed.

Lemma emitted_message_types_witness :
  (dict_get (match lookup_variant Runs.fresh_packages "app.one" "7" with
             | Some (_, d) => d
             | None => []
             end) "maxSdk" = None \/
   exists t,
     dict_get (match lookup_variant Runs.fresh_packages "app.one" "7" with
               | Some (_, d) => d
               | None => []
               end) "maxSdk" = Some (PStr t)) /\
  joinable (match lookup_variant Runs.fresh_packages "app.one" "7" with
            | Some (_, d) => d
            | None => []
            end) "abis" /\
  joinable (match lookup_variant Runs.fresh_packages "app.one" "7" with
            | Some (_, d) => d
            | None => []
            end) "staticDeps" /\
  joinable (match lookup_variant Runs.fresh_packages "app.one" "7" with
            | Some (_, d) => d
            | None => []
            end) "deps".
Proof.
  apply (emitted_message_types Scenario.good (scan_start Scenario.fresh_tree) _
           Runs.fresh_packages "app.one" (PList [PStr "ab12"]) "7" _
           (c_scan _ _ _ _ _ _ fresh_completes)).
  apply lookup_variant_emitted. vm_compute. reflexivity.
Defined.

(** ** The order of the mapping *)

Lemma str_le_trans (a b c : string) : str_le a b -> str_le b c -> str_le a c.
Proof.
  unfold str_le, String.leb. intros Hab Hbc.
  destruct (String.compare a b) eqn:E1; [| |discriminate].
  - apply OrderedTypeEx.String_as_OT.cmp_eq in E1. now subst b.
  - destruct (String.compare b c) eqn:E2; [| |discriminate].
    + apply OrderedTypeEx.String_as_OT.cmp_eq in E2. subst c. now rewrite E1.
    + apply OrderedTypeEx.String_as_OT.cmp_lt in E1, E2.
      pose proof (OrderedTypeEx.String_as_OT.lt_trans _ _ _ E1 E2) as H.
      apply OrderedTypeEx.String_as_OT.cmp_lt in H.
      unfold OrderedTypeEx.String_as_OT.cmp in H. now rewrite H.
Qed.

(** [sorted] returns its argument in ascending order. *)
Lemma sorted_ascending (names : list string) :
  StronglySorted str_le (sorted names).
Proof.
  unfold sorted. apply StronglySorted_merge_sort.
  - intros a b c. apply str_le_trans.
  - intros a b. apply String.leb_total.
Qed.

Lemma sublist_In (k l : list string) x : sublist k l -> In x k -> In x l.
Proof.
  intros H Hx. apply list_elem_of_In. apply (elem_of_sublist k l x); [|exact H].
  now apply list_elem_of_In.
Qed.

Lemma sublist_ascending (k l : list string) :
  sublist k l -> StronglySorted str_le l -> StronglySorted str_le k.
Proof.
  induction 1 as [|x k l Hkl IH|x k l Hkl IH]; intros Hl.
  - constructor.
  - apply StronglySorted_inv in Hl as [Hl Hx]. constructor; [now apply IH|].
    rewrite List.Forall_forall in *. intros y Hy. apply Hx.
    exact (sublist_In _ _ _ Hkl Hy).
  - apply StronglySorted_inv in Hl as [Hl _]. now apply IH.
Qed.

(** X12: Lines 42 and 169: the mapping that the scan returns has one entry for
    each name of the package directory and no other, each once, in
    ascending order of the names as strings. *)
Theorem packages_in_order w s0 s1 packages :
  scan w s0 = (inr packages, s1) ->
  exists names,
    listdir (st_fs s0) packages_dir = inr names /\
    (forall p, In p (map fst packages) <-> In p names) /\
    List.NoDup (map fst packages) /\
    StronglySorted str_le (map fst packages).
Proof.
  intros Hs.
  destruct (wp_inr _ _ _ _ _ _ (scan_built_wp w s0) Hs)
    as (_ & Hnd & names & Hnames & Hsub & Hall).
  exists names. split; [exact Hnames|]. split; [|split].
  - intros p. split; [|apply Hall].
    intros Hp. apply In_sorted. exact (sublist_In _ _ _ Hsub Hp).
  - exact Hnd.
  - exact (sublist_ascending _ _ Hsub (sorted_ascending names)).
Qed.

Lemma packages_in_order_witness :
  exists names,
    listdir (st_fs (scan_start Scenario.fresh_tree)) packages_dir = inr names /\
    (forall p, In p (map fst Runs.fresh_packages) <-> In p names) /\
    List.NoDup (map fst Runs.fresh_packages) /\
    StronglySorted str_le (map fst Runs.fresh_packages).
Proof.
  exact (packages_in_order Scenario.good (scan_start Scenario.fresh_tree) _
           Runs.fresh_packages (c_scan _ _ _ _ _ _ fresh_completes)).
Defined.

(** X13: Lines 52-54 and 163-168: the variants of a package of the mapping
    are keyed by entries of its directory, each once, in ascending order
    of the names as strings, which is not the order of the version
    codes. *)
Theorem variants_in_order w s0 s1 packages pkg_name common variants :
  scan w s0 = (inr packages, s1) ->
  In (pkg_name, PDict common) packages ->
  dict_get common "variants" = Some (PDict variants) ->
  exists entries,
    listdir (st_fs s0) (Py.path_join packages_dir pkg_name) = inr entries /\
    (forall v, In v (map fst variants) -> In v entries) /\
    List.NoDup (map fst variants) /\
    StronglySorted str_le (map fst variants).
Proof.
  intros Hs Hin Hvar.
  destruct (wp_inr _ _ _ _ _ _ (scan_built_wp w s0) Hs) as (Hall & _).
  rewrite List.Forall_forall in Hall. specialize (Hall _ Hin).
  destruct Hall as (c0 & vs0 & entries & Hentry & _ & Hentries & Hsub & Hnd & _).
  cbn [fst snd] in *. injection Hentry as ->.
  rewrite dict_get_set_eq in Hvar. injection Hvar as <-.
  exists entries. split; [exact Hentries|]. split; [|split].
  - intros v Hv. apply In_sorted. exact (sublist_In _ _ _ Hsub Hv).
  - exact Hnd.
  - exact (sublist_ascending _ _ Hsub (sorted_ascending entries)).
Qed.

Lemma variants_in_order_witness :
  exists entries,
    listdir (st_fs (scan_start Scenario.fresh_tree))
      (Py.path_join packages_dir "app.one") = inr entries /\
    (forall v, In v (map fst [("7", PDict (match lookup_variant Runs.fresh_packages
                                                   "app.one" "7" with
                                           | Some (_, d) => d
                                           | None => []
                                           end))]) -> In v entries) /\
    List.NoDup (map fst [("7", PDict (match lookup_variant Runs.fresh_packages
                                              "app.one" "7" with
                                      | Some (_, d) => d
                                      | None => []
                                      end))]) /\
    StronglySorted str_le
      (map fst [("7", PDict (match lookup_variant Runs.fresh_packages
                                     "app.one" "7" with
                             | Some (_, d) => d
                             | None => []
                             end))]).
Proof.
  apply (variants_in_order Scenario.good (scan_start Scenario.fresh_tree) _
           Runs.fresh_packages "app.one"
           (match dict_get Runs.fresh_packages "app.one" with
            | Some (PDict c) => c
            | _ => []
            end) _ (c_scan _ _ _ _ _ _ fresh_completes)).
  - apply dict_get_In. vm_compute. reflexivity.
  - vm_compute. reflexivity.
Defined.

(** X14: Lines 43-47 and 168-169: an entry of the mapping holds the
    properties of the common property file of the package, [iconType]
    set to [webp] when the package directory has an icon, and the
    variants under [variants], whatever the file says there. *)
Theorem emitted_package_properties w s0 s1 packages pkg_name entry :
  scan w s0 = (inr packages, s1) ->
  In (pkg_name, entry) packages ->
  exists common loaded variants,
    entry = PDict common /\
    load_props w (st_fs s0) (Py.path_join packages_dir pkg_name) "common-props"
    = inr loaded /\
    dict_get common "variants" = Some (PDict variants) /\
    forall k, k <> "variants" ->
      dict_get common k
      = if String.eqb k "iconType" && isfile (st_fs s0) (icon_path pkg_name)
        then Some (PStr "webp") else dict_get loaded k.
Proof.
  intros Hs Hin.
  destruct (wp_inr _ _ _ _ _ _ (scan_built_wp w s0) Hs) as (Hall & _).
  rewrite List.Forall_forall in Hall. specialize (Hall _ Hin).
  destruct Hall as (c0 & vs0 & entries & Hentry & Hcommon & _).
  cbn [fst snd] in *. subst entry. unfold common_props_of in Hcommon.
  destruct (load_props w (st_fs s0) _ "common-props") as [|loaded] eqn:Hl;
    [discriminate|].
  cbn [res_bind] in Hcommon. unfold ok in Hcommon. injection Hcommon as <-.
  exists (dict_set
            (if isfile (st_fs s0) (Py.path_join (Py.path_join packages_dir pkg_name)
                                     "icon.webp")
             then dict_set loaded "iconType" (PStr "webp") else loaded)
            "variants" (PDict vs0)), loaded, vs0.
  split; [reflexivity|]. split; [reflexivity|].
  split; [apply dict_get_set_eq|].
  intros k Hk. rewrite dict_get_set_ne by congruence. unfold icon_path.
  destruct (isfile (st_fs s0) _).
  - destruct (String.eqb_spec k "iconType") as [->|Hne]; cbn [andb].
    + apply dict_get_set_eq.
    + apply dict_get_set_ne. congruence.
  - now rewrite andb_false_r.
Qed.

Lemma emitted_package_properties_witness :
  exists common loaded variants,
    match dict_get Runs.fresh_packages "app.one" with
    | Some e => e
    | None => PInt 0
    end = PDict common /\
    load_props Scenario.good (st_fs (scan_start Scenario.fresh_tree))
      (Py.path_join packages_dir "app.one") "common-props" = inr loaded /\
    dict_get common "variants" = Some (PDict variants) /\
    forall k, k <> "variants" ->
      dict_get common k
      = if String.eqb k "iconType"
           && isfile (st_fs (scan_start Scenario.fresh_tree)) (icon_path "app.one")
        then Some (PStr "webp") else dict_get loaded k.
Proof.
  apply (emitted_package_properties Scenario.good (scan_start Scenario.fresh_tree)
           _ Runs.fresh_packages "app.one" _ (c_scan _ _ _ _ _ _ fresh_completes)).
  apply dict_get_In. vm_compute. reflexivity.
Defined.

(** ** Whether the publishing stage goes through *)

Lemma publish_exact w packages s1 :
  wp (publish w packages)
     (fun _ _ => publishable w packages (st_fs s1))
     (fun _ _ => ~ publishable w packages (st_fs s1)) s1.
Proof.
  unfold publish, publishable, document.
  set (doc := json_dump w (metadata w packages)).
  apply wp_bind, write_file_wp; intros Hj; rewrite Hj;
    [|intros (? & ? & ? & ? & ? & ? & ? & ? & ?); congruence].
  apply wp_bind. unfold run_signify.
  apply wp_bind, wp_emit, wp_bind, wp_get_fs. cbn [st_fs st_trace].
  unfold read_bytes at 1. rewrite lookup_insert_eq.
  unfold ok at 1. cbv beta iota.
  destruct (signify w doc) as [sig|] eqn:Hsig;
    [|apply wp_throw; intros (? & ? & ? & ? & ? & ? & ? & ? & ?); congruence].
  assert (isdir (<[metadata_json := File doc (write_mtime w)]> (st_fs s1))
            metadata_json_sig = isdir (st_fs s1) metadata_json_sig) as ->.
  { unfold isdir. now rewrite lookup_insert_ne by discriminate. }
  destruct (isdir (st_fs s1) metadata_json_sig) eqn:Hg;
    [apply wp_throw; intros (? & ? & ? & ? & ? & ? & ? & ? & ?); congruence|].
  apply wp_set_fs. cbn [st_fs st_trace].
  set (fs3 := <[metadata_json_sig := File sig (write_mtime w)]>
                (<[metadata_json := File doc (write_mtime w)]> (st_fs s1))).
  assert (isdir fs3 metadata_sjson = isdir (st_fs s1) metadata_sjson) as Hd3.
  { unfold isdir, fs3. now rewrite !lookup_insert_ne by discriminate. }
  assert (read_bytes fs3 metadata_json = inr doc) as Hr3.
  { unfold read_bytes, fs3.
    now rewrite lookup_insert_ne, lookup_insert_eq by discriminate. }
  apply wp_bind. unfold read_sig. apply wp_bind, wp_with_fs; cbn [st_fs].
  2: { intros e He. unfold read_bytes, fs3 in He.
       rewrite lookup_insert_eq in He. discriminate. }
  intros b Hb. unfold read_bytes, fs3 in Hb. rewrite lookup_insert_eq in Hb.
  unfold ok in Hb. injection Hb as <-. fold fs3.
  apply wp_bind, wp_emit. cbn [st_fs st_trace].
  destruct (Py.read_text sig) as [text|] eqn:Hrt;
    [|apply wp_bind, wp_lift; [discriminate|];
      intros e _ (? & ? & ? & ? & ? & ? & ? & ? & ?); congruence].
  apply wp_bind, wp_lift; [|discriminate]. intros t Ht.
  unfold or_raise, ok in Ht. injection Ht as <-.
  unfold str_item.
  destruct (Py.splitlines text !! 1%nat) as [payload|] eqn:Hpl;
    [|apply wp_lift; [discriminate|];
      intros e _ (? & ? & ? & ? & ? & ? & ? & ? & ?); congruence].
  apply wp_lift; [|discriminate]. intros p Hp.
  unfold ok in Hp. injection Hp as <-.
  apply wp_bind. unfold copy. apply wp_bind, wp_get_fs. cbn [st_fs st_trace].
  destruct (isdir (st_fs s1) metadata_sjson) eqn:Hs;
    cbv beta iota zeta; rewrite !Hd3; cbv beta iota.
  - (* the secondary path is a directory: whatever the copy does, the
       append is refused *)
    apply wp_bind, wp_with_fs; cbn [st_fs];
      [|intros e _ (? & ? & ? & ? & ? & ? & ? & ? & ?); congruence].
    intros content _.
    destruct (isdir fs3 (Py.path_join metadata_sjson (Py.basename metadata_json)));
      [apply wp_throw; intros (? & ? & ? & ? & ? & ? & ? & ? & ?); congruence|].
    apply wp_bind, wp_set_fs, wp_emit. cbn [st_fs st_trace].
    unfold append_file. apply wp_bind, wp_get_fs. cbn [st_fs st_trace].
    rewrite lookup_insert_ne by discriminate.
    unfold fs3. rewrite !lookup_insert_ne by discriminate.
    unfold isdir in Hs.
    destruct (st_fs s1 !! metadata_sjson) as [[]|]; try discriminate Hs.
    apply wp_throw. intros (? & ? & ? & ? & ? & ? & ? & ? & ?); congruence.
  - apply wp_bind, wp_with_fs; cbn [st_fs]; [|intros e He; congruence].
    intros content Hc.
    apply wp_bind, wp_set_fs, wp_emit. cbn [st_fs st_trace].
    unfold append_file. apply wp_bind, wp_get_fs. cbn [st_fs st_trace].
    rewrite lookup_insert_eq.
    apply wp_bind, wp_set_fs, wp_emit.
    split; [reflexivity|]. split; [reflexivity|]. split; [reflexivity|].
    now exists sig, text, payload.
Qed.

(** X15: Lines 176-192: after a scan that returned, the manifest is written,
    signed and joined with its signature exactly when none of the three
    output paths was a directory in the tree the scan started from, the
    signing tool exits with 0, and the signature file is text of at
    least two lines. *)
Theorem publish_after_scan w s0 packages s1 :
  scan w s0 = (inr packages, s1) ->
  fst (publish w packages s1) = inr tt <-> publishable w packages (st_fs s0).
Proof.
  intros Hs.
  destruct (wp_inr _ _ _ _ _ _ (scan_wp w s0) Hs) as (Hext & _).
  assert (publishable w packages (st_fs s1) <-> publishable w packages (st_fs s0))
    as Hsame.
  { unfold publishable. now rewrite !(ext_isdir s0 s1 _ Hext). }
  rewrite <- Hsame. pose proof (publish_exact w packages s1) as Hwp.
  unfold wp in Hwp.
  destruct (publish w packages s1) as [[e|[]] s2]; cbn [fst].
  - split; [discriminate|]. intros H. now destruct Hwp.
  - split; [intros _; exact Hwp|reflexivity].
Qed.

Lemma publish_after_scan_witness :
  fst (publish Scenario.good Runs.fresh_packages
         (snd (scan Scenario.good (scan_start Scenario.fresh_tree)))) = inr tt <->
  publishable Scenario.good Runs.fresh_packages
    (st_fs (scan_start Scenario.fresh_tree)).
Proof.
  exact (publish_after_scan Scenario.good (scan_start Scenario.fresh_tree)
           Runs.fresh_packages _ (c_scan _ _ _ _ _ _ fresh_completes)).
Defined.

(** ** The sidecars that a scan leaves *)

Lemma ext_isfile s s' p :
  ext s s' -> isfile (st_fs s) p = true -> isfile (st_fs s') p = true.
Proof.
  intros [F _] H. destruct (F p) as [E|(_ & Hf & _)]; [|exact Hf].
  unfold isfile in *. now rewrite E.
Qed.

(** A loop whose turns each establish a fact about their item that later
    changes of the state keep. *)
Lemma wp_foldM_each {A B} (f : B -> A -> M B) (l : list A) (b : B) s0 s
    (P : A -> State -> Prop) :
  (forall x s1 s2, ext s1 s2 -> P x s1 -> P x s2) ->
  (forall b1 x s1, ext s0 s1 -> In x l ->
     wp (f b1 x) (fun _ s2 => ext s1 s2 /\ P x s2) (fun _ _ => True) s1) ->
  ext s0 s ->
  wp (foldM f l b) (fun _ s' => ext s s' /\ forall x, In x l -> P x s')
     (fun _ _ => True) s.
Proof.
  intros Hstable Hstep H0.
  apply (wp_foldM f (fun done _ s' => ext s s' /\ forall x, In x done -> P x s')).
  - intros done x rest b1 s1 Hl (H1 & Hdone).
    eapply wp_mono; [apply (Hstep b1 x s1)| |auto].
    + now apply ext_trans with s.
    + rewrite Hl. apply in_or_app. right. now left.
    + intros b2 s2 (H2 & Hx). cbv beta. split; [now apply ext_trans with s1|].
      intros y Hy. apply in_app_or in Hy as [Hy|[<-|[]]]; [|exact Hx].
      apply (Hstable y s1 s2 H2). now apply Hdone.
  - split; [apply ext_refl|]. intros x [].
Qed.

Section CacheFacts.
Context (w : World).

(** Lines 124-153: the digest step leaves a sidecar. *)
Lemma apk_digest_sidecar_wp s pkg_name base_sig (pkg_props : dict) path :
  wp (apk_digest w pkg_name base_sig pkg_props path)
     (fun _ s' => isfile (st_fs s') (sidecar_path path) = true)
     (fun _ _ => True) s.
Proof.
  unfold apk_digest, sidecar_path. apply wp_bind, wp_get_fs.
  destruct (isfile (st_fs s) (path +:+ ".sha256")) eqn:Hside.
  - apply wp_bind, wp_with_fs; [|auto]. intros b _.
    apply wp_bind, wp_emit. apply wp_lift; [|auto]. intros h _. exact Hside.
  - apply wp_bind. unfold load_signature. apply wp_bind, wp_emit.
    apply wp_lift; [|auto]. intros sig _.
    destruct (negb (String.eqb sig base_sig)); [now apply wp_throw|].
    apply wp_bind. unfold dump_badging. apply wp_bind, wp_emit.
    apply wp_lift; [|auto]. intros badging _.
    apply wp_bind, wp_lift; [|auto]. intros [] _.
    apply wp_bind, wp_with_fs; [|auto]. intros content _.
    apply wp_bind, wp_emit.
    apply wp_bind, write_file_wp; [|auto]. intros _.
    apply wp_ret. cbn [st_fs]. unfold isfile. now rewrite lookup_insert_eq.
Qed.

Lemma process_apk_sidecar_wp s pkg_name base_sig dir (pkg_props : dict) a :
  Py.endswith a ".apk" = true ->
  wp (process_apk w pkg_name base_sig dir pkg_props a)
     (fun _ s' => ext s s' /\
        isfile (st_fs s') (sidecar_path (Py.path_join dir a)) = true)
     (fun _ _ => True) s.
Proof.
  intros Ha.
  assert (wp (process_apk w pkg_name base_sig dir pkg_props a)
            (fun _ s' => isfile (st_fs s') (sidecar_path (Py.path_join dir a)) = true)
            (fun _ _ => True) s) as Hside.
  { unfold process_apk.
    apply wp_bind, wp_with_fs; [|auto]. intros [] _.
    apply wp_bind.
    eapply wp_mono; [apply apk_digest_sidecar_wp| |auto].
    intros h s1 Hside. cbv beta. apply wp_with_fs; auto. }
  eapply wp_mono;
    [exact (wp_conj _ _ _ _ _ _
              (process_apk_wp w s s _ _ _ _ _ (ext_refl s) Ha) Hside)| |auto].
  intros d' s' [(H1 & _) H2]. now split.
Qed.

Lemma process_version_sidecar_wp s0 s pkg_name sigs (variants : dict) v :
  ext s0 s ->
  wp (process_version w pkg_name sigs (Py.path_join packages_dir pkg_name)
        variants v)
     (fun _ s' => ext s s' /\ version_cached (st_fs s0) pkg_name v s')
     (fun _ _ => True) s.
Proof.
  intros H0.
  enough (wp (process_version w pkg_name sigs (Py.path_join packages_dir pkg_name)
                variants v)
            (fun _ s' => version_cached (st_fs s0) pkg_name v s')
            (fun _ _ => True) s) as Hside.
  { eapply wp_mono;
      [exact (wp_conj _ _ _ _ _ _
                (process_version_wp w s s _ _ _ _ _ (ext_refl s)) Hside)| |auto].
    intros d' s' [(H1 & _) H2]. now split. }
  unfold process_version, version_cached, artifacts, artifact_path, version_path.
  apply wp_bind, wp_get_fs. rewrite (ext_isdir s0 s _ H0).
  destruct (isdir (st_fs s0) _); simpl negb; cbv iota.
  2: { apply wp_ret. discriminate. }
  apply wp_bind, wp_lift; [|auto]. intros n _.
  apply wp_bind, wp_with_fs; [|auto]. intros [] _.
  apply wp_bind. eapply wp_mono; [apply (load_signature_wp w s0); exact H0| |auto].
  intros bsig s1 [H1 _]. cbv beta.
  apply wp_bind, wp_lift; [|auto]. intros known _.
  destruct known; simpl negb; cbv iota; [|now apply wp_throw].
  apply wp_bind. eapply wp_mono; [apply (dump_badging_wp w s0); exact H1| |auto].
  intros badging s2 [H2 _]. cbv beta.
  apply wp_bind, wp_lift; [|auto]. intros extracted _.
  apply wp_bind, wp_with_fs; [|auto]. intros overrides _.
  apply wp_bind, wp_lift; [|auto]. intros [] _.
  apply wp_bind, wp_lift; [|auto]. intros [] _.
  apply wp_bind, wp_with_fs; [|auto]. intros names Hnames.
  apply (ext_listdir s0 s2 _ _ H2) in Hnames. rewrite Hnames.
  apply wp_bind.
  eapply wp_mono;
    [apply (wp_foldM_each _ _ _ s2 s2
             (fun a s' => isfile (st_fs s')
                (sidecar_path (Py.path_join
                   (Py.path_join (Py.path_join packages_dir pkg_name) v) a)) = true))
    | |auto].
  - intros a sa sb Hab. now apply ext_isfile.
  - intros d a sa _ Ha. apply process_apk_sidecar_wp.
    now apply (apk_names_spec names a).
  - apply ext_refl.
  - intros props s3 (_ & Hall). cbv beta.
    apply wp_bind, wp_lift; [|auto]. intros channel _.
    destruct (py_eq_str channel "old"); apply wp_ret; intros _; exact Hall.
Qed.

Lemma version_cached_stable fs0 pkg_name v s1 s2 :
  ext s1 s2 -> version_cached fs0 pkg_name v s1 -> version_cached fs0 pkg_name v s2.
Proof.
  intros H12 H Hdir a Ha. apply (ext_isfile s1 s2 _ H12). now apply H.
Qed.

Lemma process_package_sidecar_wp s0 s (packages : dict) pkg_name :
  ext s0 s ->
  wp (process_package w packages pkg_name)
     (fun _ s' => ext s s' /\ package_cached (st_fs s0) pkg_name s')
     (fun _ _ => True) s.
Proof.
  intros H0. unfold process_package, package_cached.
  apply wp_bind, wp_with_fs; [|auto]. intros common _.
  apply wp_bind, wp_lift; [|auto]. intros sigs _.
  apply wp_bind, wp_with_fs; [|auto]. intros entries Hentries.
  apply (ext_listdir s0 s _ _ H0) in Hentries.
  apply wp_bind.
  eapply wp_mono;
    [apply (wp_foldM_each _ _ _ s0 s
             (fun v s' => version_cached (st_fs s0) pkg_name v s'))
    | |auto].
  - intros v sa sb. apply version_cached_stable.
  - intros d v sa Ha _. now apply process_version_sidecar_wp.
  - exact H0.
  - intros variants s1 (H1 & Hall). cbv beta. apply wp_ret.
    split; [exact H1|]. intros entries' He v Hv.
    assert (entries' = entries) as -> by congruence.
    apply Hall. now apply In_sorted.
Qed.

Lemma scan_sidecar_wp s0 :
  wp (scan w)
     (fun _ s' => forall names, listdir (st_fs s0) packages_dir = inr names ->
        forall p, In p names -> package_cached (st_fs s0) p s')
     (fun _ _ => True) s0.
Proof.
  unfold scan. apply wp_bind, wp_with_fs; [|auto]. intros names Hnames.
  eapply wp_mono;
    [apply (wp_foldM_each _ _ _ s0 s0
             (fun p s' => package_cached (st_fs s0) p s'))
    | |auto].
  - intros p sa sb Hab H entries He v Hv.
    apply (version_cached_stable _ _ _ sa sb Hab). now apply (H entries).
  - intros d p sa Ha _. now apply process_package_sidecar_wp.
  - apply ext_refl.
  - intros packages s1 (_ & Hall) names' Hn p Hp.
    assert (names' = names) as -> by congruence.
    apply Hall. now apply In_sorted.
Qed.

End CacheFacts.

(** X16: Lines 115-153: a scan that returns leaves a sidecar for every
    artifact of every version directory of the tree, the primary
    artifacts and the versions of the old channel included: the next
    scan of the tree finds a digest for each of them. *)
Theorem scan_fills_cache w s0 s1 packages pkg_name v a :
  scan w s0 = (inr packages, s1) ->
  in_tree (st_fs s0) pkg_name v ->
  In a (artifacts (st_fs s0) pkg_name v) ->
  isfile (st_fs s1) (sidecar_path (artifact_path pkg_name v a)) = true.
Proof.
  intros Hs (names & entries & Hnames & Hp & Hentries & Hv & Hdir) Ha.
  exact (wp_inr _ _ _ _ _ _ (scan_sidecar_wp w s0) Hs names Hnames pkg_name Hp
           entries Hentries v Hv Hdir a Ha).
Qed.

Lemma scan_fills_cache_witness :
  isfile (st_fs (snd (scan Scenario.good (scan_start Scenario.fresh_tree))))
    (sidecar_path (artifact_path "app.one" "6" "split.apk")) = true.
Proof.
  apply (scan_fills_cache Scenario.good (scan_start Scenario.fresh_tree) _
           Runs.fresh_packages "app.one" "6" "split.apk"
           (c_scan _ _ _ _ _ _ fresh_completes)).
  - exists ["app.one"], ["7"; "6"; "common-props.toml"; "icon.webp"].
    repeat split; try (vm_compute; reflexivity); cbn; tauto.
  - vm_compute. tauto.
Defined.

(** ** The digest step, twice *)

(** X17: lines 124-153, the round trip through the sidecar.  When the digest
    step has returned [h], the next digest step for the path returns [h]
    again and does nothing but read the sidecar, whatever package name,
    signature and version code are expected then.  After a step that found
    no sidecar this needs the computed digest to be read back as it was
    written: text without carriage returns, as a hexadecimal digest is. *)
Theorem digest_round_trip w pkg_name base_sig (pkg_props : dict) pkg_name'
    base_sig' (pkg_props' : dict) apk_path s h s' :
  apk_digest w pkg_name base_sig pkg_props apk_path s = (inr h, s') ->
  (isfile (st_fs s) (sidecar_path apk_path) = false -> Py.read_text h = Some h) ->
  apk_digest w pkg_name' base_sig' pkg_props' apk_path s'
  = (inr h, mkState (st_fs s') (st_trace s' ++ [EvReadText (sidecar_path apk_path)])).
Proof.
  unfold sidecar_path. intros Hrun Hplain.
  destruct (isfile (st_fs s) (apk_path +:+ ".sha256")) eqn:Hside.
  - unfold isfile in Hside.
    destruct (st_fs s !! (apk_path +:+ ".sha256")) as [[bytes mt|]|] eqn:Hfile;
      try discriminate.
    rewrite (apk_digest_hit _ _ _ _ _ _ _ _ Hfile) in Hrun.
    injection Hrun as Hh <-.
    rewrite (apk_digest_hit w pkg_name' base_sig' pkg_props' apk_path _ bytes mt)
      by exact Hfile.
    cbn [st_fs st_trace]. now rewrite Hh.
  - rewrite (apk_digest_miss _ _ _ _ _ _ Hside) in Hrun.
    destruct (validated w pkg_name base_sig pkg_props apk_path); [discriminate|].
    destruct (read_bytes (st_fs s) apk_path) as [|content]; [discriminate|].
    destruct (isdir (st_fs s) (apk_path +:+ ".sha256")); [discriminate|].
    injection Hrun as <- <-.
    rewrite (apk_digest_hit w pkg_name' base_sig' pkg_props' apk_path _
               (sha256_hexdigest w content) (write_mtime w))
      by (cbn [st_fs]; apply lookup_insert_eq).
    now rewrite (Hplain eq_refl).
Qed.

Lemma digest_round_trip_witness :
  apk_digest Scenario.good "other" "cd34" [] "apps/packages/app.one/7/split.apk"
    (snd (apk_digest Scenario.good "app.one" "ab12" [("versionCode", PInt 7)]
            "apps/packages/app.one/7/split.apk" (scan_start Scenario.fresh_tree)))
  = (inr "h-SPLIT",
     mkState
       (st_fs (snd (apk_digest Scenario.good "app.one" "ab12"
                      [("versionCode", PInt 7)]
                      "apps/packages/app.one/7/split.apk"
                      (scan_start Scenario.fresh_tree))))
       (st_trace (snd (apk_digest Scenario.good "app.one" "ab12"
                         [("versionCode", PInt 7)]
                         "apps/packages/app.one/7/split.apk"
                         (scan_start Scenario.fresh_tree)))
        ++ [EvReadText (sidecar_path "apps/packages/app.one/7/split.apk")])).
Proof.
  apply (digest_round_trip Scenario.good "app.one" "ab12" [("versionCode", PInt 7)]
           "other" "cd34" [] "apps/packages/app.one/7/split.apk"
           (scan_start Scenario.fresh_tree)).
  - vm_compute. reflexivity.
  - intros _. vm_compute. reflexivity.
Defined.
